(** * COVID dashboard: the dataset builder, the query functions, the
      forecast assembly and the plot data of [dataproviders.py], [models.py]
      and [dashboard_manager.py]

    The Python code works on pandas data frames.  A frame is modelled
    row-major: a list of named, typed columns and a list of rows, each row a
    list of cells in column order.  The pandas primitives the code calls
    ([fillna], [dropna], [drop], [groupby(...).sum], [merge], [to_datetime],
    [strftime], [asfreq], [concat], [join]) are given as executable
    functions; the methods of [CovidDataProvider], [CovidArimaModel] and
    [CovidDashboardManager] are written on top of them, statement by
    statement. *)

From Stdlib Require Import ZArith List String Ascii Bool Lia Arith.
From Stdlib Require Import Orders OrdersEx OrdersFacts Sorted DecimalString.
Import ListNotations.
Open Scope string_scope.
Open Scope list_scope.
Open Scope Z_scope.

(** ** Cells *)

(** A cell: [VNull] is pandas' missing value (NaN, NaT, None), [VNum] a
    number (the data are counts, so integers; a float column that holds
    counts and NaN is a column of [VNum] and [VNull]), [VStr] a Python string
    (as its UTF-8 bytes), [VDate] a timestamp at midnight, as the number of
    days since 1970-01-01. *)
Inductive value : Type :=
  | VNull
  | VNum (n : Z)
  | VStr (s : string)
  | VDate (d : Z).

(** The dtype of a column, as far as the code can tell them apart:
    [Numeric] (int64, float64), [Object] (strings, mixed) and [Datetime]
    (datetime64). *)
Inductive dtype : Type := Numeric | Object | Datetime.

Definition dtype_eqb (a b : dtype) : bool :=
  match a, b with
  | Numeric, Numeric | Object, Object | Datetime, Datetime => true
  | _, _ => false
  end.

Definition isna (v : value) : bool :=
  match v with VNull => true | _ => false end.

Definition notna (v : value) : bool := negb (isna v).

(** The order pandas sorts group keys by: numbers by value, strings by code
    point (which is the byte order of their UTF-8 form), timestamps by
    time; in a column of mixed numbers and strings the numbers come first. *)
Definition value_compare (a b : value) : comparison :=
  match a, b with
  | VNull, VNull => Eq
  | VNull, _ => Lt
  | _, VNull => Gt
  | VNum x, VNum y => Z.compare x y
  | VNum _, _ => Lt
  | _, VNum _ => Gt
  | VDate x, VDate y => Z.compare x y
  | VDate _, _ => Lt
  | _, VDate _ => Gt
  | VStr x, VStr y => String_as_OT.compare x y
  end.

(** A group key is the tuple of the key cells of a row; tuples compare
    lexicographically. *)
Fixpoint key_compare (k1 k2 : list value) : comparison :=
  match k1, k2 with
  | [], [] => Eq
  | [], _ :: _ => Lt
  | _ :: _, [] => Gt
  | a :: k1', b :: k2' =>
      match value_compare a b with
      | Eq => key_compare k1' k2'
      | c => c
      end
  end.

Definition key_eqb (k1 k2 : list value) : bool :=
  match key_compare k1 k2 with Eq => true | _ => false end.

(** Insertion into an ascending list of distinct keys. *)
Fixpoint insert_key (k : list value) (ks : list (list value)) : list (list value) :=
  match ks with
  | [] => [k]
  | k' :: ks' =>
      match key_compare k k' with
      | Lt => k :: ks
      | Eq => ks
      | Gt => k' :: insert_key k ks'
      end
  end.

(** The distinct keys of a list of keys, ascending. *)
Definition sorted_keys (l : list (list value)) : list (list value) :=
  fold_right insert_key [] l.

(** ** Exceptions and results *)

(** The exceptions of Python the code raises or lets through.  [Inexact] is
    none of them: it marks a call on numbers beyond the range in which
    pandas adds exactly, where this development gives no result (see
    [exact_sums]). *)
Inductive exn : Type :=
  | AttributeError (msg : string)
  | KeyError (cols : list string)
  | TypeError (msg : string)
  | ValueError (msg : string)
  | Inexact.

(** A call either raises or returns. *)
Inductive result (A : Type) : Type :=
  | Raise (e : exn)
  | Return (a : A).
Arguments Raise {A} e.
Arguments Return {A} a.

Definition bind {A B : Type} (m : result A) (k : A -> result B) : result B :=
  match m with
  | Raise e => Raise e
  | Return a => k a
  end.

Notation "x <- m ;; k" := (bind m (fun x => k))
  (at level 61, m at next level, right associativity).

(** A list of fallible cell computations, left to right; the first
    exception wins. *)
Fixpoint mapM {A B : Type} (f : A -> result B) (l : list A) : result (list B) :=
  match l with
  | [] => Return []
  | a :: l' => b <- f a ;; bs <- mapM f l' ;; Return (b :: bs)
  end.

(** ** Frames *)

Record DataFrame : Type := mkDataFrame {
  columns : list (string * dtype);
  rows : list (list value)
}.

Definition names (df : DataFrame) : list string := map fst (columns df).

(** [c in df] *)
Definition contains (cs : list string) (c : string) : bool :=
  existsb (String.eqb c) cs.

(** [set(cols).issubset(df.columns)] *)
Definition issubset (cols cs : list string) : bool :=
  forallb (contains cs) cols.

(** The dtype of the first column named [c]. *)
Fixpoint dtype_of (cs : list (string * dtype)) (c : string) : option dtype :=
  match cs with
  | [] => None
  | (c', t) :: cs' => if String.eqb c c' then Some t else dtype_of cs' c
  end.

(** The cell of row [r] under column [c]; frames are rectangular, and a row
    that is too short reads as missing there. *)
Fixpoint cell (cs : list string) (r : list value) (c : string) : value :=
  match cs, r with
  | c' :: cs', v :: r' => if String.eqb c c' then v else cell cs' r' c
  | _, _ => VNull
  end.

(** Row [r] with the cell under column [c] replaced. *)
Fixpoint set_cell (cs : list string) (r : list value) (c : string) (v : value)
  : list value :=
  match cs with
  | [] => r
  | c' :: cs' =>
      if String.eqb c c' then v :: tl r
      else hd VNull r :: set_cell cs' (tl r) c v
  end.

(** Row [r] cut or filled with missing cells to the width of [cs]. *)
Fixpoint pad (cs : list string) (r : list value) : list value :=
  match cs with
  | [] => []
  | _ :: cs' =>
      match r with
      | [] => VNull :: pad cs' []
      | v :: r' => v :: pad cs' r'
      end
  end.

(** The column [c] of a frame as a list of cells. *)
Definition series (df : DataFrame) (c : string) : list value :=
  map (fun r => cell (names df) r c) (rows df).

(** The dtype a column has after [c] got dtype [t]. *)
Fixpoint set_dtype (cs : list (string * dtype)) (c : string) (t : dtype)
  : list (string * dtype) :=
  match cs with
  | [] => []
  | (c', t') :: cs' =>
      if String.eqb c c' then (c', t) :: cs' else (c', t') :: set_dtype cs' c t
  end.

(** The names of the columns after [df[c] = ...]. *)
Definition assign_names (cs : list string) (c : string) : list string :=
  if contains cs c then cs else cs ++ [c].

(** One row of [df[c] = vals]: the cell is replaced when the column exists
    and appended otherwise. *)
Definition assign_row (cs : list string) (c : string) (r : list value) (v : value)
  : list value :=
  if contains cs c then set_cell cs r c v else pad cs r ++ [v].

(** [df[c] = vals], for [vals] computed from [df] itself: one value for each
    row, in row order. *)
Definition assign (df : DataFrame) (c : string) (t : dtype) (vals : list value)
  : DataFrame :=
  mkDataFrame
    (if contains (names df) c then set_dtype (columns df) c t
     else columns df ++ [(c, t)])
    (map (fun rv => assign_row (names df) c (fst rv) (snd rv))
         (combine (rows df) vals)).

(** ** Calendar

    [pd.to_datetime], [.dt.year] and [.dt.strftime] on day numbers, in the
    proleptic Gregorian calendar. *)

Definition days_from_civil (y m d : Z) : Z :=
  let y' := if m <=? 2 then y - 1 else y in
  let era := y' / 400 in
  let yoe := y' - era * 400 in
  let mp := if 2 <? m then m - 3 else m + 9 in
  let doy := (153 * mp + 2) / 5 + d - 1 in
  let doe := yoe * 365 + yoe / 4 - yoe / 100 + doy in
  era * 146097 + doe - 719468.

(** Year, month and day of a day number. *)
Definition civil_from_days (z : Z) : Z * Z * Z :=
  let z' := z + 719468 in
  let era := z' / 146097 in
  let doe := z' - era * 146097 in
  let yoe := (doe - doe / 1460 + doe / 36524 - doe / 146096) / 365 in
  let doy := doe - (365 * yoe + yoe / 4 - yoe / 100) in
  let mp := (5 * doy + 2) / 153 in
  let d := doy - (153 * mp + 2) / 5 + 1 in
  let m := if mp <? 10 then mp + 3 else mp - 9 in
  let y := yoe + era * 400 in
  ((if m <=? 2 then y + 1 else y), m, d).

Definition dt_year (d : Z) : Z := fst (fst (civil_from_days d)).
Definition dt_month (d : Z) : Z := snd (fst (civil_from_days d)).

Definition is_leap (y : Z) : bool :=
  ((y mod 4 =? 0) && negb (y mod 100 =? 0)) || (y mod 400 =? 0).

Definition days_in_month (y m : Z) : Z :=
  if m =? 2 then (if is_leap y then 29 else 28)
  else if (m =? 4) || (m =? 6) || (m =? 9) || (m =? 11) then 30
  else 31.

Definition digit_val (a : ascii) : option Z :=
  let n := Z.of_N (N_of_ascii a) in
  if (48 <=? n) && (n <=? 57) then Some (n - 48) else None.

Definition digit_char (n : Z) : ascii := ascii_of_N (Z.to_N (48 + n)).

(** The first and the last day a datetime64[ns] column can hold:
    1677-09-22 and 2262-04-11. *)
Definition timestamp_min : Z := days_from_civil 1677 9 22.
Definition timestamp_max : Z := days_from_civil 2262 4 11.

(** A date written [YYYY-MM-DD], the form the source files use.  pandas
    reads further forms; here every other string raises. *)
Definition parse_iso_date (s : string) : option Z :=
  match s with
  | String y1 (String y2 (String y3 (String y4 (String "-"
      (String m1 (String m2 (String "-" (String d1 (String d2 EmptyString))))))))) =>
      match digit_val y1, digit_val y2, digit_val y3, digit_val y4,
            digit_val m1, digit_val m2, digit_val d1, digit_val d2 with
      | Some a, Some b, Some c, Some d, Some e, Some f, Some g, Some h =>
          let y := 1000 * a + 100 * b + 10 * c + d in
          let m := 10 * e + f in
          let dd := 10 * g + h in
          if (1 <=? m) && (m <=? 12) && (1 <=? dd) && (dd <=? days_in_month y m)
          then
            let n := days_from_civil y m dd in
            if (timestamp_min <=? n) && (n <=? timestamp_max) then Some n else None
          else None
      | _, _, _, _, _, _, _, _ => None
      end
  | _ => None
  end.

(** [pd.to_datetime] on one cell: a string is parsed, a number counts
    nanoseconds since 1970-01-01, a missing cell stays missing (NaT). *)
Definition to_datetime (v : value) : result value :=
  match v with
  | VNull => Return VNull
  | VDate d => Return (VDate d)
  | VNum n => Return (VDate (n / 86400000000000))
  | VStr s =>
      match parse_iso_date s with
      | Some d => Return (VDate d)
      | None => Raise (ValueError "Unknown string format")
      end
  end.

(** [strftime('%Y')]: the year in four digits. *)
Definition strftime_Y (v : value) : value :=
  match v with
  | VDate d =>
      let y := dt_year d in
      VStr (String (digit_char (y / 1000 mod 10))
           (String (digit_char (y / 100 mod 10))
           (String (digit_char (y / 10 mod 10))
           (String (digit_char (y mod 10)) EmptyString))))
  | _ => VNull
  end.

Definition month_name (m : Z) : string :=
  nth (Z.to_nat (m - 1))
      ["January"; "February"; "March"; "April"; "May"; "June"; "July";
       "August"; "September"; "October"; "November"; "December"] "".

(** [strftime('%B')]: the full month name. *)
Definition strftime_B (v : value) : value :=
  match v with
  | VDate d => VStr (month_name (dt_month d))
  | _ => VNull
  end.

(** ** pandas primitives *)

(** [series + suffix] for a string [suffix].  On an object column pandas
    adds cell by cell and keeps missing cells missing; a number in the
    column, or a numeric or datetime column, raises TypeError. *)
Definition str_add (t : option dtype) (col : list value) (suffix : string)
  : result (list value) :=
  match t with
  | Some Object =>
      mapM (fun v =>
              match v with
              | VStr s => Return (VStr (s ++ suffix)%string)
              | VNull => Return VNull
              | _ => Raise (TypeError "unsupported operand type(s) for +")
              end) col
  | _ => Raise (TypeError "unsupported operand type(s) for +")
  end.

(** [series.fillna(other)]: a missing cell takes the cell of [other] at the
    same index label; both series come from one frame, so labels are
    positions. *)
Fixpoint fillna_series (col other : list value) : list value :=
  match col, other with
  | v :: col', o :: other' => (if isna v then o else v) :: fillna_series col' other'
  | _, _ => col
  end.

(** [series.fillna(v)] for a scalar. *)
Definition fillna_scalar (col : list value) (v : value) : list value :=
  map (fun x => if isna x then v else x) col.

(** A column that was filled keeps its dtype unless a string was written
    into a column that was not an object column. *)
Definition filled_dtype (t : option dtype) (vals : list value) : dtype :=
  match t with
  | Some Object | None => Object
  | Some t' =>
      if existsb (fun v => match v with VStr _ => true | _ => false end) vals
      then Object else t'
  end.

(** [df.dropna(subset=[c])] *)
Definition dropna (df : DataFrame) (c : string) : result DataFrame :=
  if contains (names df) c then
    Return (mkDataFrame (columns df)
              (filter (fun r => notna (cell (names df) r c)) (rows df)))
  else Raise (KeyError [c]).

(** The cells of a row that stay when the columns [d] are dropped. *)
Fixpoint drop_cells (cs : list string) (r : list value) (d : list string)
  : list value :=
  match cs with
  | [] => []
  | c :: cs' =>
      if contains d c then drop_cells cs' (tl r) d
      else hd VNull r :: drop_cells cs' (tl r) d
  end.

(** [df.drop(columns=d)] *)
Definition drop_columns (df : DataFrame) (d : list string) : result DataFrame :=
  if issubset d (names df) then
    Return (mkDataFrame
              (filter (fun ct => negb (contains d (fst ct))) (columns df))
              (map (fun r => drop_cells (names df) r d) (rows df)))
  else Raise (KeyError d).

(** The number a cell adds to a sum: missing cells are skipped. *)
Definition num_of (v : value) : Z :=
  match v with VNum n => n | _ => 0 end.

(** The sum of column [c] over the rows [rs], as the sum of the integers.
    It stands for the sum pandas computes only for rows of a frame with
    [exact_sums] below; the calls of pandas that add, [group_by] and
    [merge], give no result for any other frame. *)
Definition sum_col (cs : list string) (c : string) (rs : list (list value)) : Z :=
  fold_right (fun r acc => num_of (cell cs r c) + acc) 0 rs.

(** The sum of the absolute values of column [c] over the rows [rs]. *)
Definition abs_sum (cs : list string) (c : string) (rs : list (list value)) : Z :=
  fold_right (fun r acc => Z.abs (num_of (cell cs r c)) + acc) 0 rs.

(** pandas adds an int64 column with wrap-around and a float64 column,
    which a column of counts becomes as soon as it has a missing cell, with
    rounding.  In a frame in which the absolute values of each numeric
    column add up to less than 2^53, every cell and every sum of cells of a
    column is an integer that int64 and float64 both hold exactly, in
    whatever order the sum is taken: there the sum pandas computes is the
    sum of the integers. *)
Definition exact_sums (df : DataFrame) : bool :=
  forallb (fun ct => negb (dtype_eqb (snd ct) Numeric)
                     || (abs_sum (names df) (fst ct) (rows df) <? 2 ^ 53))
          (columns df).

(** The key of a row under the grouping columns [by_]. *)
Definition key_of (cs : list string) (by_ : list string) (r : list value)
  : list value :=
  map (cell cs r) by_.

(** The rows that belong to a group: those without a missing key cell. *)
Definition keyed_rows (cs by_ : list string) (rs : list (list value))
  : list (list value) :=
  filter (fun r => forallb notna (key_of cs by_ r)) rs.

(** The rows of the group with key [k]. *)
Definition group_of (cs by_ : list string) (rs : list (list value))
  (k : list value) : list (list value) :=
  filter (fun r => key_eqb (key_of cs by_ r) k) rs.

(** The columns a grouped sum keeps beside the keys: the numeric ones. *)
Definition summed_columns (cols : list (string * dtype)) (by_ : list string)
  : list (string * dtype) :=
  filter (fun ct => dtype_eqb (snd ct) Numeric && negb (contains by_ (fst ct))) cols.

(** The frame [df.groupby(by=by_, as_index=False).sum(numeric_only=True)]
    returns for a frame with [exact_sums] and a list [by_] that is not
    empty and names each column once: rows with a missing key cell belong
    to no group; the groups come out in ascending key order; the result has
    the key columns, in the order of [by_], and then every other numeric
    column, summed over the group. *)
Definition groupby_sum (df : DataFrame) (by_ : list string) : DataFrame :=
  let cs := names df in
  let valid := keyed_rows cs by_ (rows df) in
  let summed := summed_columns (columns df) by_ in
  mkDataFrame
    (map (fun c => (c, match dtype_of (columns df) c with
                       | Some t => t
                       | None => Object
                       end)) by_ ++ summed)
    (map (fun k =>
            k ++ map (fun c => VNum (sum_col cs c (group_of cs by_ valid k)))
                     (map fst summed))
         (sorted_keys (map (key_of cs by_) valid))).

(** The name a column of the left (right) frame of a merge gets: a column
    that is no key and occurs on both sides takes the suffix [_x] ([_y]). *)
Definition suffixed (on others : list string) (suffix c : string) : string :=
  if negb (contains on c) && contains others c then (c ++ suffix)%string else c.

(** The columns of a frame that are no merge keys. *)
Definition other_columns (on : list string) (cols : list (string * dtype))
  : list (string * dtype) :=
  filter (fun ct => negb (contains on (fst ct))) cols.

(** The rows of the right frame with the key of the left row [l]. *)
Definition matching_rows (ln rn on : list string) (l : list value)
  (rs : list (list value)) : list (list value) :=
  filter (fun r => key_eqb (key_of ln on l) (key_of rn on r)) rs.

(** A row of the merged frame: the left row and the cells of the other
    columns of the matching right row, missing when there is none. *)
Definition merge_row (ln rn rest : list string) (l : list value)
  (m : option (list value)) : list value :=
  pad ln l ++ match m with
              | Some r => map (cell rn r) rest
              | None => map (fun _ => VNull) rest
              end.

(** [pd.merge(left, right, on=on, how='left')]: every left row, in order,
    once for each right row with the same key (missing key cells match each
    other), or once with missing cells when there is none.  A column of the
    right frame that gets a missing cell becomes float64, which keeps the
    numbers of a frame with [exact_sums]. *)
Definition merge (left right : DataFrame) (on : list string) : result DataFrame :=
  if negb (issubset on (names left) && issubset on (names right)) then
    Raise (KeyError on)
  else if negb (forallb (fun k =>
                  match dtype_of (columns left) k, dtype_of (columns right) k with
                  | Some a, Some b => dtype_eqb a b
                  | _, _ => false
                  end) on) then
    Raise (ValueError "You are trying to merge on columns of different dtypes")
  else if negb (exact_sums right) then Raise Inexact
  else
    let rrest := other_columns on (columns right) in
    let lcols :=
      map (fun ct => (suffixed on (map fst rrest) "_x" (fst ct), snd ct))
          (columns left) in
    let rcols :=
      map (fun ct => (suffixed on (names left) "_y" (fst ct), snd ct)) rrest in
    Return (mkDataFrame (lcols ++ rcols)
      (flat_map
         (fun l =>
            match matching_rows (names left) (names right) on l (rows right) with
            | [] => [merge_row (names left) (names right) (map fst rrest) l None]
            | ms => map (fun r => merge_row (names left) (names right)
                                            (map fst rrest) l (Some r)) ms
            end)
         (rows left))).

(** ** [CovidDataProvider]

    The object after the two [_load_...] methods have run: the two frames
    read from the csv files (the date column of the admissions frame already
    renamed to [Date_of_publication]) and the dataset, [None] until it is
    built.  [pd.read_csv] gives each column name once and reads an empty
    field as a missing cell. *)
Record CovidDataProvider : Type := mkProvider {
  infections_and_mortalities : DataFrame;
  hospital_admissions : DataFrame;
  covid_dataset : option DataFrame
}.

Definition _MERGE_COLUMNS : list string :=
  ["Date_of_publication"; "Municipality_name"].

(** A method reads and writes the fields of [self] and returns or raises;
    what it wrote before raising stays written. *)
Definition method (A : Type) : Type :=
  CovidDataProvider -> CovidDataProvider * result A.

Definition ret {A : Type} (a : A) : method A := fun self => (self, Return a).

Definition raise {A : Type} (e : exn) : method A := fun self => (self, Raise e).

Definition call {A B : Type} (m : method A) (k : A -> method B) : method B :=
  fun self =>
    match m self with
    | (self', Raise e) => (self', Raise e)
    | (self', Return a) => k a self'
    end.

(** A call of a function that does not touch [self]. *)
Definition pure {A : Type} (r : result A) : method A := fun self => (self, r).

Notation "x <~ m ;; k" := (call m (fun x => k))
  (at level 61, m at next level, right associativity).

Definition get_infections_and_mortalities : method DataFrame :=
  fun self => (self, Return (infections_and_mortalities self)).

Definition get_hospital_admissions : method DataFrame :=
  fun self => (self, Return (hospital_admissions self)).

(** [self.covid_dataset] as a frame; on [None] every use below raises. *)
Definition get_covid_dataset : method DataFrame :=
  fun self =>
    match covid_dataset self with
    | Some df => (self, Return df)
    | None =>
        (self, Raise (AttributeError "'NoneType' object has no attribute 'columns'"))
    end.

Definition set_infections_and_mortalities (df : DataFrame) : method unit :=
  fun self =>
    (mkProvider df (hospital_admissions self) (covid_dataset self), Return tt).

Definition set_hospital_admissions (df : DataFrame) : method unit :=
  fun self =>
    (mkProvider (infections_and_mortalities self) df (covid_dataset self), Return tt).

Definition set_covid_dataset (df : DataFrame) : method unit :=
  fun self =>
    (mkProvider (infections_and_mortalities self) (hospital_admissions self)
                (Some df), Return tt).

(** [df.c], the attribute access to a column. *)
Definition getattr (df : DataFrame) (c : string) : result (list value) :=
  if contains (names df) c then Return (series df c)
  else Raise (AttributeError
                ("'DataFrame' object has no attribute '" ++ c ++ "'")%string).

(** [_drop_intermediary_rows(dataset)]: drops, in place, the rows without a
    municipality name.  The result is the frame [dataset] names afterwards;
    the caller's field names the same object. *)
Definition _drop_intermediary_rows (dataset : DataFrame) : result DataFrame :=
  dropna dataset "Municipality_name".

(** [group_by(dataset, grouping_columns)], with [as_index] and
    [numeric_only] at their defaults, as every caller leaves them.  The
    check of the columns lets an empty list pass, for which pandas'
    [groupby] raises ValueError. *)
Definition group_by (dataset : DataFrame) (grouping_columns : list string)
  : result DataFrame :=
  if negb (issubset grouping_columns (names dataset)) then
    Raise (AttributeError "Columns not in dataset")
  else
    match grouping_columns with
    | [] => Raise (ValueError "No group keys passed!")
    | _ :: _ =>
        if exact_sums dataset then Return (groupby_sum dataset grouping_columns)
        else Raise Inexact
    end.

(** The fill is written [self.infections_and_mortalities.Municipality_name
    .fillna(..., inplace=True)]: in the pandas the code was written for, a
    fill in place on a column of a frame changes the frame. *)
Definition _fill_missing_municipalities : method unit :=
  im <~ get_infections_and_mortalities ;;
  if negb (contains (names im) "Municipality_name") then
    raise (AttributeError "No attribute Municipality_name")
  else if negb (contains (names im) "Province") then
    raise (AttributeError "No attribute Province")
  else
    default <~ pure (str_add (dtype_of (columns im) "Province")
                             (series im "Province") " gemeente onbekend") ;;
    let filled := fillna_series (series im "Municipality_name") default in
    set_infections_and_mortalities
      (assign im "Municipality_name"
              (filled_dtype (dtype_of (columns im) "Municipality_name") filled)
              filled).

Definition _clean_infections_and_mortalities_dataset : method unit :=
  _ <~ _fill_missing_municipalities ;;
  im <~ get_infections_and_mortalities ;;
  im <~ pure (_drop_intermediary_rows im) ;;
  _ <~ set_infections_and_mortalities im ;;
  let columns_to_drop :=
    ["Version"; "Date_of_report"; "Municipality_code"; "Security_region_code";
     "Security_region_name"; "Municipal_health_service"; "ROAZ_region"] in
  let grouping_columns := ["Date_of_publication"; "Province"; "Municipality_name"] in
  if negb (issubset columns_to_drop (names im)) then
    raise (AttributeError "Columns to drop not in dataset")
  else
    im <~ pure (drop_columns im columns_to_drop) ;;
    _ <~ set_infections_and_mortalities im ;;
    if negb (issubset grouping_columns (names im)) then
      raise (AttributeError "grouping columns not in dataset")
    else
      im <~ pure (group_by im grouping_columns) ;;
      set_infections_and_mortalities im.

Definition _clean_hospital_admissions_dataset : method unit :=
  ha <~ get_hospital_admissions ;;
  ha <~ pure (_drop_intermediary_rows ha) ;;
  _ <~ set_hospital_admissions ha ;;
  let columns_to_drop :=
    ["Version"; "Date_of_report"; "Municipality_code"; "Security_region_code";
     "Security_region_name"; "Hospital_admission_notification"] in
  let grouping_columns := ["Date_of_publication"; "Municipality_name"] in
  if negb (issubset columns_to_drop (names ha)) then
    raise (AttributeError "Columns to drop not in dataset")
  else
    ha <~ pure (drop_columns ha columns_to_drop) ;;
    _ <~ set_hospital_admissions ha ;;
    if negb (issubset grouping_columns (names ha)) then
      raise (AttributeError "grouping columns not in dataset")
    else
      ha <~ pure (group_by ha grouping_columns) ;;
      set_hospital_admissions ha.

(** The result of [group_by] in the first statement is not bound to
    anything: [self.covid_dataset] stays the merged frame. *)
Definition _clean_covid_dataset : method unit :=
  ds <~ get_covid_dataset ;;
  _ <~ pure (group_by ds _MERGE_COLUMNS) ;;
  ha <~ pure (getattr ds "Hospital_admission") ;;
  let filled := fillna_scalar ha (VNum 0) in
  let ds := assign ds "Hospital_admission"
                   (filled_dtype (dtype_of (columns ds) "Hospital_admission") filled)
                   filled in
  _ <~ set_covid_dataset ds ;;
  dates <~ pure (d <- getattr ds "Date_of_publication" ;; mapM to_datetime d) ;;
  let ds := assign ds "Date_of_publication" Datetime dates in
  _ <~ set_covid_dataset ds ;;
  let ds := assign ds "Year" Object
                   (map strftime_Y (series ds "Date_of_publication")) in
  _ <~ set_covid_dataset ds ;;
  let ds := assign ds "Month" Object
                   (map strftime_B (series ds "Date_of_publication")) in
  set_covid_dataset ds.

Definition _build_covid_dataset : method unit :=
  im <~ get_infections_and_mortalities ;;
  if negb (issubset _MERGE_COLUMNS (names im)) then
    raise (AttributeError "Merge columns not present on infections and mortalities")
  else
    ha <~ get_hospital_admissions ;;
    if negb (issubset _MERGE_COLUMNS (names ha)) then
      raise (AttributeError "Merge columns not present on hospital_admissions")
    else
      _ <~ _clean_infections_and_mortalities_dataset ;;
      _ <~ _clean_hospital_admissions_dataset ;;
      im <~ get_infections_and_mortalities ;;
      ha <~ get_hospital_admissions ;;
      ds <~ pure (merge im ha _MERGE_COLUMNS) ;;
      _ <~ set_covid_dataset ds ;;
      _clean_covid_dataset.

(** [filter_by_year(dataset, year)]; the [.dt] accessor exists on datetime
    columns only. *)
Definition filter_by_year (dataset : DataFrame) (year : Z) : result DataFrame :=
  if negb (contains (names dataset) "Date_of_publication") then
    Raise (AttributeError "No attribute Date_of_publication")
  else
    match dtype_of (columns dataset) "Date_of_publication" with
    | Some Datetime =>
        Return (mkDataFrame (columns dataset)
                  (filter (fun r =>
                             match cell (names dataset) r "Date_of_publication" with
                             | VDate d => dt_year d =? year
                             | _ => false
                             end) (rows dataset)))
    | _ => Raise (AttributeError "Can only use .dt accessor with datetimelike values")
    end.

(** [str.lower()].  Python lowers a string by the Unicode character
    database, which is not written out here: [str_lower] below stands for
    it, on the UTF-8 form of a string, and the statements say what they
    need of it.  On text of the code points below U+0100 (ASCII and
    Latin-1) it is the function [lower_latin]: A to Z become a to z, and
    U+00C0 to U+00DE, without the multiplication sign U+00D7, become U+00E0
    to U+00FE; in UTF-8 these are the bytes 0x80 to 0x9E, without 0x97,
    after the lead byte 0xC3, and they become 0xA0 to 0xBE. *)
Definition capital (after_c3 : bool) (n : N) : bool :=
  ((65 <=? n) && (n <=? 90))%N
  || (after_c3 && (128 <=? n)%N && (n <=? 158)%N && negb (n =? 151)%N).

Definition lower_byte (after_c3 : bool) (a : ascii) : ascii :=
  if capital after_c3 (N_of_ascii a) then ascii_of_N (N_of_ascii a + 32) else a.

Definition is_c3 (a : ascii) : bool := (N_of_ascii a =? 195)%N.

(** The lower-case form of a string, read after the lead byte 0xC3 when
    [after_c3] is set. *)
Fixpoint lower_from (after_c3 : bool) (s : string) : string :=
  match s with
  | EmptyString => EmptyString
  | String a s' => String (lower_byte after_c3 a) (lower_from (is_c3 a) s')
  end.

Definition lower_latin (s : string) : string := lower_from false s.

(** UTF-8 text of the code points below U+0100: bytes below 0x80, and the
    lead bytes 0xC2 and 0xC3 with one continuation byte each. *)
Fixpoint latin_from (after_lead : bool) (s : string) : bool :=
  match s with
  | EmptyString => negb after_lead
  | String a s' =>
      let n := N_of_ascii a in
      if after_lead then (128 <=? n)%N && (n <=? 191)%N && latin_from false s'
      else if (n <? 128)%N then latin_from false s'
      else ((n =? 194)%N || (n =? 195)%N) && latin_from true s'
  end.

Definition latin (s : string) : bool := latin_from false s.

Section Lower.

(** Python's [str.lower]. *)
Variable str_lower : string -> string.

(** [filter_by_province(dataset, province)]; the [.str] accessor exists on
    object columns only, and gives a missing cell for a cell that is no
    string. *)
Definition filter_by_province (dataset : DataFrame) (province : string)
  : result DataFrame :=
  if negb (contains (names dataset) "Province") then
    Raise (AttributeError "No attribute Province")
  else
    match dtype_of (columns dataset) "Province" with
    | Some Object =>
        Return (mkDataFrame (columns dataset)
                  (filter (fun r =>
                             match cell (names dataset) r "Province" with
                             | VStr s => String.eqb (str_lower s) (str_lower province)
                             | _ => false
                             end) (rows dataset)))
    | _ => Raise (AttributeError "Can only use .str accessor with string values!")
    end.

End Lower.

(** ** [CovidArimaModel]

    Frames indexed by date: the daily series and the frame a prediction
    returns.  The index holds day numbers; a row is its index label and its
    cells. *)
Record Indexed (C : Type) : Type := mkIndexed {
  icolumns : list string;
  irows : list (Z * list C)
}.
Arguments mkIndexed {C} icolumns irows.
Arguments icolumns {C} i.
Arguments irows {C} i.

(** The cell of an indexed row under column [c]; [na] where there is
    none. *)
Fixpoint icell {C : Type} (na : C) (cs : list string) (r : list C) (c : string) : C :=
  match cs, r with
  | c' :: cs', v :: r' => if String.eqb c c' then v else icell na cs' r' c
  | _, _ => na
  end.

(** [df.set_index(c)] for a datetime column [c] without missing cells, the
    only index [asfreq] accepts: any other index raises there. *)
Definition set_index (df : DataFrame) (c : string) : result (Indexed value) :=
  if negb (contains (names df) c) then Raise (KeyError [c])
  else
    match dtype_of (columns df) c with
    | Some Datetime =>
        rs <- mapM (fun r =>
                      match cell (names df) r c with
                      | VDate d => Return (d, drop_cells (names df) r [c])
                      | _ => Raise (ValueError "NaT in the index")
                      end) (rows df) ;;
        Return (mkIndexed (filter (fun c' => negb (String.eqb c c')) (names df)) rs)
    | _ => Raise (TypeError "Only valid with DatetimeIndex")
    end.

(** [pd.date_range(first, last, freq='d')] *)
Definition date_range (first last : Z) : list Z :=
  map (fun i => first + Z.of_nat i) (seq 0 (Z.to_nat (last - first + 1))).

(** [df.asfreq('d')]: one row for each day from the first to the last day
    of the index; a day without a row gets missing cells. *)
Definition asfreq_d (df : Indexed value) : result (Indexed value) :=
  match irows df with
  | [] => Raise (ValueError "Neither `start` nor `end` can be NaT")
  | (d0, _) :: rest =>
      let first := fold_right (fun r m => Z.min (fst r) m) d0 rest in
      let last := fold_right (fun r m => Z.max (fst r) m) d0 rest in
      Return (mkIndexed (icolumns df)
                (map (fun d =>
                        (d, match find (fun r => fst r =? d) (irows df) with
                            | Some r => pad (icolumns df) (snd r)
                            | None => map (fun _ => VNull) (icolumns df)
                            end))
                     (date_range first last)))
  end.

(** [pd.concat([a, b])]: the rows of [a], then the rows of [b], under the
    columns of [a] followed by the new columns of [b]; a cell a frame has
    no column for is missing. *)
Definition concat {C : Type} (na : C) (a b : Indexed C) : Indexed C :=
  let cs := icolumns a
            ++ filter (fun c => negb (contains (icolumns a) c)) (icolumns b) in
  mkIndexed cs
    (map (fun r => (fst r, map (icell na (icolumns a) (snd r)) cs)) (irows a)
     ++ map (fun r => (fst r, map (icell na (icolumns b) (snd r)) cs)) (irows b)).

(** [a.join(b)]: the columns of [b] beside those of [a], each row of [a]
    completed with the row of [b] of the same index label, or with missing
    cells. *)
Definition join {C : Type} (na : C) (a b : Indexed C) : result (Indexed C) :=
  if existsb (contains (icolumns a)) (icolumns b) then
    Raise (ValueError "columns overlap but no suffix specified")
  else
    Return (mkIndexed (icolumns a ++ icolumns b)
              (map (fun r =>
                      (fst r,
                       map (icell na (icolumns a) (snd r)) (icolumns a)
                       ++ match find (fun r' => fst r' =? fst r) (irows b) with
                          | Some r' => map (icell na (icolumns b) (snd r')) (icolumns b)
                          | None => map (fun _ => na) (icolumns b)
                          end))
                   (irows a))).

Record CovidArimaModel : Type := mkModel {
  model_dataset : DataFrame
}.

(** [CovidArimaModel(data_provider)] holds a copy of the built dataset. *)
Definition new_model (data_provider : CovidDataProvider) : result CovidArimaModel :=
  match covid_dataset data_provider with
  | Some ds => Return (mkModel ds)
  | None => Raise (TypeError "'NoneType' object is not subscriptable")
  end.

Definition get_covid_time_series (self : CovidArimaModel) : result (Indexed value) :=
  dataset <- group_by (model_dataset self) ["Date_of_publication"] ;;
  dataset <- set_index dataset "Date_of_publication" ;;
  asfreq_d dataset.

(** The last day of the index. *)
Definition last_day {C : Type} (df : Indexed C) : Z :=
  fst (List.last (irows df) (0, [])).

Section Forecast.

(** The numbers statsmodels computes with. *)
Variable F : Type.

(** [ARIMA(series, order=(4, 1, 4)).fit().get_forecast(steps)] with its
    [conf_int(alpha=0.45)]: fitting may raise; otherwise step [i] (from 0)
    has a predicted mean, a lower and an upper bound, and statsmodels
    labels it with the day [i + 1] days after the last day of the daily
    series. *)
Variable arima : list (Z * value) -> nat -> result (nat -> F * F * F).

(** A cell of the frame a prediction returns: a cell of the dataset or a
    number of the forecast. *)
Inductive fcell : Type :=
  | Cell (v : value)
  | Float (x : F).

Definition NaN : fcell := Cell VNull.

Definition observed (df : Indexed value) : Indexed fcell :=
  mkIndexed (icolumns df) (map (fun r => (fst r, map Cell (snd r))) (irows df)).

Definition get_prediction (self : CovidArimaModel) (property_to_predict : string)
  (from_date : Z) (days_to_forecast : nat) : result (Indexed fcell) :=
  df <- get_covid_time_series self ;;
  y <- (if contains (icolumns df) property_to_predict then
          Return (map (fun r => (fst r, icell VNull (icolumns df) (snd r)
                                              property_to_predict)) (irows df))
        else Raise (KeyError [property_to_predict])) ;;
  forecast <- arima y days_to_forecast ;;
  let row_labels :=
    map (fun i => (i, last_day df + 1 + Z.of_nat i)) (seq 0 days_to_forecast) in
  let conf_interval :=
    mkIndexed [("lower " ++ property_to_predict)%string;
               ("upper " ++ property_to_predict)%string]
      (map (fun il => (snd il, [Float (snd (fst (forecast (fst il))));
                                Float (snd (forecast (fst il)))])) row_labels) in
  let df_forecasts :=
    mkIndexed ["predicted_mean"]
      (map (fun il => (snd il, [Float (fst (fst (forecast (fst il))))])) row_labels) in
  let df := concat NaN (observed df) df_forecasts in
  df <- join NaN df conf_interval ;;
  Return (mkIndexed (icolumns df)
            (filter (fun r => from_date <=? fst r) (irows df))).

End Forecast.

Arguments Cell {F} v.
Arguments Float {F} x.
Arguments NaN {F}.

(** ** Definitions the statements use *)

(** The strict order on keys. *)
Definition key_lt (k1 k2 : list value) : Prop := key_compare k1 k2 = Lt.

(** The columns of [required] a frame lacks. *)
Definition missing_columns (required : list string) (df : DataFrame) : list string :=
  filter (fun c => negb (contains (names df) c)) required.

(** The municipality name a missing one is replaced by, from the cell of
    the province. *)
Definition default_municipality (province : value) : value :=
  match province with
  | VStr s => VStr (s ++ " gemeente onbekend")%string
  | _ => VNull
  end.

(** What [_fill_missing_municipalities] makes of one row. *)
Definition fill_row (cs : list string) (r : list value) : list value :=
  set_cell cs r "Municipality_name"
    (if isna (cell cs r "Municipality_name")
     then default_municipality (cell cs r "Province")
     else cell cs r "Municipality_name").

(** Fill, drop, group and sum: statements 1, 2 and 4 of
    [_clean_infections_and_mortalities_dataset], without the drop of the
    administrative columns between them. *)
Definition fill_drop_group : method unit :=
  _ <~ _fill_missing_municipalities ;;
  im <~ get_infections_and_mortalities ;;
  im <~ pure (_drop_intermediary_rows im) ;;
  _ <~ set_infections_and_mortalities im ;;
  im <~ pure (group_by im ["Date_of_publication"; "Province"; "Municipality_name"]) ;;
  set_infections_and_mortalities im.

(** The value of [columns_to_drop] in
    [_clean_infections_and_mortalities_dataset]. *)
Definition case_columns_to_drop : list string :=
  ["Version"; "Date_of_report"; "Municipality_code"; "Security_region_code";
   "Security_region_name"; "Municipal_health_service"; "ROAZ_region"].

(** The value of [columns_to_drop] in
    [_clean_hospital_admissions_dataset]. *)
Definition admission_columns_to_drop : list string :=
  ["Version"; "Date_of_report"; "Municipality_code"; "Security_region_code";
   "Security_region_name"; "Hospital_admission_notification"].

(** The value of [grouping_columns] in
    [_clean_infections_and_mortalities_dataset]. *)
Definition case_grouping_columns : list string :=
  ["Date_of_publication"; "Province"; "Municipality_name"].

(** The names of the columns of the merged frame. *)
Definition merged_names (ln : list string) (right_columns : list (string * dtype))
  (on : list string) : list string :=
  map (suffixed on (map fst (other_columns on right_columns)) "_x") ln
  ++ map (suffixed on ln "_y") (map fst (other_columns on right_columns)).

(** The last character of a string. *)
Fixpoint last_char (s : string) : option ascii :=
  match s with
  | EmptyString => None
  | String a EmptyString => Some a
  | String _ s' => last_char s'
  end.

(** [fillna(0)] on one cell. *)
Definition fill_zero (v : value) : value := if isna v then VNum 0 else v.

(** The timestamp of a cell, for a cell [to_datetime] accepts. *)
Definition datetime_of (v : value) : value :=
  match to_datetime v with Return d => d | Raise _ => VNull end.

(** The names of the columns after [_clean_covid_dataset]. *)
Definition built_names (cs : list string) : list string :=
  assign_names
    (assign_names
       (assign_names (assign_names cs "Hospital_admission") "Date_of_publication")
       "Year")
    "Month".

(** What [_clean_covid_dataset] makes of one row of the merged frame. *)
Definition built_row (cs : list string) (r : list value) : list value :=
  let cs1 := assign_names cs "Hospital_admission" in
  let r1 := assign_row cs "Hospital_admission" r
                       (fill_zero (cell cs r "Hospital_admission")) in
  let cs2 := assign_names cs1 "Date_of_publication" in
  let r2 := assign_row cs1 "Date_of_publication" r1
                       (datetime_of (cell cs1 r1 "Date_of_publication")) in
  let cs3 := assign_names cs2 "Year" in
  let r3 := assign_row cs2 "Year" r2 (strftime_Y (cell cs2 r2 "Date_of_publication")) in
  assign_row cs3 "Month" r3 (strftime_B (cell cs3 r3 "Date_of_publication")).

(** The admissions the source table [ha] reports for the key [k]: the sum
    of [Hospital_admission] over its rows with a municipality name and that
    (date, municipality) key. *)
Definition admissions_of_key (ha : DataFrame) (k : list value) : Z :=
  sum_col (names ha) "Hospital_admission"
    (filter (fun r => notna (cell (names ha) r "Municipality_name")
                      && key_eqb (key_of (names ha) _MERGE_COLUMNS r) k)
            (rows ha)).

(** What the cleaned admission table is made from: the rows of the source
    table [ha] that have a municipality name, without the administrative
    columns. *)
Definition admissions_to_group (ha ha3 : DataFrame) : Prop :=
  columns ha3 = filter (fun ct => negb (contains admission_columns_to_drop (fst ct)))
                       (columns ha) /\
  rows ha3 = map (fun r => drop_cells (names ha) r admission_columns_to_drop)
                 (filter (fun r => notna (cell (names ha) r "Municipality_name"))
                         (rows ha)).

(** The sum of [v] over a list. *)
Definition zsum {A : Type} (v : A -> Z) (l : list A) : Z :=
  fold_right (fun a acc => v a + acc) 0 l.

(** The [by_s] cells of a [by_t] key. *)
Definition sub_key (by_s by_t : list string) (kt : list value) : list value :=
  key_of by_t by_s kt.

(** The columns of the frame after [pd.concat] of the daily series and the
    forecast: those of the series and, unless the series has such a
    column, [predicted_mean]. *)
Definition series_columns (cs : list string) : list string :=
  cs ++ filter (fun c => negb (contains cs c)) ["predicted_mean"].

(** The row a prediction has for a day of the daily series: the cells of
    the series, and no forecast. *)
Definition history_row (F : Type) (cs : list string) (r : Z * list value)
  : Z * list (fcell F) :=
  (fst r,
   map (fun c => Cell (icell VNull cs (snd r) c)) (series_columns cs)
   ++ [NaN; NaN]).

(** The row a prediction has for step [i] of the forecast: the predicted
    mean under [predicted_mean], no other cell of the series, and the two
    bounds. *)
Definition forecast_row (F : Type) (cs : list string) (last : Z)
  (forecast : nat -> F * F * F) (i : nat) : Z * list (fcell F) :=
  (last + 1 + Z.of_nat i,
   map (icell NaN ["predicted_mean"] [Float (fst (fst (forecast i)))])
       (series_columns cs)
   ++ [Float (snd (fst (forecast i))); Float (snd (forecast i))]).

(** The series [ARIMA] is fitted on. *)
Definition endog (df : Indexed value) (c : string) : list (Z * value) :=
  map (fun r => (fst r, icell VNull (icolumns df) (snd r) c)) (irows df).

(** What is assumed of Python's [str.lower]: on text of the code points
    below U+0100 it is [lower_latin]. *)
Definition lowers_latin (str_lower : string -> string) : Prop :=
  forall s, latin s = true -> str_lower s = lower_latin s.






(** ** Tables for the examples *)

(** The columns of the case table. *)
Definition case_columns : list (string * dtype) :=
  [("Version", Numeric); ("Date_of_report", Object);
   ("Date_of_publication", Object); ("Municipality_code", Object);
   ("Municipality_name", Object); ("Province", Object);
   ("Security_region_code", Object); ("Security_region_name", Object);
   ("Municipal_health_service", Object); ("ROAZ_region", Object);
   ("Total_reported", Numeric); ("Deceased", Numeric)].

(** A row of the case table. *)
Definition case_row (date : string) (province municipality : value)
  (total deceased : Z) : list value :=
  [VNum 7; VStr "2022-03-01 10:00:00"; VStr date; VStr "GM0000"; municipality;
   province; VStr "VR00"; VStr "Regio"; VStr "GGD"; VStr "ROAZ";
   VNum total; VNum deceased].

(** The columns of the admission table, the date column renamed. *)
Definition admission_columns : list (string * dtype) :=
  [("Version", Numeric); ("Date_of_report", Object);
   ("Date_of_publication", Object); ("Municipality_code", Object);
   ("Municipality_name", Object); ("Security_region_code", Object);
   ("Security_region_name", Object);
   ("Hospital_admission_notification", Numeric);
   ("Hospital_admission", Numeric)].

(** A row of the admission table. *)
Definition admission_row (date : string) (municipality : value) (admissions : Z)
  : list value :=
  [VNum 7; VStr "2022-03-01 10:00:00"; VStr date; VStr "GM0000"; municipality;
   VStr "VR00"; VStr "Regio"; VNum 0; VNum admissions].

Definition empty_frame : DataFrame := mkDataFrame [] [].

(** The case table of the scenario of the specification, with the four
    columns it names. *)
Definition scenario_cases : DataFrame :=
  mkDataFrame
    [("Date_of_publication", Object); ("Province", Object);
     ("Municipality_name", Object); ("Total_reported", Numeric)]
    [[VStr "2021-01-01"; VStr "Utrecht"; VStr "Utrecht city"; VNum 10];
     [VStr "2021-01-01"; VStr "Utrecht"; VNull; VNum 5]].

(** The same two rows under the columns of the csv source. *)
Definition scenario_cases_csv : DataFrame :=
  mkDataFrame case_columns
    [case_row "2021-01-01" (VStr "Utrecht") (VStr "Utrecht city") 10 0;
     case_row "2021-01-01" (VStr "Utrecht") VNull 5 0].

(** Two municipalities of one name in two provinces, reported on one
    day. *)
Definition bergen_provider : CovidDataProvider :=
  mkProvider
    (mkDataFrame case_columns
       [case_row "2021-01-01" (VStr "Limburg") (VStr "Bergen") 1 0;
        case_row "2021-01-01" (VStr "Noord-Holland") (VStr "Bergen") 2 1])
    (mkDataFrame admission_columns
       [admission_row "2021-01-01" (VStr "Bergen") 3])
    None.

(** A provider with rows of every kind: named and unnamed municipalities,
    with and without a province, with and without admissions. *)
Definition sample_provider : CovidDataProvider :=
  mkProvider
    (mkDataFrame case_columns
       [case_row "2021-01-01" (VStr "Utrecht") (VStr "Utrecht city") 10 1;
        case_row "2021-01-01" (VStr "Utrecht") (VStr "Utrecht city") 2 0;
        case_row "2021-01-01" (VStr "Utrecht") VNull 5 0;
        case_row "2021-01-02" (VStr "Limburg") (VStr "Bergen") 4 0;
        case_row "2021-01-02" VNull VNull 50 0])
    (mkDataFrame admission_columns
       [admission_row "2021-01-01" (VStr "Utrecht city") 3;
        admission_row "2021-01-01" (VStr "Utrecht city") 4;
        admission_row "2021-01-01" VNull 40])
    None.

(** A case table after the fill: two rows of one municipality on one day,
    a defaulted municipality, and a row without a date. *)
Definition sample_cases : DataFrame :=
  mkDataFrame
    [("Date_of_publication", Object); ("Province", Object);
     ("Municipality_name", Object); ("Total_reported", Numeric);
     ("Deceased", Numeric)]
    [[VStr "2021-01-01"; VStr "Utrecht"; VStr "Utrecht city"; VNum 10; VNum 1];
     [VStr "2021-01-01"; VStr "Utrecht"; VStr "Utrecht city"; VNum 2; VNum 0];
     [VStr "2021-01-01"; VStr "Utrecht"; VStr "Utrecht gemeente onbekend";
      VNum 5; VNum 0];
     [VStr "2021-01-02"; VStr "Limburg"; VStr "Bergen"; VNum 4; VNum 0];
     [VNull; VStr "Limburg"; VStr "Bergen"; VNum 9; VNum 9]].

(** A case table without the province. *)
Definition cases_without_province : DataFrame :=
  mkDataFrame
    [("Date_of_publication", Object); ("Municipality_name", Object);
     ("Total_reported", Numeric)]
    [[VStr "2021-01-01"; VStr "Utrecht city"; VNum 10]].

(** An admission table without the admissions. *)
Definition admissions_without_count : DataFrame :=
  mkDataFrame
    [("Version", Numeric); ("Date_of_report", Object);
     ("Date_of_publication", Object); ("Municipality_code", Object);
     ("Municipality_name", Object); ("Security_region_code", Object);
     ("Security_region_name", Object);
     ("Hospital_admission_notification", Numeric)]
    [[VNum 7; VStr "2022-03-01 10:00:00"; VStr "2021-01-01"; VStr "GM0000";
      VStr "Utrecht city"; VStr "VR00"; VStr "Regio"; VNum 0]].



(** A table with a row that lacks the municipality. *)
Definition unnamed_cases : DataFrame :=
  mkDataFrame
    [("Province", Object); ("Municipality_name", Object);
     ("Total_reported", Numeric)]
    [[VStr "Utrecht"; VStr "Utrecht city"; VNum 10];
     [VStr "Utrecht"; VNull; VNum 5]].

(** A table with a numeric year column. *)
Definition yearly_cases : DataFrame :=
  mkDataFrame
    [("Province", Object); ("Year", Numeric); ("Total_reported", Numeric)]
    [[VStr "Utrecht"; VNum 2021; VNum 1];
     [VStr "Utrecht"; VNum 2021; VNum 1]].

(** A model on the dataset built from [sample_provider]. *)
Definition sample_model : CovidArimaModel :=
  match covid_dataset (fst (_build_covid_dataset sample_provider)) with
  | Some ds => mkModel ds
  | None => mkModel empty_frame
  end.

(** A forecast that does not look at the series. *)
Definition sample_arima (y : list (Z * value)) (steps : nat)
  : result (nat -> Z * Z * Z) :=
  Return (fun i => (100 + Z.of_nat i, 90, 110)).

(** The daily series of [sample_model]. *)
Definition sample_series : Indexed value :=
  match get_covid_time_series sample_model with
  | Return df => df
  | Raise _ => mkIndexed [] []
  end.

(** A prediction of two days from 2021-01-02 (day 18629) on. *)
Definition sample_prediction : Indexed (fcell Z) :=
  match get_prediction Z sample_arima sample_model "Total_reported" 18629 2 with
  | Return df => df
  | Raise _ => mkIndexed [] []
  end.

(** ** [get_dataset] and further pandas primitives *)

(** [get_dataset()]: the built dataset, [None] before the build. *)
Definition get_dataset (self : CovidDataProvider) : option DataFrame :=
  covid_dataset self.

Definition value_eqb (a b : value) : bool :=
  match value_compare a b with Eq => true | _ => false end.

(** [series.unique()]: the values in order of first appearance, each once;
    missing cells count as one value. *)
Fixpoint unique (l : list value) : list value :=
  match l with
  | [] => []
  | v :: l' => v :: filter (fun x => negb (value_eqb v x)) (unique l')
  end.

(** [.dt.year] on one cell; the year of a missing timestamp is missing. *)
Definition year_of_cell (v : value) : value :=
  match v with
  | VDate d => VNum (dt_year d)
  | _ => VNull
  end.

(** [str(n)] for an integer, as an f-string prints it. *)
Definition str_of_int (n : Z) : string := NilZero.string_of_int (Z.to_int n).

(** ** [CovidDashboardManager]

    The manager after [__init__] has built the provider: the model, the
    dataset and the selection of the widgets, nothing selected at first.
    The methods that draw with matplotlib are not modelled. *)
Module Dashboard.

Record CovidDashboardManager : Type := mkManager {
  arima_model : CovidArimaModel;
  dataset : DataFrame;
  province : option string;
  year : option Z;
  show_municipalities : bool;
  show_months : bool;
  show_total_reported : bool;
  show_hospital_admission : bool;
  show_deceased : bool
}.

(** [__init__], from the provider it has constructed. *)
Definition init (data_provider : CovidDataProvider) : result CovidDashboardManager :=
  model <- new_model data_provider ;;
  match get_dataset data_provider with
  | Some ds => Return (mkManager model ds None None false false false false false)
  | None => Raise (TypeError "'NoneType' object is not subscriptable")
  end.

Definition update_current_state (self : CovidDashboardManager) (year : Z)
  (show_total_reported show_hospital_admission show_deceased : bool)
  (province : string) (show_municipalities show_months : bool)
  : CovidDashboardManager :=
  mkManager (arima_model self) (dataset self) (Some province) (Some year)
            show_municipalities show_months
            show_total_reported show_hospital_admission show_deceased.

Definition get_years (self : CovidDashboardManager) : result (list value) :=
  dates <- getattr (dataset self) "Date_of_publication" ;;
  match dtype_of (columns (dataset self)) "Date_of_publication" with
  | Some Datetime => Return (unique (map year_of_cell dates))
  | _ => Raise (AttributeError "Can only use .dt accessor with datetimelike values")
  end.

Definition get_provinces (self : CovidDashboardManager) : result (list value) :=
  provinces <- getattr (dataset self) "Province" ;;
  Return ([VStr "Netherlands"; VStr "All provinces"] ++ unique provinces).

(** [CovidDataProvider.filter_by_year(self.dataset, self.year)]; before a
    year is selected [self.year] is [None], which no year equals: the
    checks of [filter_by_year], and no row. *)
Definition filter_by_selected_year (self : CovidDashboardManager) : result DataFrame :=
  match year self with
  | Some y => filter_by_year (dataset self) y
  | None =>
      df <- filter_by_year (dataset self) 0 ;;
      Return (mkDataFrame (columns df) [])
  end.

(** [self.province], where the code has used it as a string before. *)
Definition selected_province (self : CovidDashboardManager) : string :=
  match province self with
  | Some p => p
  | None => ""
  end.

(** How an f-string prints [self.year]. *)
Definition year_text (self : CovidDashboardManager) : string :=
  match year self with
  | Some y => str_of_int y
  | None => "None"
  end.

Section Manager.

(** Python's [str.lower]. *)
Variable str_lower : string -> string.

(** [self.province.lower()] *)
Definition province_lower (self : CovidDashboardManager) : result string :=
  match province self with
  | Some p => Return (str_lower p)
  | None => Raise (AttributeError "'NoneType' object has no attribute 'lower'")
  end.

Definition get_data_for_barplot (self : CovidDashboardManager) : result DataFrame :=
  dataset <- filter_by_selected_year self ;;
  p <- province_lower self ;;
  if String.eqb p "netherlands" then group_by dataset ["Year"]
  else if String.eqb p "all provinces" then group_by dataset ["Year"; "Province"]
  else
    dataset <- filter_by_province str_lower dataset (selected_province self) ;;
    if show_municipalities self then
      group_by dataset ["Year"; "Province"; "Municipality_name"]
    else if show_months self then group_by dataset ["Year"; "Month"]
    else group_by dataset ["Year"; "Province"].

Definition get_data_for_pie_plot (self : CovidDashboardManager) : result DataFrame :=
  dataset <- filter_by_selected_year self ;;
  p <- province_lower self ;;
  if String.eqb p "all provinces" || String.eqb p "netherlands" then
    group_by dataset ["Year"; "Province"]
  else
    dataset <- filter_by_province str_lower dataset (selected_province self) ;;
    group_by dataset ["Year"; "Province"; "Municipality_name"].

(** [_get_barplot_parameters()]: the column of the x axis, the columns to
    plot and the title. *)
Definition _get_barplot_parameters (self : CovidDashboardManager)
  : result (string * list string * string) :=
  p <- province_lower self ;;
  let xt :=
    if String.eqb p "netherlands" then
      ("Year", ("The Netherlands in " ++ year_text self)%string)
    else if String.eqb p "all provinces" then
      ("Province", ("All provinces of The Netherlands in " ++ year_text self)%string)
    else if show_municipalities self then
      ("Municipality_name",
       ("Municipalities of " ++ selected_province self ++ " " ++ year_text self)%string)
    else if show_months self then
      ("Month", (selected_province self ++ " " ++ year_text self ++ " by month")%string)
    else
      ("Province", (selected_province self ++ " in " ++ year_text self)%string) in
  let y :=
    (if show_total_reported self then ["Total_reported"] else [])
    ++ (if show_hospital_admission self then ["Hospital_admission"] else [])
    ++ (if show_deceased self then ["Deceased"] else []) in
  Return (fst xt, y, snd xt).

End Manager.

End Dashboard.

(** The manager over the dataset built from [sample_provider], nothing
    selected. *)
Definition sample_manager : Dashboard.CovidDashboardManager :=
  let ds := mkDataFrame
      [("Date_of_publication", Datetime); ("Province", Object);
       ("Municipality_name", Object); ("Total_reported", Numeric);
       ("Deceased", Numeric); ("Hospital_admission", Numeric);
       ("Year", Object); ("Month", Object)]
      [[VDate 18628; VStr "Utrecht"; VStr "Utrecht city";
        VNum 12; VNum 1; VNum 7; VStr "2021"; VStr "January"];
       [VDate 18628; VStr "Utrecht"; VStr "Utrecht gemeente onbekend";
        VNum 5; VNum 0; VNum 0; VStr "2021"; VStr "January"];
       [VDate 18629; VStr "Limburg"; VStr "Bergen";
        VNum 4; VNum 0; VNum 0; VStr "2021"; VStr "January"]] in
  Dashboard.mkManager (mkModel ds) ds None None false false false false false.

(** * Properties *)

(** ** The order on keys *)

Module StringOrder := OrderedTypeFacts String_as_OT.

Lemma value_compare_eq (a b : value) : value_compare a b = Eq <-> a = b.
Proof.
  destruct a, b; simpl; split; intros H; try discriminate; try reflexivity.
  - apply Z.compare_eq_iff in H. now subst.
  - inversion H; subst. apply Z.compare_refl.
  - apply StringOrder.compare_eq_iff in H. now subst.
  - inversion H; subst. now apply StringOrder.compare_eq_iff.
  - apply Z.compare_eq_iff in H. now subst.
  - inversion H; subst. apply Z.compare_refl.
Qed.

Lemma value_compare_antisym (a b : value) :
  value_compare b a = CompOpp (value_compare a b).
Proof.
  destruct a, b; simpl; try reflexivity.
  - apply Z.compare_antisym.
  - apply StringOrder.compare_antisym.
  - apply Z.compare_antisym.
Qed.

Lemma value_compare_trans (a b c : value) :
  value_compare a b = Lt -> value_compare b c = Lt -> value_compare a c = Lt.
Proof.
  destruct a, b, c; simpl; intros H1 H2; try discriminate; try reflexivity.
  - rewrite Z.compare_lt_iff in *. lia.
  - exact (@StrictOrder_Transitive _ _ String_as_OT.lt_strorder s s0 s1 H1 H2).
  - rewrite Z.compare_lt_iff in *. lia.
Qed.

Lemma key_compare_eq (k1 k2 : list value) : key_compare k1 k2 = Eq <-> k1 = k2.
Proof.
  revert k2. induction k1 as [|a k1 IH]; intros [|b k2]; simpl;
    split; intros H; try discriminate; try reflexivity.
  - destruct (value_compare a b) eqn:E; try discriminate.
    apply value_compare_eq in E. apply IH in H. now subst.
  - inversion H; subst.
    replace (value_compare b b) with Eq by (symmetry; now apply value_compare_eq).
    now apply IH.
Qed.

Lemma key_compare_refl (k : list value) : key_compare k k = Eq.
Proof. now apply key_compare_eq. Qed.

Lemma key_compare_antisym (k1 k2 : list value) :
  key_compare k2 k1 = CompOpp (key_compare k1 k2).
Proof.
  revert k2. induction k1 as [|a k1 IH]; intros [|b k2]; simpl; try reflexivity.
  rewrite (value_compare_antisym a b).
  destruct (value_compare a b); simpl; auto.
Qed.

Lemma key_compare_trans (k1 k2 k3 : list value) :
  key_compare k1 k2 = Lt -> key_compare k2 k3 = Lt -> key_compare k1 k3 = Lt.
Proof.
  revert k2 k3. induction k1 as [|a k1 IH]; intros [|b k2] [|c k3]; simpl;
    intros H1 H2; try discriminate; try reflexivity.
  destruct (value_compare a b) eqn:Eab; try discriminate.
  - apply value_compare_eq in Eab; subst b.
    destruct (value_compare a c); try discriminate; eauto.
  - destruct (value_compare b c) eqn:Ebc; try discriminate.
    + apply value_compare_eq in Ebc; subst c. now rewrite Eab.
    + now rewrite (value_compare_trans a b c).
Qed.

Lemma key_eqb_eq (k1 k2 : list value) : key_eqb k1 k2 = true <-> k1 = k2.
Proof.
  unfold key_eqb. rewrite <- key_compare_eq.
  destruct (key_compare k1 k2); split; intros; congruence.
Qed.

Lemma key_eqb_refl (k : list value) : key_eqb k k = true.
Proof. now apply key_eqb_eq. Qed.

Lemma key_eqb_neq (k1 k2 : list value) : key_eqb k1 k2 = false <-> k1 <> k2.
Proof.
  rewrite <- key_eqb_eq. destruct (key_eqb k1 k2); split; intros; congruence.
Qed.

Lemma key_lt_irrefl (k : list value) : ~ key_lt k k.
Proof. unfold key_lt. now rewrite key_compare_refl. Qed.

Lemma in_insert_key (k k' : list value) (ks : list (list value)) :
  In k' (insert_key k ks) <-> k' = k \/ In k' ks.
Proof.
  induction ks as [|k0 ks IH]; simpl.
  - intuition.
  - destruct (key_compare k k0) eqn:E; simpl.
    + apply key_compare_eq in E; subst. intuition.
    + intuition.
    + rewrite IH. intuition.
Qed.

Lemma in_sorted_keys (k : list value) (l : list (list value)) :
  In k (sorted_keys l) <-> In k l.
Proof.
  induction l as [|k0 l IH]; simpl.
  - tauto.
  - rewrite in_insert_key, IH. intuition.
Qed.

Lemma insert_key_sorted (k : list value) (ks : list (list value)) :
  StronglySorted key_lt ks -> StronglySorted key_lt (insert_key k ks).
Proof.
  induction ks as [|k0 ks IH]; simpl; intros Hs.
  - repeat constructor.
  - inversion Hs as [|? ? Hs' Hall]; subst.
    destruct (key_compare k k0) eqn:E.
    + assumption.
    + constructor; [assumption|]. constructor; [exact E|].
      eapply Forall_impl; [|exact Hall]. intros k1 H1.
      eapply key_compare_trans; eauto.
    + constructor; [now apply IH|].
      apply Forall_forall. intros k1 H1. apply in_insert_key in H1.
      destruct H1 as [->|H1].
      * unfold key_lt. rewrite key_compare_antisym, E. reflexivity.
      * rewrite Forall_forall in Hall. now apply Hall.
Qed.

Lemma sorted_keys_sorted (l : list (list value)) :
  StronglySorted key_lt (sorted_keys l).
Proof.
  induction l as [|k l IH]; simpl.
  - constructor.
  - now apply insert_key_sorted.
Qed.

Lemma sorted_NoDup (ks : list (list value)) :
  StronglySorted key_lt ks -> NoDup ks.
Proof.
  induction 1 as [|k ks Hs IH Hall]; constructor; auto.
  intros Hin. rewrite Forall_forall in Hall.
  exact (key_lt_irrefl k (Hall k Hin)).
Qed.

(** Two ascending lists with the same members are the same list. *)
Lemma sorted_unique (l1 l2 : list (list value)) :
  StronglySorted key_lt l1 -> StronglySorted key_lt l2 ->
  (forall k, In k l1 <-> In k l2) -> l1 = l2.
Proof.
  intros H1. revert l2.
  induction H1 as [|a l1 Hs1 IH Ha]; intros l2 H2 Hin.
  - destruct l2 as [|b l2]; [reflexivity|].
    exfalso. apply (Hin b). now left.
  - destruct l2 as [|b l2].
    + exfalso. apply (Hin a). now left.
    + inversion H2 as [|? ? Hs2 Hb]; subst.
      rewrite Forall_forall in Ha, Hb.
      assert (a = b) as ->.
      { destruct (proj1 (Hin a) (or_introl eq_refl)) as [E|E]; [now subst|].
        destruct (proj2 (Hin b) (or_introl eq_refl)) as [E'|E']; [now subst|].
        exfalso. apply (key_lt_irrefl a).
        eapply key_compare_trans; [apply Ha, E'|apply Hb, E]. }
      f_equal. apply IH; [assumption|].
      intros k; split; intros Hk.
      * destruct (proj1 (Hin k) (or_intror Hk)) as [E|E]; [|assumption].
        subst k. exfalso. exact (key_lt_irrefl b (Ha b Hk)).
      * destruct (proj2 (Hin k) (or_intror Hk)) as [E|E]; [|assumption].
        subst k. exfalso. exact (key_lt_irrefl b (Hb b Hk)).
Qed.

Lemma sorted_keys_ext (l1 l2 : list (list value)) :
  (forall k, In k l1 <-> In k l2) -> sorted_keys l1 = sorted_keys l2.
Proof.
  intros H. apply sorted_unique; try apply sorted_keys_sorted.
  intros k. now rewrite !in_sorted_keys.
Qed.

(** ** Cells, columns and rows *)

Lemma contains_In (cs : list string) (c : string) :
  contains cs c = true <-> In c cs.
Proof.
  unfold contains. rewrite existsb_exists. split.
  - intros [x [Hin Heq]]. apply String.eqb_eq in Heq. now subst.
  - intros Hin. exists c. split; [assumption|apply String.eqb_refl].
Qed.

Lemma contains_false (cs : list string) (c : string) :
  contains cs c = false <-> ~ In c cs.
Proof.
  rewrite <- contains_In. destruct (contains cs c); split; congruence.
Qed.

Lemma contains_cons (c0 : string) (cs : list string) (c : string) :
  contains (c0 :: cs) c = String.eqb c c0 || contains cs c.
Proof. reflexivity. Qed.

Lemma contains_app (cs1 cs2 : list string) (c : string) :
  contains (cs1 ++ cs2) c = contains cs1 c || contains cs2 c.
Proof. unfold contains. apply existsb_app. Qed.

Lemma issubset_incl (cols cs : list string) :
  issubset cols cs = true <-> incl cols cs.
Proof.
  unfold issubset, incl. rewrite forallb_forall.
  split; intros H x Hx; apply contains_In; auto.
Qed.

Lemma names_set_dtype (cs : list (string * dtype)) (c : string) (t : dtype) :
  map fst (set_dtype cs c t) = map fst cs.
Proof.
  induction cs as [|[c' t'] cs IH]; simpl; [reflexivity|].
  destruct (String.eqb c c'); simpl; congruence.
Qed.

Lemma cell_nil (cs : list string) (c : string) : cell cs [] c = VNull.
Proof. now destruct cs. Qed.

Lemma cell_cons (c0 : string) (cs : list string) (r : list value) (c : string) :
  cell (c0 :: cs) r c = if String.eqb c c0 then hd VNull r else cell cs (tl r) c.
Proof.
  destruct r as [|v r]; simpl; [|reflexivity].
  rewrite cell_nil. now destruct (String.eqb c c0).
Qed.

Lemma cell_absent (cs : list string) (r : list value) (c : string) :
  contains cs c = false -> cell cs r c = VNull.
Proof.
  revert r. induction cs as [|c0 cs IH]; intros r H; [reflexivity|].
  rewrite contains_cons in H. apply orb_false_iff in H as [H1 H2].
  rewrite cell_cons, H1. now apply IH.
Qed.

Lemma cell_set_cell_same (cs : list string) (r : list value) (c : string) (v : value) :
  contains cs c = true -> cell cs (set_cell cs r c v) c = v.
Proof.
  revert r. induction cs as [|c0 cs IH]; intros r H; [discriminate|].
  rewrite contains_cons in H. simpl set_cell.
  destruct (String.eqb c c0) eqn:E.
  - simpl. now rewrite E.
  - simpl. rewrite E. now apply IH.
Qed.

Lemma cell_set_cell_other (cs : list string) (r : list value) (c c' : string) (v : value) :
  c' <> c -> cell cs (set_cell cs r c v) c' = cell cs r c'.
Proof.
  intros Hne. revert r. induction cs as [|c0 cs IH]; intros r; [reflexivity|].
  rewrite (cell_cons c0 cs r). simpl set_cell.
  destruct (String.eqb c c0) eqn:E.
  - apply String.eqb_eq in E; subst c0. simpl.
    apply String.eqb_neq in Hne. rewrite Hne.
    now destruct r.
  - simpl. destruct (String.eqb c' c0); [reflexivity|apply IH].
Qed.

Lemma cell_pad (cs : list string) (r : list value) (c : string) :
  cell cs (pad cs r) c = cell cs r c.
Proof.
  revert r. induction cs as [|c0 cs IH]; intros r; [reflexivity|].
  destruct r as [|v r]; simpl.
  - destruct (String.eqb c c0); [reflexivity|]. rewrite IH. apply cell_nil.
  - destruct (String.eqb c c0); [reflexivity|apply IH].
Qed.

Lemma length_pad (cs : list string) (r : list value) :
  List.length (pad cs r) = List.length cs.
Proof.
  revert r. induction cs as [|c0 cs IH]; intros r; [reflexivity|].
  destruct r; simpl; now rewrite IH.
Qed.

(** A cell of a row made of two parts, the first as wide as its columns. *)
Lemma cell_app (cs1 cs2 : list string) (r1 r2 : list value) (c : string) :
  List.length r1 = List.length cs1 ->
  cell (cs1 ++ cs2) (r1 ++ r2) c =
  if contains cs1 c then cell cs1 r1 c else cell cs2 r2 c.
Proof.
  revert r1. induction cs1 as [|c0 cs1 IH]; intros r1 Hlen.
  - destruct r1; [reflexivity|discriminate].
  - destruct r1 as [|v r1]; [discriminate|]. simpl in Hlen.
    simpl. destruct (String.eqb c c0); [reflexivity|].
    apply IH. lia.
Qed.

Lemma cell_map (f : string -> value) (cs : list string) (c : string) :
  cell cs (map f cs) c = if contains cs c then f c else VNull.
Proof.
  induction cs as [|c0 cs IH]; [reflexivity|].
  simpl. destruct (String.eqb c c0) eqn:E.
  - apply String.eqb_eq in E. now subst.
  - exact IH.
Qed.

Lemma cell_assign_row (cs : list string) (c : string) (r : list value) (v : value)
  (c' : string) :
  cell (assign_names cs c) (assign_row cs c r v) c' =
  if String.eqb c' c then v else cell cs r c'.
Proof.
  unfold assign_names, assign_row.
  destruct (contains cs c) eqn:Hc.
  - destruct (String.eqb c' c) eqn:E.
    + apply String.eqb_eq in E; subst. now apply cell_set_cell_same.
    + apply String.eqb_neq in E. now apply cell_set_cell_other.
  - rewrite cell_app by apply length_pad.
    rewrite cell_pad. simpl.
    destruct (String.eqb c' c) eqn:E.
    + apply String.eqb_eq in E; subst. now rewrite Hc.
    + destruct (contains cs c') eqn:Hc'; [reflexivity|].
      now rewrite cell_absent.
Qed.

Lemma names_assign (df : DataFrame) (c : string) (t : dtype) (vals : list value) :
  names (assign df c t vals) = assign_names (names df) c.
Proof.
  unfold assign, assign_names, names at 1. simpl.
  destruct (contains (names df) c).
  - apply names_set_dtype.
  - unfold names. now rewrite map_app.
Qed.

Lemma combine_map_r {A B : Type} (g : A -> B) (l : list A) :
  combine l (map g l) = map (fun a => (a, g a)) l.
Proof. induction l; simpl; congruence. Qed.

(** [df[c] = vals] with the values computed row by row. *)
Lemma rows_assign_map (df : DataFrame) (c : string) (t : dtype)
  (g : list value -> value) :
  rows (assign df c t (map g (rows df))) =
  map (fun r => assign_row (names df) c r (g r)) (rows df).
Proof.
  unfold assign. simpl. rewrite combine_map_r, map_map. reflexivity.
Qed.

Lemma contains_assign_names (cs : list string) (c c' : string) :
  contains (assign_names cs c) c' = contains cs c' || String.eqb c' c.
Proof.
  unfold assign_names. destruct (contains cs c) eqn:E.
  - destruct (String.eqb c' c) eqn:E'.
    + apply String.eqb_eq in E'; subst. rewrite E. reflexivity.
    + now rewrite orb_false_r.
  - rewrite contains_app. simpl. now rewrite orb_false_r.
Qed.

Lemma names_filter (p : string -> bool) (cs : list (string * dtype)) :
  map fst (filter (fun ct => p (fst ct)) cs) = filter p (map fst cs).
Proof.
  induction cs as [|[c t] cs IH]; simpl; [reflexivity|].
  destruct (p c); simpl; congruence.
Qed.

Lemma cell_drop_cells (cs d : list string) (r : list value) (c : string) :
  contains d c = false ->
  cell (filter (fun c' => negb (contains d c')) cs) (drop_cells cs r d) c =
  cell cs r c.
Proof.
  intros Hc. revert r. induction cs as [|c0 cs IH]; intros r; [reflexivity|].
  rewrite (cell_cons c0 cs r). simpl.
  destruct (contains d c0) eqn:E0; simpl.
  - destruct (String.eqb c c0) eqn:E.
    + apply String.eqb_eq in E; subst. congruence.
    + apply IH.
  - destruct (String.eqb c c0); [reflexivity|apply IH].
Qed.

Lemma mapM_Forall2 {A B : Type} (f : A -> result B) (l : list A) (l' : list B) :
  mapM f l = Return l' -> Forall2 (fun a b => f a = Return b) l l'.
Proof.
  revert l'. induction l as [|a l IH]; simpl; intros l' H.
  - inversion H. constructor.
  - destruct (f a) eqn:E; simpl in H; [discriminate|].
    destruct (mapM f l) eqn:E'; simpl in H; [discriminate|].
    inversion H; subst. constructor; auto.
Qed.

Lemma mapM_map_Forall2 {A B C : Type} (f : B -> result C) (g : A -> B)
  (l : list A) (l' : list C) :
  mapM f (map g l) = Return l' -> Forall2 (fun a b => f (g a) = Return b) l l'.
Proof.
  revert l'. induction l as [|a l IH]; simpl; intros l' H.
  - inversion H. constructor.
  - destruct (f (g a)) eqn:E; simpl in H; [discriminate|].
    destruct (mapM f (map g l)) eqn:E'; simpl in H; [discriminate|].
    inversion H; subst. constructor; auto.
Qed.

(** ** The methods, step by step *)

Lemma str_add_rows (t : option dtype) (cs : list string) (rs : list (list value))
  (c sfx : string) (default : list value) :
  str_add t (map (fun r => cell cs r c) rs) sfx = Return default ->
  t = Some Object /\
  Forall2 (fun r d =>
             match cell cs r c with
             | VStr s => d = VStr (s ++ sfx)%string
             | VNull => d = VNull
             | _ => False
             end) rs default.
Proof.
  unfold str_add. destruct t as [[| |]|]; try discriminate.
  intros H. split; [reflexivity|].
  apply mapM_map_Forall2 in H.
  eapply Forall2_impl; [|exact H]. simpl. intros r d Hd.
  destruct (cell cs r c); congruence.
Qed.

Lemma fill_rows (cs : list string) (rs : list (list value)) (default : list value) :
  Forall2 (fun r d =>
             match cell cs r "Province" with
             | VStr s => d = VStr (s ++ " gemeente onbekend")%string
             | VNull => d = VNull
             | _ => False
             end) rs default ->
  map (fun rv => assign_row cs "Municipality_name" (fst rv) (snd rv))
      (combine rs (fillna_series (map (fun r => cell cs r "Municipality_name") rs)
                                 default)) =
  map (fun r => assign_row cs "Municipality_name" r
                  (if isna (cell cs r "Municipality_name")
                   then default_municipality (cell cs r "Province")
                   else cell cs r "Municipality_name")) rs.
Proof.
  induction 1 as [|r d rs default Hd _ IH]; [reflexivity|].
  simpl. rewrite IH. f_equal. f_equal.
  destruct (isna (cell cs r "Municipality_name")); [|reflexivity].
  unfold default_municipality.
  destruct (cell cs r "Province"); try contradiction; congruence.
Qed.

(** A call of [_fill_missing_municipalities] that returns has filled every
    row as [fill_row] says and has touched nothing else. *)
Lemma fill_missing_returns (self self' : CovidDataProvider) :
  _fill_missing_municipalities self = (self', Return tt) ->
  let im := infections_and_mortalities self in
  let im' := infections_and_mortalities self' in
  contains (names im) "Municipality_name" = true /\
  contains (names im) "Province" = true /\
  names im' = names im /\
  rows im' = map (fill_row (names im)) (rows im) /\
  hospital_admissions self' = hospital_admissions self /\
  covid_dataset self' = covid_dataset self.
Proof.
  unfold _fill_missing_municipalities, call, get_infections_and_mortalities,
    raise, pure, set_infections_and_mortalities.
  destruct (contains (names (infections_and_mortalities self)) "Municipality_name")
    eqn:Hm; simpl; [|discriminate].
  destruct (contains (names (infections_and_mortalities self)) "Province")
    eqn:Hp; simpl; [|discriminate].
  unfold series at 1.
  destruct (str_add _ _ _) as [e|default] eqn:Hs; [discriminate|].
  intros H. inversion H; subst; clear H. simpl.
  apply str_add_rows in Hs as [_ Hs].
  repeat split.
  - rewrite names_assign. unfold assign_names. now rewrite Hm.
  - unfold assign, series. simpl. rewrite (fill_rows _ _ _ Hs).
    apply map_ext. intros r. unfold assign_row, fill_row. now rewrite Hm.
Qed.

(** ** The scenario of the specification (C3) *)

(** C3, as stated, fails: on the case table
    [("2021-01-01","Utrecht","Utrecht city",10), ("2021-01-01","Utrecht",null,5)]
    fill, drop, group and sum give two rows, and one of them is the row that
    had no municipality, now named "Utrecht gemeente onbekend". *)
Lemma scenario_keeps_two_rows :
  let out := rows (infections_and_mortalities
                     (fst (fill_drop_group
                             (mkProvider scenario_cases empty_frame None)))) in
  List.length out = 2%nat /\
  In [VStr "2021-01-01"; VStr "Utrecht"; VStr "Utrecht gemeente onbekend"; VNum 5] out.
Proof.
  vm_compute. split; [reflexivity|]. right. left. reflexivity.
Qed.

(** C3, amended: on the scenario's case table the three steps return and
    leave exactly the rows ("2021-01-01","Utrecht","Utrecht city",10) and
    ("2021-01-01","Utrecht","Utrecht gemeente onbekend",5); the whole of
    [_clean_infections_and_mortalities_dataset] gives the same two rows on
    the table with the columns of the csv source, and raises on the
    four-column table, whose administrative columns are absent, after it has
    filled the name in. *)
Theorem scenario_fill_defaults_the_unnamed_row :
  fill_drop_group (mkProvider scenario_cases empty_frame None) =
    (mkProvider
       (mkDataFrame
          [("Date_of_publication", Object); ("Province", Object);
           ("Municipality_name", Object); ("Total_reported", Numeric)]
          [[VStr "2021-01-01"; VStr "Utrecht"; VStr "Utrecht city"; VNum 10];
           [VStr "2021-01-01"; VStr "Utrecht"; VStr "Utrecht gemeente onbekend";
            VNum 5]])
       empty_frame None, Return tt) /\
  _clean_infections_and_mortalities_dataset
    (mkProvider scenario_cases_csv empty_frame None) =
    (mkProvider
       (mkDataFrame
          [("Date_of_publication", Object); ("Province", Object);
           ("Municipality_name", Object); ("Total_reported", Numeric);
           ("Deceased", Numeric)]
          [[VStr "2021-01-01"; VStr "Utrecht"; VStr "Utrecht city"; VNum 10; VNum 0];
           [VStr "2021-01-01"; VStr "Utrecht"; VStr "Utrecht gemeente onbekend";
            VNum 5; VNum 0]])
       empty_frame None, Return tt) /\
  _clean_infections_and_mortalities_dataset
    (mkProvider scenario_cases empty_frame None) =
    (mkProvider
       (mkDataFrame
          [("Date_of_publication", Object); ("Province", Object);
           ("Municipality_name", Object); ("Total_reported", Numeric)]
          [[VStr "2021-01-01"; VStr "Utrecht"; VStr "Utrecht city"; VNum 10];
           [VStr "2021-01-01"; VStr "Utrecht"; VStr "Utrecht gemeente onbekend";
            VNum 5]])
       empty_frame None,
     Raise (AttributeError "Columns to drop not in dataset")).
Proof.
  split; [|split]; vm_compute; reflexivity.
Qed.

(** ** The re-grouping of the merged frame (C4) *)

(** C4 on [bergen_provider]: the build returns, and the dataset it leaves
    has two rows with the key (2021-01-01, "Bergen"), one for each province;
    grouping that dataset by the merge columns, as the first statement of
    [_clean_covid_dataset] does with the merged frame, gives one row, but
    the build has not kept such a result. *)
Theorem regrouped_frame_is_not_kept :
  exists self' ds r1 r2,
    _build_covid_dataset bergen_provider = (self', Return tt) /\
    covid_dataset self' = Some ds /\
    rows ds = [r1; r2] /\
    key_of (names ds) _MERGE_COLUMNS r1 = [VDate 18628; VStr "Bergen"] /\
    key_of (names ds) _MERGE_COLUMNS r2 = [VDate 18628; VStr "Bergen"] /\
    exists grouped,
      group_by ds _MERGE_COLUMNS = Return grouped /\
      List.length (rows grouped) = 1%nat.
Proof.
  eexists. eexists. eexists. eexists.
  split; [vm_compute; reflexivity|].
  split; [reflexivity|].
  split; [reflexivity|].
  split; [reflexivity|].
  split; [reflexivity|].
  eexists. split; vm_compute; reflexivity.
Qed.

(** ** Rows without municipality and province (C10) *)

Lemma filter_length_lt {A : Type} (f : A -> bool) (l : list A) (x : A) :
  In x l -> f x = false -> (List.length (filter f l) < List.length l)%nat.
Proof.
  induction l as [|a l IH]; simpl; intros Hin Hf; [contradiction|].
  pose proof (filter_length_le f l) as Hle.
  destruct Hin as [->|Hin].
  - rewrite Hf. lia.
  - specialize (IH Hin Hf). destruct (f a); simpl; lia.
Qed.

(** C10.  When [_fill_missing_municipalities] returns, a row of the case
    table whose municipality and province are both missing still has no
    municipality name; [_drop_intermediary_rows], called next, returns a
    frame that has no such row and fewer rows than before: the row is
    dropped, not given a default, and the drop does change the table. *)
Theorem unnamed_row_without_province_is_dropped
  (self self' : CovidDataProvider) (i : nat) (r : list value) :
  _fill_missing_municipalities self = (self', Return tt) ->
  nth_error (rows (infections_and_mortalities self)) i = Some r ->
  cell (names (infections_and_mortalities self)) r "Municipality_name" = VNull ->
  cell (names (infections_and_mortalities self)) r "Province" = VNull ->
  exists r' im'',
    nth_error (rows (infections_and_mortalities self')) i = Some r' /\
    cell (names (infections_and_mortalities self')) r' "Municipality_name" = VNull /\
    _drop_intermediary_rows (infections_and_mortalities self') = Return im'' /\
    ~ In r' (rows im'') /\
    Forall (fun x => cell (names im'') x "Municipality_name" <> VNull) (rows im'') /\
    (List.length (rows im'') < List.length (rows (infections_and_mortalities self')))%nat.
Proof.
  intros Hfill Hi Hm Hp.
  destruct (fill_missing_returns _ _ Hfill) as (Hcm & _ & Hn & Hr & _).
  set (im := infections_and_mortalities self) in *.
  set (im' := infections_and_mortalities self') in *.
  assert (Hi' : nth_error (rows im') i = Some (fill_row (names im) r)).
  { rewrite Hr. now apply map_nth_error. }
  assert (Hnull : cell (names im') (fill_row (names im) r) "Municipality_name" = VNull).
  { rewrite Hn. unfold fill_row. rewrite cell_set_cell_same by assumption.
    rewrite Hm, Hp. reflexivity. }
  exists (fill_row (names im) r).
  exists (mkDataFrame (columns im')
            (filter (fun x => notna (cell (names im') x "Municipality_name"))
                    (rows im'))).
  split; [assumption|]. split; [assumption|].
  split.
  { unfold _drop_intermediary_rows, dropna. rewrite Hn, Hcm. reflexivity. }
  split.
  { simpl. rewrite filter_In. intros [_ Hx]. rewrite Hnull in Hx. discriminate. }
  split.
  { simpl. apply Forall_forall. intros x Hx. apply filter_In in Hx as [_ Hx].
    unfold names at 1. simpl. fold (names im').
    intros E. rewrite E in Hx. discriminate. }
  simpl. eapply filter_length_lt.
  - eapply nth_error_In. exact Hi'.
  - simpl. now rewrite Hnull.
Qed.

(** The last row of the case table of [sample_provider] is such a row. *)
Lemma unnamed_row_without_province_is_dropped_witness :
  exists r' im'',
    nth_error (rows (infections_and_mortalities
                       (fst (_fill_missing_municipalities sample_provider)))) 4
      = Some r' /\
    cell (names (infections_and_mortalities
                   (fst (_fill_missing_municipalities sample_provider))))
         r' "Municipality_name" = VNull /\
    _drop_intermediary_rows
      (infections_and_mortalities
         (fst (_fill_missing_municipalities sample_provider))) = Return im'' /\
    ~ In r' (rows im'') /\
    Forall (fun x => cell (names im'') x "Municipality_name" <> VNull) (rows im'') /\
    (List.length (rows im'')
     < List.length (rows (infections_and_mortalities
                            (fst (_fill_missing_municipalities sample_provider)))))%nat.
Proof.
  apply (unnamed_row_without_province_is_dropped
           sample_provider (fst (_fill_missing_municipalities sample_provider))
           4 (case_row "2021-01-02" VNull VNull 50 0));
    reflexivity.
Defined.

(** ** Checks of the columns (C1) *)

Lemma missing_columns_nil (required : list string) (df : DataFrame) :
  missing_columns required df = [] <-> issubset required (names df) = true.
Proof.
  unfold missing_columns, issubset.
  induction required as [|c required IH]; simpl; [tauto|].
  destruct (contains (names df) c); simpl; [exact IH|].
  split; discriminate.
Qed.

Lemma missing_columns_issubset (required : list string) (df : DataFrame) :
  missing_columns required df <> [] -> issubset required (names df) = false.
Proof.
  rewrite missing_columns_nil. now destruct (issubset required (names df)).
Qed.

(** ** Filtering by province (C9) *)








(** ** Grouped sums *)

Lemma names_groupby_sum (df : DataFrame) (by_ : list string) :
  names (groupby_sum df by_) = by_ ++ map fst (summed_columns (columns df) by_).
Proof.
  unfold names, groupby_sum. simpl. rewrite map_app, map_map. simpl.
  now rewrite map_id.
Qed.

(** The key cells of a row of a grouped sum are the key of its group. *)
Lemma key_of_group_row (cs by_ ns : list string) (r x : list value) :
  key_of (by_ ++ ns) by_ (key_of cs by_ r ++ x) = key_of cs by_ r.
Proof.
  unfold key_of at 1. apply map_ext_in. intros c Hc.
  rewrite cell_app by (unfold key_of; apply length_map).
  apply contains_In in Hc. rewrite Hc.
  unfold key_of. rewrite cell_map. now rewrite Hc.
Qed.

Lemma cell_group_row_key (cs by_ ns : list string) (r x : list value) (c : string) :
  In c by_ ->
  cell (by_ ++ ns) (key_of cs by_ r ++ x) c = cell cs r c.
Proof.
  intros Hc. rewrite cell_app by (unfold key_of; apply length_map).
  apply contains_In in Hc. rewrite Hc.
  unfold key_of. rewrite cell_map. now rewrite Hc.
Qed.

(** Every key of a grouped sum is the key of a row that has all its key
    cells. *)
Lemma group_key_origin (cs by_ : list string) (rs : list (list value))
  (k : list value) :
  In k (sorted_keys (map (key_of cs by_) (keyed_rows cs by_ rs))) ->
  exists r, In r rs /\ forallb notna (key_of cs by_ r) = true /\ key_of cs by_ r = k.
Proof.
  rewrite in_sorted_keys, in_map_iff. intros [r [Hk Hr]].
  unfold keyed_rows in Hr. apply filter_In in Hr as [Hr Hv].
  exists r. auto.
Qed.

(** Every row of a grouped sum starts with the key of a row of the frame,
    and the keys of its rows are distinct and ascending. *)
Lemma groupby_sum_rows (df : DataFrame) (by_ : list string) (g : list value) :
  In g (rows (groupby_sum df by_)) ->
  exists r x, In r (rows df) /\
              forallb notna (key_of (names df) by_ r) = true /\
              g = key_of (names df) by_ r ++ x.
Proof.
  unfold groupby_sum. simpl. rewrite in_map_iff. intros [k [Hg Hk]].
  apply group_key_origin in Hk as [r [Hr [Hv Hk]]].
  exists r. eexists. split; [assumption|]. split; [assumption|].
  rewrite Hk. symmetry. exact Hg.
Qed.

Lemma groupby_sum_keys (df : DataFrame) (by_ : list string) :
  map (key_of (names (groupby_sum df by_)) by_) (rows (groupby_sum df by_)) =
  sorted_keys (map (key_of (names df) by_) (keyed_rows (names df) by_ (rows df))).
Proof.
  rewrite names_groupby_sum. unfold groupby_sum. simpl. rewrite map_map.
  rewrite <- (map_id (sorted_keys _)) at 2.
  apply map_ext_in. intros k Hk.
  apply group_key_origin in Hk as [r [_ [_ Hk]]]. subst k.
  apply key_of_group_row.
Qed.

Lemma groupby_sum_keys_NoDup (df : DataFrame) (by_ : list string) :
  NoDup (map (key_of (names (groupby_sum df by_)) by_) (rows (groupby_sum df by_))).
Proof.
  rewrite groupby_sum_keys. apply sorted_NoDup, sorted_keys_sorted.
Qed.

(** ** The two cleaning methods *)

Lemma names_drop_columns (df df' : DataFrame) (d : list string) :
  drop_columns df d = Return df' ->
  columns df' = filter (fun ct => negb (contains d (fst ct))) (columns df) /\
  names df' = filter (fun c => negb (contains d c)) (names df) /\
  rows df' = map (fun r => drop_cells (names df) r d) (rows df).
Proof.
  unfold drop_columns. destruct (issubset d (names df)); [|discriminate].
  intros H. inversion H; subst; clear H. simpl.
  split; [reflexivity|]. split; [|reflexivity].
  unfold names. simpl. apply names_filter with (p := fun c => negb (contains d c)).
Qed.

(** A call of [_clean_infections_and_mortalities_dataset] that returns
    leaves the grouped sum of the filled rows that have a municipality name,
    without the administrative columns; the other fields stay. *)
Lemma clean_cases_returns (self self' : CovidDataProvider) :
  _clean_infections_and_mortalities_dataset self = (self', Return tt) ->
  exists im3,
    infections_and_mortalities self' =
      groupby_sum im3 ["Date_of_publication"; "Province"; "Municipality_name"] /\
    names im3 = filter (fun c => negb (contains case_columns_to_drop c))
                       (names (infections_and_mortalities self)) /\
    rows im3 =
      map (fun r => drop_cells (names (infections_and_mortalities self)) r
                               case_columns_to_drop)
          (filter (fun r => notna (cell (names (infections_and_mortalities self)) r
                                        "Municipality_name"))
                  (map (fill_row (names (infections_and_mortalities self)))
                       (rows (infections_and_mortalities self)))) /\
    hospital_admissions self' = hospital_admissions self /\
    covid_dataset self' = covid_dataset self.
Proof.
  unfold _clean_infections_and_mortalities_dataset, call.
  destruct (_fill_missing_municipalities self) as [s1 [e|[]]] eqn:Hfill;
    [discriminate|].
  destruct (fill_missing_returns _ _ Hfill) as (Hcm & _ & Hn & Hr & Hha & Hds).
  unfold get_infections_and_mortalities, pure, _drop_intermediary_rows, dropna.
  cbv beta iota. rewrite Hn, Hcm.
  unfold set_infections_and_mortalities at 1. cbv beta iota.
  unfold raise.
  match goal with |- context [issubset ?d (names ?df)] =>
    destruct (issubset d (names df)) eqn:Hsub end; cbn [negb]; [|discriminate].
  destruct (drop_columns _ _) as [e|im3] eqn:Hdrop; [discriminate|].
  unfold set_infections_and_mortalities at 1. cbv beta iota.
  destruct (issubset _ (names im3)) eqn:Hsub3; cbn [negb]; [|discriminate].
  unfold group_by. rewrite Hsub3. cbn [negb]. cbv iota.
  destruct (exact_sums im3) eqn:Hexact; [|discriminate].
  unfold set_infections_and_mortalities. cbv beta iota.
  intros H. inversion H; subst; clear H. cbn [infections_and_mortalities
    hospital_admissions covid_dataset].
  apply names_drop_columns in Hdrop as (_ & Hn3 & Hr3).
  cbn [rows] in Hr3.
  change (names (mkDataFrame (columns (infections_and_mortalities s1))
                   (filter (fun r => notna (cell (names (infections_and_mortalities self))
                                                 r "Municipality_name"))
                           (rows (infections_and_mortalities s1)))))
    with (names (infections_and_mortalities s1)) in Hn3, Hr3.
  rewrite Hn in Hn3, Hr3. rewrite Hr in Hr3.
  exists im3. repeat split; assumption.
Qed.

(** A call of [_clean_hospital_admissions_dataset] that returns leaves the
    grouped sum, by the merge columns, of the rows that have a municipality
    name, without the administrative columns; the other fields stay. *)
Lemma clean_admissions_returns (self self' : CovidDataProvider) :
  _clean_hospital_admissions_dataset self = (self', Return tt) ->
  exists ha3,
    hospital_admissions self' = groupby_sum ha3 _MERGE_COLUMNS /\
    columns ha3 = filter (fun ct => negb (contains admission_columns_to_drop (fst ct)))
                         (columns (hospital_admissions self)) /\
    rows ha3 =
      map (fun r => drop_cells (names (hospital_admissions self)) r
                               admission_columns_to_drop)
          (filter (fun r => notna (cell (names (hospital_admissions self)) r
                                        "Municipality_name"))
                  (rows (hospital_admissions self))) /\
    infections_and_mortalities self' = infections_and_mortalities self /\
    covid_dataset self' = covid_dataset self.
Proof.
  unfold _clean_hospital_admissions_dataset, call, get_hospital_admissions, pure,
    _drop_intermediary_rows, dropna.
  cbv beta iota.
  destruct (contains (names (hospital_admissions self)) "Municipality_name");
    [|discriminate].
  unfold set_hospital_admissions at 1. cbv beta iota. unfold raise.
  match goal with |- context [issubset ?d (names ?df)] =>
    destruct (issubset d (names df)) eqn:Hsub end; cbn [negb]; [|discriminate].
  destruct (drop_columns _ _) as [e|ha3] eqn:Hdrop; [discriminate|].
  unfold set_hospital_admissions at 1. cbv beta iota.
  destruct (issubset _ (names ha3)) eqn:Hsub3; cbn [negb]; [|discriminate].
  unfold group_by.
  change (issubset ["Date_of_publication"; "Municipality_name"] (names ha3))
    with (issubset _MERGE_COLUMNS (names ha3)) in Hsub3 |- *.
  rewrite Hsub3. cbn [negb]. unfold _MERGE_COLUMNS at 1. cbv iota.
  destruct (exact_sums ha3) eqn:Hexact; [|discriminate].
  unfold set_hospital_admissions. cbv beta iota.
  intros H. inversion H; subst; clear H.
  cbn [infections_and_mortalities hospital_admissions covid_dataset].
  apply names_drop_columns in Hdrop as (Hc3 & _ & Hr3).
  cbn [rows columns] in Hr3, Hc3.
  change (names (mkDataFrame (columns (hospital_admissions self))
                   (filter (fun r => notna (cell (names (hospital_admissions self))
                                                 r "Municipality_name"))
                           (rows (hospital_admissions self)))))
    with (names (hospital_admissions self)) in Hr3.
  exists ha3. repeat split; assumption.
Qed.

(** ** Missing columns (C1) *)

(** C1, as stated, fails twice.  The exception does not identify the
    missing columns: [group_by] raises one and the same exception whatever
    columns are missing, here for the missing set ["Year"] and for the
    missing set ["Month"; "Version"].  And a failed call can leave a part of
    its work behind: on an admission table without [Hospital_admission],
    [_build_covid_dataset] raises after it has stored the merged frame as
    the dataset, without the columns [Year] and [Month]. *)
Lemma schema_errors_name_no_column_and_keep_partial_work :
  missing_columns ["Year"] scenario_cases = ["Year"] /\
  missing_columns ["Month"; "Version"] scenario_cases = ["Month"; "Version"] /\
  group_by scenario_cases ["Year"] = Raise (AttributeError "Columns not in dataset") /\
  group_by scenario_cases ["Month"; "Version"]
    = Raise (AttributeError "Columns not in dataset") /\
  exists cases merged,
    _build_covid_dataset (mkProvider scenario_cases_csv admissions_without_count None)
      = (mkProvider cases
           (mkDataFrame [("Date_of_publication", Object); ("Municipality_name", Object)]
                        [[VStr "2021-01-01"; VStr "Utrecht city"]])
           (Some merged),
         Raise (AttributeError
                  "'DataFrame' object has no attribute 'Hospital_admission'")) /\
    names merged = ["Date_of_publication"; "Province"; "Municipality_name";
                    "Total_reported"; "Deceased"] /\
    List.length (rows merged) = 2%nat.
Proof.
  repeat split. do 2 eexists. vm_compute. repeat split.
Qed.

(** The steps of [_build_covid_dataset] up to the first that needs a
    column. *)
Lemma build_checks_pass (self : CovidDataProvider) :
  missing_columns _MERGE_COLUMNS (infections_and_mortalities self) = [] ->
  missing_columns _MERGE_COLUMNS (hospital_admissions self) = [] ->
  _build_covid_dataset self =
  call _clean_infections_and_mortalities_dataset
    (fun _ => call _clean_hospital_admissions_dataset
       (fun _ => call get_infections_and_mortalities
          (fun im => call get_hospital_admissions
             (fun ha => call (pure (merge im ha _MERGE_COLUMNS))
                (fun ds => call (set_covid_dataset ds)
                   (fun _ => _clean_covid_dataset)))))) self.
Proof.
  intros H1 H2. apply missing_columns_nil in H1. apply missing_columns_nil in H2.
  unfold _build_covid_dataset.
  unfold call at 1. unfold get_infections_and_mortalities at 1.
  rewrite H1. cbn [negb]. cbv iota.
  unfold call at 1. unfold get_hospital_admissions at 1.
  rewrite H2. reflexivity.
Qed.

Lemma merge_columns_contained (df : DataFrame) :
  missing_columns _MERGE_COLUMNS df = [] ->
  contains (names df) "Date_of_publication" = true /\
  contains (names df) "Municipality_name" = true.
Proof.
  intros H. apply missing_columns_nil in H.
  unfold issubset, _MERGE_COLUMNS in H. cbn [forallb] in H.
  apply andb_true_iff in H. destruct H as [H1 H2].
  apply andb_true_iff in H2. tauto.
Qed.

(** C1, amended.  A table that lacks a required column makes each of the
    four operations raise AttributeError and return no table, when no
    earlier step fails otherwise.  [filter_by_year] and [filter_by_province]
    name the missing column in the message; [group_by] raises a fixed
    message.  [_build_covid_dataset] raises at the step that needs the
    column: for a merge column of either table and for the province before
    anything is changed; for a column to drop of the case table after the
    fill and the drop of the unnamed rows have changed the case table; for a
    column to drop of the admission table after the case table has been
    cleaned and the unnamed rows of the admission table have been dropped;
    and for [Hospital_admission] after the merged frame has been stored as
    the dataset. *)
Theorem missing_column_raises_attribute_error
  (str_lower : string -> string)
  (dataset : DataFrame) (year : Z) (province : string)
  (grouping_columns : list string) (self : CovidDataProvider) :
  let cases := infections_and_mortalities self in
  let admissions := hospital_admissions self in
  (missing_columns ["Date_of_publication"] dataset <> [] ->
   filter_by_year dataset year
     = Raise (AttributeError "No attribute Date_of_publication")) /\
  (missing_columns ["Province"] dataset <> [] ->
   filter_by_province str_lower dataset province
     = Raise (AttributeError "No attribute Province")) /\
  (missing_columns grouping_columns dataset <> [] ->
   group_by dataset grouping_columns
     = Raise (AttributeError "Columns not in dataset")) /\
  (missing_columns _MERGE_COLUMNS cases <> [] ->
   _build_covid_dataset self
     = (self, Raise (AttributeError
                       "Merge columns not present on infections and mortalities"))) /\
  (missing_columns _MERGE_COLUMNS cases = [] ->
   missing_columns _MERGE_COLUMNS admissions <> [] ->
   _build_covid_dataset self
     = (self, Raise (AttributeError
                       "Merge columns not present on hospital_admissions"))) /\
  (missing_columns _MERGE_COLUMNS cases = [] ->
   missing_columns _MERGE_COLUMNS admissions = [] ->
   missing_columns ["Province"] cases <> [] ->
   _build_covid_dataset self
     = (self, Raise (AttributeError "No attribute Province"))) /\
  (missing_columns _MERGE_COLUMNS cases = [] ->
   missing_columns _MERGE_COLUMNS admissions = [] ->
   missing_columns case_columns_to_drop cases <> [] ->
   forall filled,
     _fill_missing_municipalities self = (filled, Return tt) ->
     _build_covid_dataset self
       = (mkProvider
            (mkDataFrame
               (columns (infections_and_mortalities filled))
               (filter (fun r => notna (cell (names cases) r "Municipality_name"))
                       (rows (infections_and_mortalities filled))))
            admissions (covid_dataset self),
          Raise (AttributeError "Columns to drop not in dataset"))) /\
  (missing_columns _MERGE_COLUMNS cases = [] ->
   missing_columns _MERGE_COLUMNS admissions = [] ->
   missing_columns admission_columns_to_drop admissions <> [] ->
   forall cleaned,
     _clean_infections_and_mortalities_dataset self = (cleaned, Return tt) ->
     _build_covid_dataset self
       = (mkProvider
            (infections_and_mortalities cleaned)
            (mkDataFrame
               (columns admissions)
               (filter (fun r => notna (cell (names admissions) r "Municipality_name"))
                       (rows admissions)))
            (covid_dataset self),
          Raise (AttributeError "Columns to drop not in dataset"))) /\
  (missing_columns _MERGE_COLUMNS cases = [] ->
   missing_columns _MERGE_COLUMNS admissions = [] ->
   forall cleaned cleaned' merged grouped,
     _clean_infections_and_mortalities_dataset self = (cleaned, Return tt) ->
     _clean_hospital_admissions_dataset cleaned = (cleaned', Return tt) ->
     merge (infections_and_mortalities cleaned') (hospital_admissions cleaned')
           _MERGE_COLUMNS = Return merged ->
     group_by merged _MERGE_COLUMNS = Return grouped ->
     missing_columns ["Hospital_admission"] merged <> [] ->
     _build_covid_dataset self
       = (mkProvider (infections_and_mortalities cleaned')
                     (hospital_admissions cleaned') (Some merged),
          Raise (AttributeError
                   "'DataFrame' object has no attribute 'Hospital_admission'"))).
Proof.
  cbv zeta. repeat apply conj.
  - intros H. apply missing_columns_issubset in H.
    unfold issubset in H. simpl in H. rewrite andb_true_r in H.
    unfold filter_by_year. now rewrite H.
  - intros H. apply missing_columns_issubset in H.
    unfold issubset in H. simpl in H. rewrite andb_true_r in H.
    unfold filter_by_province. now rewrite H.
  - intros H. apply missing_columns_issubset in H.
    unfold group_by. now rewrite H.
  - intros H. apply missing_columns_issubset in H.
    unfold _build_covid_dataset, call, get_infections_and_mortalities, raise.
    cbv beta iota. now rewrite H.
  - intros H1 H2. apply missing_columns_nil in H1.
    apply missing_columns_issubset in H2.
    unfold _build_covid_dataset, call, get_infections_and_mortalities,
      get_hospital_admissions, raise.
    cbv beta iota. rewrite H1. cbn [negb]. cbv beta iota. now rewrite H2.
  - intros H1 H2 H3. rewrite (build_checks_pass _ H1 H2).
    destruct (merge_columns_contained _ H1) as [_ Hm].
    apply missing_columns_issubset in H3.
    unfold issubset in H3. cbn [forallb] in H3. rewrite andb_true_r in H3.
    unfold call at 1. unfold _clean_infections_and_mortalities_dataset.
    unfold call at 1. unfold _fill_missing_municipalities.
    unfold call at 1. unfold get_infections_and_mortalities at 1.
    rewrite Hm, H3. reflexivity.
  - intros H1 H2 H3 filled Hfill. rewrite (build_checks_pass _ H1 H2).
    destruct (fill_missing_returns _ _ Hfill) as (Hcm & _ & Hn & _ & Hha & Hds).
    apply missing_columns_issubset in H3.
    unfold call at 1. unfold _clean_infections_and_mortalities_dataset.
    unfold call at 1. rewrite Hfill.
    unfold call at 1. unfold get_infections_and_mortalities at 1.
    unfold call at 1. unfold pure at 1. unfold _drop_intermediary_rows, dropna.
    rewrite Hn, Hcm.
    unfold call at 1. unfold set_infections_and_mortalities at 1.
    change (names (mkDataFrame (columns (infections_and_mortalities filled)) ?x))
      with (names (infections_and_mortalities filled)).
    rewrite Hn.
    change (issubset ["Version"; "Date_of_report"; "Municipality_code";
                      "Security_region_code"; "Security_region_name";
                      "Municipal_health_service"; "ROAZ_region"]
                     (names (infections_and_mortalities self)))
      with (issubset case_columns_to_drop (names (infections_and_mortalities self))).
    rewrite H3. cbn [negb]. unfold raise. rewrite Hha, Hds. reflexivity.
  - intros H1 H2 H3 cleaned Hclean. rewrite (build_checks_pass _ H1 H2).
    destruct (clean_cases_returns _ _ Hclean) as (im3 & _ & _ & _ & Hha & Hds).
    destruct (merge_columns_contained _ H2) as [_ Hm].
    apply missing_columns_issubset in H3.
    unfold call at 1. rewrite Hclean.
    unfold call at 1. unfold _clean_hospital_admissions_dataset.
    unfold call at 1. unfold get_hospital_admissions at 1.
    unfold call at 1. unfold pure at 1. unfold _drop_intermediary_rows, dropna.
    rewrite Hha, Hm.
    unfold call at 1. unfold set_hospital_admissions at 1.
    change (names (mkDataFrame (columns (hospital_admissions self)) ?x))
      with (names (hospital_admissions self)).
    change (issubset ["Version"; "Date_of_report"; "Municipality_code";
                      "Security_region_code"; "Security_region_name";
                      "Hospital_admission_notification"]
                     (names (hospital_admissions self)))
      with (issubset admission_columns_to_drop (names (hospital_admissions self))).
    rewrite H3. cbn [negb]. unfold raise. rewrite Hds. reflexivity.
  - intros H1 H2 cleaned cleaned' merged grouped Hc1 Hc2 Hmerge Hgroup H3.
    rewrite (build_checks_pass _ H1 H2).
    apply missing_columns_issubset in H3.
    unfold issubset in H3. cbn [forallb] in H3. rewrite andb_true_r in H3.
    unfold call at 1. rewrite Hc1.
    unfold call at 1. rewrite Hc2.
    unfold call at 1. unfold get_infections_and_mortalities at 1.
    unfold call at 1. unfold get_hospital_admissions at 1.
    unfold call at 1. unfold pure at 1. rewrite Hmerge.
    unfold call at 1. unfold set_covid_dataset at 1.
    unfold _clean_covid_dataset.
    unfold call at 1. unfold get_covid_dataset at 1. cbn [covid_dataset].
    unfold call at 1. unfold pure at 1. rewrite Hgroup.
    unfold call at 1. unfold pure at 1. unfold getattr at 1. rewrite H3.
    reflexivity.
Qed.

(** On the frame without columns, and on providers that lack, in turn, a
    merge column of either table, the province, a column to drop of either
    table, and the admissions. *)
Lemma missing_column_raises_attribute_error_witness :
  filter_by_year empty_frame 2021
    = Raise (AttributeError "No attribute Date_of_publication") /\
  filter_by_province lower_latin empty_frame "Utrecht"
    = Raise (AttributeError "No attribute Province") /\
  group_by empty_frame ["Year"]
    = Raise (AttributeError "Columns not in dataset") /\
  _build_covid_dataset (mkProvider empty_frame scenario_cases None)
    = (mkProvider empty_frame scenario_cases None,
       Raise (AttributeError
                "Merge columns not present on infections and mortalities")) /\
  _build_covid_dataset (mkProvider scenario_cases empty_frame None)
    = (mkProvider scenario_cases empty_frame None,
       Raise (AttributeError "Merge columns not present on hospital_admissions")) /\
  _build_covid_dataset (mkProvider cases_without_province scenario_cases None)
    = (mkProvider cases_without_province scenario_cases None,
       Raise (AttributeError "No attribute Province")) /\
  _build_covid_dataset (mkProvider scenario_cases scenario_cases None)
    = (mkProvider
         (mkDataFrame
            [("Date_of_publication", Object); ("Province", Object);
             ("Municipality_name", Object); ("Total_reported", Numeric)]
            [[VStr "2021-01-01"; VStr "Utrecht"; VStr "Utrecht city"; VNum 10];
             [VStr "2021-01-01"; VStr "Utrecht"; VStr "Utrecht gemeente onbekend";
              VNum 5]])
         scenario_cases None,
       Raise (AttributeError "Columns to drop not in dataset")) /\
  _build_covid_dataset (mkProvider scenario_cases_csv scenario_cases None)
    = (mkProvider
         (infections_and_mortalities
            (fst (_clean_infections_and_mortalities_dataset
                    (mkProvider scenario_cases_csv scenario_cases None))))
         (mkDataFrame (columns scenario_cases)
                      [[VStr "2021-01-01"; VStr "Utrecht"; VStr "Utrecht city";
                        VNum 10]])
         None,
       Raise (AttributeError "Columns to drop not in dataset")) /\
  exists cleaned merged,
    _build_covid_dataset (mkProvider scenario_cases_csv admissions_without_count None)
      = (mkProvider (infections_and_mortalities cleaned)
                    (hospital_admissions cleaned) (Some merged),
         Raise (AttributeError
                  "'DataFrame' object has no attribute 'Hospital_admission'")).
Proof.
  destruct (missing_column_raises_attribute_error lower_latin
              empty_frame 2021 "Utrecht" ["Year"]
              (mkProvider empty_frame scenario_cases None))
    as (H1 & H2 & H3 & H4 & _).
  destruct (missing_column_raises_attribute_error lower_latin
              empty_frame 2021 "Utrecht" ["Year"]
              (mkProvider scenario_cases empty_frame None))
    as (_ & _ & _ & _ & H5 & _).
  destruct (missing_column_raises_attribute_error lower_latin
              empty_frame 2021 "Utrecht" ["Year"]
              (mkProvider cases_without_province scenario_cases None))
    as (_ & _ & _ & _ & _ & H6 & _).
  destruct (missing_column_raises_attribute_error lower_latin
              empty_frame 2021 "Utrecht" ["Year"]
              (mkProvider scenario_cases scenario_cases None))
    as (_ & _ & _ & _ & _ & _ & H7 & _).
  destruct (missing_column_raises_attribute_error lower_latin
              empty_frame 2021 "Utrecht" ["Year"]
              (mkProvider scenario_cases_csv scenario_cases None))
    as (_ & _ & _ & _ & _ & _ & _ & H8 & _).
  destruct (missing_column_raises_attribute_error lower_latin
              empty_frame 2021 "Utrecht" ["Year"]
              (mkProvider scenario_cases_csv admissions_without_count None))
    as (_ & _ & _ & _ & _ & _ & _ & _ & H9).
  split; [apply H1; discriminate|].
  split; [apply H2; discriminate|].
  split; [apply H3; discriminate|].
  split; [apply H4; discriminate|].
  split; [apply H5; [reflexivity|discriminate]|].
  split; [apply H6; [reflexivity|reflexivity|discriminate]|].
  split.
  { exact (H7 eq_refl eq_refl ltac:(discriminate)
              (fst (_fill_missing_municipalities
                      (mkProvider scenario_cases scenario_cases None)))
              eq_refl). }
  split.
  { exact (H8 eq_refl eq_refl ltac:(discriminate)
              (fst (_clean_infections_and_mortalities_dataset
                      (mkProvider scenario_cases_csv scenario_cases None)))
              eq_refl). }
  pose (cleaned := fst (_clean_infections_and_mortalities_dataset
                          (mkProvider scenario_cases_csv admissions_without_count
                                      None))).
  pose (cleaned' := fst (_clean_hospital_admissions_dataset cleaned)).
  pose (merged := match merge (infections_and_mortalities cleaned')
                              (hospital_admissions cleaned') _MERGE_COLUMNS with
                  | Return m => m
                  | Raise _ => empty_frame
                  end).
  exists cleaned', merged.
  assert (Hc1 : _clean_infections_and_mortalities_dataset
                  (mkProvider scenario_cases_csv admissions_without_count None)
                = (cleaned, Return tt)) by (vm_compute; reflexivity).
  assert (Hc2 : _clean_hospital_admissions_dataset cleaned = (cleaned', Return tt))
    by (vm_compute; reflexivity).
  assert (Hm : merge (infections_and_mortalities cleaned')
                     (hospital_admissions cleaned') _MERGE_COLUMNS = Return merged)
    by (vm_compute; reflexivity).
  assert (Hg : group_by merged _MERGE_COLUMNS
               = Return (groupby_sum merged _MERGE_COLUMNS))
    by (vm_compute; reflexivity).
  assert (Hh : missing_columns ["Hospital_admission"] merged <> [])
    by (vm_compute; discriminate).
  exact (H9 eq_refl eq_refl cleaned cleaned' merged
            (groupby_sum merged _MERGE_COLUMNS) Hc1 Hc2 Hm Hg Hh).
Defined.

(** ** The merge *)

Lemma filter_none {A : Type} (p : A -> bool) (l : list A) :
  (forall x, In x l -> p x = false) -> filter p l = [].
Proof.
  induction l as [|a l IH]; simpl; intros H; [reflexivity|].
  rewrite (H a (or_introl eq_refl)). apply IH. intros x Hx. apply H. now right.
Qed.

(** When the keys of the right rows are distinct, a left row has its one
    matching row, the first that [find] meets, or none. *)
Lemma matching_rows_unique (ln rn on : list string) (l : list value)
  (rs : list (list value)) :
  NoDup (map (key_of rn on) rs) ->
  matching_rows ln rn on l rs =
  match find (fun r => key_eqb (key_of ln on l) (key_of rn on r)) rs with
  | Some r => [r]
  | None => []
  end.
Proof.
  unfold matching_rows. induction rs as [|r rs IH]; simpl; intros Hnd;
    [reflexivity|].
  inversion Hnd as [|? ? Hnotin Hnd']; subst.
  destruct (key_eqb (key_of ln on l) (key_of rn on r)) eqn:E.
  - f_equal. apply filter_none. intros x Hx.
    apply key_eqb_neq. intros Hk. apply key_eqb_eq in E.
    apply Hnotin. rewrite <- E, Hk. now apply in_map.
  - now apply IH.
Qed.

Lemma flat_map_singleton {A B : Type} (f : A -> list B) (g : A -> B) (l : list A) :
  (forall a, In a l -> f a = [g a]) -> flat_map f l = map g l.
Proof.
  induction l as [|a l IH]; simpl; intros H; [reflexivity|].
  rewrite (H a (or_introl eq_refl)). simpl. f_equal. apply IH.
  intros x Hx. apply H. now right.
Qed.

(** A merge with a right frame of distinct keys: one row for each left
    row. *)
Lemma merge_returns (left right m : DataFrame) (on : list string) :
  NoDup (map (key_of (names right) on) (rows right)) ->
  merge left right on = Return m ->
  names m = merged_names (names left) (columns right) on /\
  rows m =
    map (fun l =>
           merge_row (names left) (names right)
                     (map fst (other_columns on (columns right))) l
                     (find (fun r => key_eqb (key_of (names left) on l)
                                             (key_of (names right) on r))
                           (rows right)))
        (rows left).
Proof.
  intros Hnd. unfold merge.
  destruct (negb (issubset on (names left) && issubset on (names right)));
    [discriminate|].
  destruct (negb (forallb _ on)); [discriminate|].
  destruct (negb (exact_sums right)); [discriminate|].
  intros H. inversion H; subst; clear H. split.
  - unfold names, merged_names. cbn [columns].
    rewrite map_app, !map_map. reflexivity.
  - cbn [rows]. apply flat_map_singleton. intros l _.
    rewrite (matching_rows_unique _ _ _ _ _ Hnd).
    now destruct (find _ (rows right)).
Qed.

Lemma last_char_append (s t : string) :
  t <> EmptyString -> last_char (s ++ t)%string = last_char t.
Proof.
  intros Ht. induction s as [|a s IH]; [reflexivity|].
  simpl. destruct (s ++ t)%string eqn:E; [|exact IH].
  destruct s; simpl in E; [contradiction|discriminate].
Qed.

(** A column that is a merge key, or whose name does not end like the
    suffix, keeps its cell when the other columns take their suffix. *)
Lemma cell_suffixed (on others cs : list string) (sfx : string) (r : list value)
  (c : string) :
  sfx <> EmptyString ->
  last_char c <> last_char sfx ->
  cell (map (suffixed on others sfx) cs) r c =
  if negb (contains on c) && contains others c then VNull else cell cs r c.
Proof.
  intros Hs Hl. revert r. induction cs as [|c0 cs IH]; intros r.
  - simpl. now destruct (negb (contains on c) && contains others c).
  - cbn [map]. rewrite !cell_cons, IH.
    unfold suffixed at 1.
    destruct (negb (contains on c0) && contains others c0) eqn:E0.
    + replace (String.eqb c (c0 ++ sfx)) with false.
      2:{ symmetry. apply String.eqb_neq. intros ->. apply Hl.
          now apply last_char_append. }
      destruct (String.eqb c c0) eqn:E; [|reflexivity].
      apply String.eqb_eq in E. subst c0. now rewrite E0.
    + destruct (String.eqb c c0) eqn:E; [|reflexivity].
      apply String.eqb_eq in E. subst c0. now rewrite E0.
Qed.

Lemma contains_map_suffixed (on others cs : list string) (sfx c : string) :
  sfx <> EmptyString ->
  last_char c <> last_char sfx ->
  contains (map (suffixed on others sfx) cs) c =
  contains cs c && negb (negb (contains on c) && contains others c).
Proof.
  intros Hs Hl. induction cs as [|c0 cs IH]; [reflexivity|].
  cbn [map]. rewrite !contains_cons, IH. unfold suffixed at 1.
  destruct (negb (contains on c0) && contains others c0) eqn:E0.
  - replace (String.eqb c (c0 ++ sfx)) with false.
    2:{ symmetry. apply String.eqb_neq. intros ->. apply Hl.
        now apply last_char_append. }
    destruct (String.eqb c c0) eqn:E; [|reflexivity].
    apply String.eqb_eq in E. subst c0. rewrite E0. simpl.
    now rewrite andb_false_r.
  - destruct (String.eqb c c0) eqn:E; [|reflexivity].
    apply String.eqb_eq in E. subst c0. now rewrite E0.
Qed.

(** The cell of a merged row under a merge key is the cell of the left
    row. *)
Lemma cell_merge_row_key (ln rn : list string) (right_columns : list (string * dtype))
  (on : list string) (l : list value) (m : option (list value)) (c : string) :
  contains on c = true -> contains ln c = true -> last_char c <> Some "x"%char ->
  cell (merged_names ln right_columns on)
       (merge_row ln rn (map fst (other_columns on right_columns)) l m) c =
  cell ln l c.
Proof.
  intros Hon Hln Hl. unfold merged_names, merge_row.
  rewrite cell_app by (rewrite length_map; apply length_pad).
  rewrite contains_map_suffixed by (try discriminate; exact Hl).
  rewrite cell_suffixed by (try discriminate; exact Hl).
  rewrite Hon, Hln. simpl. apply cell_pad.
Qed.

(** The cell of a merged row under a column that only the right frame has
    is the cell of the matching right row, and missing without one. *)
Lemma cell_merge_row_right (ln rn : list string) (right_columns : list (string * dtype))
  (on : list string) (l : list value) (m : option (list value)) (c : string) :
  contains ln c = false ->
  contains (map fst (other_columns on right_columns)) c = true ->
  last_char c <> Some "x"%char -> last_char c <> Some "y"%char ->
  cell (merged_names ln right_columns on)
       (merge_row ln rn (map fst (other_columns on right_columns)) l m) c =
  match m with Some r => cell rn r c | None => VNull end.
Proof.
  intros Hln Hr Hx Hy. unfold merged_names, merge_row.
  rewrite cell_app by (rewrite length_map; apply length_pad).
  rewrite contains_map_suffixed by (try discriminate; exact Hx).
  rewrite Hln. cbn [andb].
  rewrite cell_suffixed by (try discriminate; exact Hy).
  rewrite Hln, andb_false_r.
  destruct m as [r|]; rewrite cell_map, Hr; reflexivity.
Qed.

(** ** The last step of the build *)

Lemma mapM_total {A B : Type} (f : A -> result B) (dflt : B) (l : list A)
  (l' : list B) :
  mapM f l = Return l' ->
  l' = map (fun a => match f a with Return b => b | Raise _ => dflt end) l /\
  Forall (fun a => exists b, f a = Return b) l.
Proof.
  revert l'. induction l as [|a l IH]; simpl; intros l' H.
  - inversion H. split; constructor.
  - destruct (f a) eqn:E; simpl in H; [discriminate|].
    destruct (mapM f l) eqn:E'; simpl in H; [discriminate|].
    inversion H; subst. destruct (IH _ eq_refl) as [-> HF].
    split; [reflexivity|]. constructor; eauto.
Qed.

Lemma rows_assign_series (df : DataFrame) (c : string) (t : dtype)
  (h : value -> value) (c0 : string) :
  rows (assign df c t (map h (series df c0))) =
  map (fun r => assign_row (names df) c r (h (cell (names df) r c0))) (rows df).
Proof.
  unfold series. rewrite map_map.
  apply (rows_assign_map df c t (fun r => h (cell (names df) r c0))).
Qed.

(** A call of [_clean_covid_dataset] that returns has rewritten the stored
    frame row by row, as [built_row] says, and has touched nothing else. *)
Lemma clean_covid_returns (self self' : CovidDataProvider) :
  _clean_covid_dataset self = (self', Return tt) ->
  exists m ds,
    covid_dataset self = Some m /\
    covid_dataset self' = Some ds /\
    contains (names m) "Hospital_admission" = true /\
    contains (names m) "Date_of_publication" = true /\
    names ds = built_names (names m) /\
    rows ds = map (built_row (names m)) (rows m) /\
    Forall (fun r => exists d,
                to_datetime (cell (names m) r "Date_of_publication") = Return d)
           (rows m) /\
    infections_and_mortalities self' = infections_and_mortalities self /\
    hospital_admissions self' = hospital_admissions self.
Proof.
  unfold _clean_covid_dataset, call, get_covid_dataset, pure.
  destruct (covid_dataset self) as [m|] eqn:Hm; [|discriminate].
  destruct (group_by m _MERGE_COLUMNS) as [e|g]; [discriminate|].
  unfold getattr at 1.
  destruct (contains (names m) "Hospital_admission") eqn:Hha; [|discriminate].
  unfold set_covid_dataset at 1. cbv beta iota.
  unfold fillna_scalar.
  change (map (fun x => if isna x then VNum 0 else x) (series m "Hospital_admission"))
    with (map fill_zero (series m "Hospital_admission")).
  set (ds1 := assign m "Hospital_admission" _ _).
  unfold getattr.
  assert (Hn1 : names ds1 = assign_names (names m) "Hospital_admission")
    by apply names_assign.
  assert (Hr1 : rows ds1 =
                map (fun r => assign_row (names m) "Hospital_admission" r
                                (fill_zero (cell (names m) r "Hospital_admission")))
                    (rows m))
    by apply rows_assign_series.
  destruct (contains (names ds1) "Date_of_publication") eqn:Hdate; [|discriminate].
  cbn [bind].
  destruct (mapM to_datetime (series ds1 "Date_of_publication")) as [e|dates]
    eqn:Hdates; [discriminate|].
  apply (mapM_total _ VNull) in Hdates as [Hdates Hok].
  change (fun a => match to_datetime a with Return b => b | Raise _ => VNull end)
    with datetime_of in Hdates.
  subst dates.
  unfold set_covid_dataset. cbv beta iota.
  intros H. inversion H; subst; clear H.
  cbn [infections_and_mortalities hospital_admissions covid_dataset].
  exists m. eexists. split; [reflexivity|]. split; [reflexivity|].
  split; [exact Hha|].
  assert (Hdate' : contains (names m) "Date_of_publication" = true).
  { rewrite Hn1 in Hdate. unfold assign_names in Hdate. now rewrite Hha in Hdate. }
  split; [exact Hdate'|].
  split.
  { rewrite !names_assign. rewrite Hn1. reflexivity. }
  split.
  { rewrite !rows_assign_series, !names_assign, Hr1, Hn1, !map_map.
    apply map_ext. intros r. reflexivity. }
  split; [|split; reflexivity].
  unfold series in Hok. rewrite Forall_map, Hr1, Forall_map in Hok.
  eapply Forall_impl; [|exact Hok]. intros r [d Hd]. exists d.
  rewrite Hn1 in Hd. rewrite cell_assign_row in Hd. exact Hd.
Qed.

Lemma cell_built_row_other (cs : list string) (r : list value) (c : string) :
  c <> "Hospital_admission" -> c <> "Date_of_publication" ->
  c <> "Year" -> c <> "Month" ->
  cell (built_names cs) (built_row cs r) c = cell cs r c.
Proof.
  intros H1 H2 H3 H4. unfold built_names, built_row.
  apply String.eqb_neq in H1, H2, H3, H4.
  now rewrite !cell_assign_row, H1, H2, H3, H4.
Qed.

Lemma cell_built_row_admission (cs : list string) (r : list value) :
  cell (built_names cs) (built_row cs r) "Hospital_admission" =
  fill_zero (cell cs r "Hospital_admission").
Proof.
  unfold built_names, built_row. now rewrite !cell_assign_row.
Qed.

Lemma cell_built_row_date (cs : list string) (r : list value) :
  cell (built_names cs) (built_row cs r) "Date_of_publication" =
  datetime_of (cell cs r "Date_of_publication").
Proof.
  unfold built_names, built_row. now rewrite !cell_assign_row.
Qed.

(** ** The build *)

(** A build that returns: the two cleaned tables it leaves, the merged
    frame, and the dataset row by row. *)
Lemma build_returns (self self' : CovidDataProvider) :
  _build_covid_dataset self = (self', Return tt) ->
  exists im3 ha3 m ds,
    infections_and_mortalities self' = groupby_sum im3 case_grouping_columns /\
    hospital_admissions self' = groupby_sum ha3 _MERGE_COLUMNS /\
    names im3 = filter (fun c => negb (contains case_columns_to_drop c))
                       (names (infections_and_mortalities self)) /\
    rows im3 =
      map (fun r => drop_cells (names (infections_and_mortalities self)) r
                               case_columns_to_drop)
          (filter (fun r => notna (cell (names (infections_and_mortalities self)) r
                                        "Municipality_name"))
                  (map (fill_row (names (infections_and_mortalities self)))
                       (rows (infections_and_mortalities self)))) /\
    columns ha3 = filter (fun ct => negb (contains admission_columns_to_drop (fst ct)))
                         (columns (hospital_admissions self)) /\
    rows ha3 =
      map (fun r => drop_cells (names (hospital_admissions self)) r
                               admission_columns_to_drop)
          (filter (fun r => notna (cell (names (hospital_admissions self)) r
                                        "Municipality_name"))
                  (rows (hospital_admissions self))) /\
    merge (infections_and_mortalities self') (hospital_admissions self')
          _MERGE_COLUMNS = Return m /\
    covid_dataset self' = Some ds /\
    contains (names m) "Hospital_admission" = true /\
    names ds = built_names (names m) /\
    rows ds = map (built_row (names m)) (rows m) /\
    Forall (fun r => exists d,
                to_datetime (cell (names m) r "Date_of_publication") = Return d)
           (rows m).
Proof.
  unfold _build_covid_dataset, call, get_infections_and_mortalities,
    get_hospital_admissions, raise.
  cbv beta iota.
  destruct (negb (issubset _MERGE_COLUMNS (names (infections_and_mortalities self))));
    [discriminate|].
  destruct (negb (issubset _MERGE_COLUMNS (names (hospital_admissions self))));
    [discriminate|].
  destruct (_clean_infections_and_mortalities_dataset self) as [s1 [e|[]]] eqn:H1;
    [discriminate|].
  destruct (_clean_hospital_admissions_dataset s1) as [s2 [e|[]]] eqn:H2;
    [discriminate|].
  unfold pure.
  destruct (merge _ _ _) as [e|m] eqn:Hmerge; [discriminate|].
  unfold set_covid_dataset at 1. cbv beta iota.
  intros H3.
  apply clean_cases_returns in H1 as (im3 & Him & Hn3 & Hr3 & Hha1 & _).
  apply clean_admissions_returns in H2 as (ha3 & Hha & Hc3 & Hr3' & Him2 & _).
  apply clean_covid_returns in H3
    as (m' & ds & Hm' & Hds & Hcha & _ & Hnds & Hrds & Hok & Him3 & Hha3).
  cbn [covid_dataset infections_and_mortalities hospital_admissions] in Hm', Him3, Hha3.
  inversion Hm'; subst m'; clear Hm'.
  rewrite Him2 in Him3. rewrite Hha1 in Hr3', Hc3.
  exists im3, ha3, m, ds.
  rewrite Him2, Him, Hha in Hmerge.
  rewrite Him3, Hha3, Him, Hha.
  repeat split; try assumption.
Qed.

Lemma cell_set_cell (cs : list string) (r : list value) (c : string) (v : value) :
  cell cs (set_cell cs r c v) c = if contains cs c then v else VNull.
Proof.
  destruct (contains cs c) eqn:E.
  - now apply cell_set_cell_same.
  - now apply cell_absent.
Qed.

Lemma contains_filter (p : string -> bool) (cs : list string) (c : string) :
  contains (filter p cs) c = contains cs c && p c.
Proof.
  induction cs as [|c0 cs IH]; [reflexivity|].
  simpl. destruct (p c0) eqn:E0; rewrite ?contains_cons, IH.
  - destruct (String.eqb c c0) eqn:E; [|reflexivity].
    apply String.eqb_eq in E. subst c0. now rewrite E0.
  - destruct (String.eqb c c0) eqn:E; [|reflexivity].
    apply String.eqb_eq in E. subst c0. rewrite E0. simpl.
    now rewrite andb_false_r.
Qed.

Lemma names_other_columns (on : list string) (cols : list (string * dtype)) :
  map fst (other_columns on cols) =
  filter (fun c => negb (contains on c)) (map fst cols).
Proof.
  unfold other_columns. apply names_filter with (p := fun c => negb (contains on c)).
Qed.

(** A summed column of a grouped sum holds a number in every row. *)
Lemma groupby_sum_summed_cell (df : DataFrame) (by_ : list string)
  (g : list value) (c : string) :
  In g (rows (groupby_sum df by_)) ->
  contains by_ c = false ->
  contains (names (groupby_sum df by_)) c = true ->
  exists n, cell (names (groupby_sum df by_)) g c = VNum n.
Proof.
  intros Hg Hby Hc. rewrite names_groupby_sum in *.
  rewrite contains_app, Hby in Hc. simpl in Hc.
  unfold groupby_sum in Hg. cbn [rows] in Hg.
  apply in_map_iff in Hg as [k [<- Hk]].
  apply group_key_origin in Hk as [r [_ [_ <-]]].
  rewrite cell_app by (unfold key_of; apply length_map).
  rewrite Hby, cell_map, Hc. eauto.
Qed.

(** ** No unnamed municipality in the built dataset (C5) *)

Lemma default_municipality_not_empty (v : value) :
  default_municipality v <> VStr "".
Proof.
  destruct v; simpl; try discriminate.
  destruct s; discriminate.
Qed.

(** C5.  The case table read from the csv source has no empty string for
    a municipality name (an empty field is read as missing).  When the
    build returns, it has stored a dataset, and the municipality name of
    every row of it is neither missing nor empty. *)
Theorem built_dataset_names_every_municipality (self self' : CovidDataProvider) :
  Forall (fun r => cell (names (infections_and_mortalities self)) r
                        "Municipality_name" <> VStr "")
         (rows (infections_and_mortalities self)) ->
  _build_covid_dataset self = (self', Return tt) ->
  exists ds,
    covid_dataset self' = Some ds /\
    Forall (fun r => cell (names ds) r "Municipality_name" <> VNull /\
                     cell (names ds) r "Municipality_name" <> VStr "")
           (rows ds).
Proof.
  intros Hraw Hbuild.
  apply build_returns in Hbuild
    as (im3 & ha3 & m & ds & Him & Hha & Hn3 & Hr3 & _ & _ & Hmerge & Hds & _
        & Hnds & Hrds & _).
  exists ds. split; [assumption|].
  rewrite Him, Hha in Hmerge.
  apply merge_returns in Hmerge as [Hnm Hrm];
    [|apply groupby_sum_keys_NoDup].
  rewrite Hrds, Hnds, Hrm, Hnm. rewrite !Forall_map.
  apply Forall_forall. intros l Hl.
  rewrite cell_built_row_other by discriminate.
  rewrite cell_merge_row_key;
    [|reflexivity
     |rewrite names_groupby_sum; reflexivity
     |discriminate].
  apply groupby_sum_rows in Hl as (r3 & x & Hr3in & Hvalid & ->).
  rewrite names_groupby_sum.
  rewrite cell_group_row_key by (simpl; tauto).
  simpl in Hvalid. apply andb_true_iff in Hvalid as [_ Hvalid].
  apply andb_true_iff in Hvalid as [_ Hvalid].
  apply andb_true_iff in Hvalid as [Hvalid _].
  split.
  { intros E. rewrite E in Hvalid. discriminate. }
  rewrite Hr3 in Hr3in. apply in_map_iff in Hr3in as [r2 [<- Hr2]].
  apply filter_In in Hr2 as [Hr2 _].
  apply in_map_iff in Hr2 as [r0 [<- Hr0]].
  rewrite Hn3, cell_drop_cells by reflexivity.
  unfold fill_row. rewrite cell_set_cell.
  destruct (contains _ "Municipality_name"); [|discriminate].
  destruct (isna _).
  - apply default_municipality_not_empty.
  - rewrite Forall_forall in Hraw. now apply Hraw.
Qed.

(** On [sample_provider], whose build returns. *)
Lemma built_dataset_names_every_municipality_witness :
  exists ds,
    covid_dataset (fst (_build_covid_dataset sample_provider)) = Some ds /\
    Forall (fun r => cell (names ds) r "Municipality_name" <> VNull /\
                     cell (names ds) r "Municipality_name" <> VStr "")
           (rows ds).
Proof.
  apply (built_dataset_names_every_municipality sample_provider).
  - repeat constructor; discriminate.
  - vm_compute. reflexivity.
Defined.

(** ** Sums over groups *)

Lemma sum_col_zsum (cs : list string) (c : string) (rs : list (list value)) :
  sum_col cs c rs = zsum (fun r => num_of (cell cs r c)) rs.
Proof. reflexivity. Qed.

Lemma zsum_ext {A : Type} (v w : A -> Z) (l : list A) :
  (forall a, In a l -> v a = w a) -> zsum v l = zsum w l.
Proof.
  induction l as [|a l IH]; simpl; intros H; [reflexivity|].
  rewrite (H a (or_introl eq_refl)), IH; [reflexivity|].
  intros x Hx. apply H. now right.
Qed.

Lemma zsum_map {A B : Type} (f : A -> B) (v : B -> Z) (l : list A) :
  zsum v (map f l) = zsum (fun a => v (f a)) l.
Proof. induction l as [|a l IH]; simpl; congruence. Qed.

Lemma zsum_add {A : Type} (v w : A -> Z) (l : list A) :
  zsum (fun a => v a + w a) l = zsum v l + zsum w l.
Proof. induction l as [|a l IH]; simpl; lia. Qed.

Lemma zsum_zero {A : Type} (l : list A) : zsum (fun _ => 0) l = 0.
Proof. induction l as [|a l IH]; simpl; lia. Qed.

Lemma filter_map_swap {A B : Type} (f : A -> B) (p : B -> bool) (l : list A) :
  filter p (map f l) = map f (filter (fun a => p (f a)) l).
Proof.
  induction l as [|a l IH]; simpl; [reflexivity|].
  destruct (p (f a)); simpl; congruence.
Qed.

(** A key met once in a list of distinct keys counts once. *)
Lemma zsum_indicator (k0 : list value) (x : Z) (ks : list (list value)) :
  NoDup ks ->
  zsum (fun k => if key_eqb k0 k then x else 0) ks =
  if existsb (key_eqb k0) ks then x else 0.
Proof.
  induction 1 as [|k ks Hnotin Hnd IH]; simpl; [reflexivity|].
  rewrite IH. destruct (key_eqb k0 k) eqn:E; simpl; [|reflexivity].
  apply key_eqb_eq in E. subst k.
  replace (existsb (key_eqb k0) ks) with false; [lia|].
  symmetry. apply not_true_iff_false. intros Hex.
  apply existsb_exists in Hex as [k [Hk E]].
  apply key_eqb_eq in E. now subst k.
Qed.

Lemma existsb_key_filter (k0 : list value) (P : list value -> bool)
  (ks : list (list value)) :
  In k0 ks ->
  existsb (key_eqb k0) (filter P ks) = P k0.
Proof.
  intros Hin. destruct (P k0) eqn:E.
  - apply existsb_exists. exists k0. split; [|apply key_eqb_refl].
    apply filter_In. auto.
  - apply not_true_iff_false. intros Hex.
    apply existsb_exists in Hex as [k [Hk E']].
    apply key_eqb_eq in E'. subst k. apply filter_In in Hk as [_ Hk]. congruence.
Qed.

(** Summing group by group, over the groups that [P] selects, is summing
    over the rows whose key [P] selects. *)
Lemma zsum_by_groups {A : Type} (key : A -> list value) (v : A -> Z)
  (P : list value -> bool) (ks : list (list value)) (rs : list A) :
  NoDup ks ->
  (forall r, In r rs -> In (key r) ks) ->
  zsum (fun k => zsum v (filter (fun r => key_eqb (key r) k) rs)) (filter P ks) =
  zsum v (filter (fun r => P (key r)) rs).
Proof.
  intros Hnd. induction rs as [|r rs IH]; intros Hin.
  - simpl. apply zsum_zero.
  - rewrite (zsum_ext _ (fun k => (if key_eqb (key r) k then v r else 0)
                                  + zsum v (filter (fun r' => key_eqb (key r') k) rs))).
    2:{ intros k _. simpl. destruct (key_eqb (key r) k); reflexivity. }
    rewrite zsum_add, IH by (intros r' Hr'; apply Hin; now right).
    rewrite zsum_indicator by (now apply NoDup_filter).
    rewrite existsb_key_filter by (apply Hin; now left).
    simpl. destruct (P (key r)); reflexivity.
Qed.

(** ** Grouping twice (C6) *)

Lemma filter_filter {A : Type} (p q : A -> bool) (l : list A) :
  filter p (filter q l) = filter (fun a => q a && p a) l.
Proof.
  induction l as [|a l IH]; simpl; [reflexivity|].
  destruct (q a); simpl; [destruct (p a)|]; congruence.
Qed.

Lemma filter_all {A : Type} (p : A -> bool) (l : list A) :
  (forall a, In a l -> p a = true) -> filter p l = l.
Proof.
  induction l as [|a l IH]; simpl; intros H; [reflexivity|].
  rewrite (H a (or_introl eq_refl)). f_equal. apply IH.
  intros x Hx. apply H. now right.
Qed.

Lemma dtype_of_In (cols : list (string * dtype)) (c : string) (t : dtype) :
  dtype_of cols c = Some t -> In (c, t) cols.
Proof.
  induction cols as [|[c0 t0] cols IH]; simpl; [discriminate|].
  destruct (String.eqb c c0) eqn:E.
  - apply String.eqb_eq in E. subst c0. intros H. inversion H. now left.
  - intros H. right. now apply IH.
Qed.

Lemma dtype_of_keys (d : string -> dtype) (by_ : list string)
  (rest : list (string * dtype)) (c : string) :
  In c by_ -> dtype_of (map (fun c => (c, d c)) by_ ++ rest) c = Some (d c).
Proof.
  induction by_ as [|c0 by_ IH]; simpl; [contradiction|].
  intros Hin. destruct (String.eqb c c0) eqn:E.
  - apply String.eqb_eq in E. now subst c0.
  - destruct Hin as [->|Hin]; [now rewrite String.eqb_refl in E|now apply IH].
Qed.

Lemma frame_eq (a b : DataFrame) :
  columns a = columns b -> rows a = rows b -> a = b.
Proof. destruct a, b. simpl. intros -> ->. reflexivity. Qed.

Lemma columns_groupby_sum (df : DataFrame) (by_ : list string) :
  columns (groupby_sum df by_) =
  map (fun c => (c, match dtype_of (columns df) c with
                    | Some t => t
                    | None => Object
                    end)) by_
  ++ summed_columns (columns df) by_.
Proof. reflexivity. Qed.

Lemma rows_groupby_sum (df : DataFrame) (by_ : list string) :
  rows (groupby_sum df by_) =
  map (fun k =>
         k ++ map (fun c => VNum (sum_col (names df) c
                                    (group_of (names df) by_
                                       (keyed_rows (names df) by_ (rows df)) k)))
                  (map fst (summed_columns (columns df) by_)))
      (sorted_keys (map (key_of (names df) by_)
                        (keyed_rows (names df) by_ (rows df)))).
Proof. reflexivity. Qed.

Section Regroup.

Variable df : DataFrame.
Variables by_s by_t : list string.

Hypothesis by_s_in_by_t : incl by_s by_t.

(** No column of [by_t] outside [by_s] is numeric. *)
Hypothesis extra_keys_not_numeric :
  forall c t, In (c, t) (columns df) -> In c by_t -> ~ In c by_s -> t <> Numeric.

(** A row with all cells of [by_s] has all cells of [by_t]. *)
Hypothesis extra_keys_present :
  forall r, In r (rows df) ->
            forallb notna (key_of (names df) by_s r) = true ->
            forallb notna (key_of (names df) by_t r) = true.

Lemma keyed_rows_agree :
  keyed_rows (names df) by_s (rows df) = keyed_rows (names df) by_t (rows df).
Proof.
  unfold keyed_rows. apply filter_ext_in. intros r Hr.
  destruct (forallb notna (key_of (names df) by_t r)) eqn:Et.
  - unfold key_of in *. rewrite forallb_forall in *.
    intros v Hv. apply in_map_iff in Hv as [c [<- Hc]].
    apply Et. apply in_map. now apply by_s_in_by_t.
  - apply not_true_iff_false. intros Es.
    apply extra_keys_present in Es; [congruence|assumption].
Qed.

Lemma summed_columns_regroup :
  summed_columns (columns (groupby_sum df by_t)) by_s =
  summed_columns (columns df) by_s /\
  forall c, In c (map fst (summed_columns (columns df) by_s)) ->
            contains by_t c = false /\
            In c (map fst (summed_columns (columns df) by_t)).
Proof.
  assert (Hq : forall ct, In ct (columns df) ->
             (dtype_eqb (snd ct) Numeric && negb (contains by_t (fst ct)))
             && (dtype_eqb (snd ct) Numeric && negb (contains by_s (fst ct)))
             = dtype_eqb (snd ct) Numeric && negb (contains by_s (fst ct))).
  { intros [c t] Hct. simpl.
    destruct (dtype_eqb t Numeric) eqn:Et; [|reflexivity]. simpl.
    destruct (contains by_s c) eqn:Es; [now rewrite andb_false_r|].
    destruct (contains by_t c) eqn:Ec; [|reflexivity].
    exfalso. apply (extra_keys_not_numeric c t Hct).
    - now apply contains_In.
    - now apply contains_false.
    - destruct t; simpl in Et; congruence. }
  split.
  - unfold groupby_sum. cbn [columns]. unfold summed_columns at 1.
    rewrite filter_app. rewrite filter_none.
    + simpl. unfold summed_columns. rewrite filter_filter.
      now apply filter_ext_in.
    + intros [c t] Hct. apply in_map_iff in Hct as [c' [E Hc']].
      inversion E; subst; clear E. simpl.
      destruct (contains by_s c) eqn:Es; [now rewrite andb_false_r|].
      rewrite andb_true_r.
      destruct (dtype_of (columns df) c) as [t|] eqn:Ed; [|reflexivity].
      destruct (dtype_eqb t Numeric) eqn:Et; [|reflexivity].
      exfalso. apply (extra_keys_not_numeric c t).
      * now apply dtype_of_In.
      * assumption.
      * now apply contains_false.
      * destruct t; simpl in Et; congruence.
  - intros c Hc. apply in_map_iff in Hc as [[c' t] [E Hct]]. simpl in E. subst c'.
    unfold summed_columns in Hct. apply filter_In in Hct as [Hct Hq'].
    pose proof (Hq _ Hct) as Hq''. rewrite Hq' in Hq''.
    apply andb_true_iff in Hq'' as [Hq'' _]. simpl in Hq''.
    apply andb_true_iff in Hq'' as [Hnum Hnt].
    split; [now apply negb_true_iff|].
    apply in_map_iff. exists (c, t). split; [reflexivity|].
    unfold summed_columns. apply filter_In. split; [assumption|].
    simpl. now rewrite Hnum, Hnt.
Qed.

Lemma sub_key_of_row (r : list value) :
  sub_key by_s by_t (key_of (names df) by_t r) = key_of (names df) by_s r.
Proof.
  unfold sub_key, key_of. apply map_ext_in. intros c Hc.
  rewrite cell_map.
  replace (contains by_t c) with true; [reflexivity|].
  symmetry. apply contains_In. now apply by_s_in_by_t.
Qed.

Lemma key_of_regrouped_row (ns : list string) (r x : list value) :
  key_of (by_t ++ ns) by_s (key_of (names df) by_t r ++ x) =
  key_of (names df) by_s r.
Proof.
  unfold key_of at 1. unfold key_of at 2. apply map_ext_in. intros c Hc.
  apply cell_group_row_key. now apply by_s_in_by_t.
Qed.

Lemma regrouped_rows_keyed :
  keyed_rows (names (groupby_sum df by_t)) by_s (rows (groupby_sum df by_t)) =
  rows (groupby_sum df by_t).
Proof.
  unfold keyed_rows. apply filter_all. intros g Hg.
  rewrite names_groupby_sum.
  apply groupby_sum_rows in Hg as (r & x & Hr & Hv & ->).
  rewrite key_of_regrouped_row.
  unfold key_of in *. rewrite forallb_forall in *.
  intros v Hin. apply in_map_iff in Hin as [c [<- Hc]].
  apply Hv. apply in_map. now apply by_s_in_by_t.
Qed.

Lemma regrouped_keys :
  sorted_keys (map (key_of (names (groupby_sum df by_t)) by_s)
                   (rows (groupby_sum df by_t))) =
  sorted_keys (map (key_of (names df) by_s)
                   (keyed_rows (names df) by_s (rows df))).
Proof.
  apply sorted_keys_ext. intros k.
  rewrite keyed_rows_agree, names_groupby_sum, !in_map_iff. split.
  - intros [g [Hk Hg]].
    unfold groupby_sum in Hg. cbn [rows] in Hg.
    apply in_map_iff in Hg as [kt [<- Hkt]].
    rewrite in_sorted_keys in Hkt. apply in_map_iff in Hkt as [r [<- Hr]].
    rewrite key_of_regrouped_row in Hk. eauto.
  - intros [r [Hk Hr]].
    eexists. split.
    2:{ unfold groupby_sum. cbn [rows]. apply in_map.
        rewrite in_sorted_keys. apply in_map. exact Hr. }
    cbv beta. rewrite key_of_regrouped_row. exact Hk.
Qed.

Lemma regrouped_sum (k : list value) (c : string) :
  In c (map fst (summed_columns (columns df) by_s)) ->
  sum_col (names (groupby_sum df by_t)) c
          (group_of (names (groupby_sum df by_t)) by_s
                    (rows (groupby_sum df by_t)) k) =
  sum_col (names df) c
          (group_of (names df) by_s (keyed_rows (names df) by_s (rows df)) k).
Proof.
  intros Hc. destruct (proj2 summed_columns_regroup c Hc) as [Hct Hcs].
  apply contains_In in Hcs.
  rewrite keyed_rows_agree, !sum_col_zsum, names_groupby_sum.
  unfold group_of, groupby_sum. cbn [rows].
  set (valid := keyed_rows (names df) by_t (rows df)).
  set (keys := sorted_keys (map (key_of (names df) by_t) valid)).
  rewrite filter_map_swap, zsum_map.
  rewrite (filter_ext_in _ (fun kt => key_eqb (sub_key by_s by_t kt) k)).
  2:{ intros kt Hkt. unfold keys in Hkt. rewrite in_sorted_keys in Hkt.
      apply in_map_iff in Hkt as [r [<- Hr]].
      now rewrite key_of_regrouped_row, sub_key_of_row. }
  rewrite (zsum_ext _ (fun kt =>
             zsum (fun r => num_of (cell (names df) r c))
                  (filter (fun r => key_eqb (key_of (names df) by_t r) kt) valid))).
  2:{ intros kt Hkt. apply filter_In in Hkt as [Hkt _].
      unfold keys in Hkt. rewrite in_sorted_keys in Hkt.
      apply in_map_iff in Hkt as [r [<- Hr]].
      rewrite cell_app by (unfold key_of; apply length_map).
      rewrite Hct, cell_map, Hcs. reflexivity. }
  rewrite (zsum_by_groups (key_of (names df) by_t)
             (fun r => num_of (cell (names df) r c))
             (fun kt => key_eqb (sub_key by_s by_t kt) k) keys valid).
  - f_equal. apply filter_ext. intros r. now rewrite sub_key_of_row.
  - apply sorted_NoDup, sorted_keys_sorted.
  - intros r Hr. unfold keys. rewrite in_sorted_keys. now apply in_map.
Qed.

(** Grouping the grouped sum again, by fewer keys, is grouping the frame
    by the fewer keys. *)
Lemma groupby_sum_regroup :
  groupby_sum (groupby_sum df by_t) by_s = groupby_sum df by_s.
Proof.
  destruct summed_columns_regroup as [Hsum _].
  apply frame_eq.
  - rewrite !(columns_groupby_sum _ by_s), Hsum. f_equal.
    apply map_ext_in. intros c Hc. f_equal.
    rewrite (columns_groupby_sum df by_t).
    now rewrite dtype_of_keys by (now apply by_s_in_by_t).
  - rewrite !(rows_groupby_sum _ by_s), regrouped_rows_keyed, regrouped_keys, Hsum.
    apply map_ext. intros k. f_equal.
    apply map_ext_in. intros c Hc. f_equal.
    now apply regrouped_sum.
Qed.

End Regroup.

(** C6, as stated, fails three times.  A row without a municipality is in
    no group of (province, municipality), so grouping by both and then by
    the province loses its count, which grouping by the province keeps; a
    numeric column among the extra keys is summed once for each group
    instead of once for each row; and for the empty list of keys, which is
    within every list, pandas raises and there are no totals. *)
Lemma regrouping_changes_totals :
  (grouped <- group_by unnamed_cases ["Province"] ;; group_by grouped [])
    = Raise (ValueError "No group keys passed!") /\
  group_by unnamed_cases [] = Raise (ValueError "No group keys passed!") /\
  (grouped <- group_by unnamed_cases ["Province"; "Municipality_name"] ;;
   group_by grouped ["Province"])
    = Return (mkDataFrame [("Province", Object); ("Total_reported", Numeric)]
                          [[VStr "Utrecht"; VNum 10]]) /\
  group_by unnamed_cases ["Province"]
    = Return (mkDataFrame [("Province", Object); ("Total_reported", Numeric)]
                          [[VStr "Utrecht"; VNum 15]]) /\
  (grouped <- group_by yearly_cases ["Province"; "Year"] ;;
   group_by grouped ["Province"])
    = Return (mkDataFrame
                [("Province", Object); ("Year", Numeric); ("Total_reported", Numeric)]
                [[VStr "Utrecht"; VNum 2021; VNum 2]]) /\
  group_by yearly_cases ["Province"]
    = Return (mkDataFrame
                [("Province", Object); ("Year", Numeric); ("Total_reported", Numeric)]
                [[VStr "Utrecht"; VNum 4042; VNum 2]]).
Proof. repeat split; vm_compute; reflexivity. Qed.

Lemma Return_inj {A : Type} (a b : A) : Return a = Return b -> a = b.
Proof. intros H. now inversion H. Qed.

(** ** What a call of [group_by] that returns tells *)

Lemma group_by_returns (dataset grouped : DataFrame) (grouping_columns : list string) :
  group_by dataset grouping_columns = Return grouped ->
  incl grouping_columns (names dataset) /\
  grouping_columns <> [] /\
  exact_sums dataset = true /\
  grouped = groupby_sum dataset grouping_columns.
Proof.
  unfold group_by.
  destruct (issubset grouping_columns (names dataset)) eqn:Hs; cbn [negb];
    [|discriminate].
  destruct grouping_columns as [|c cs]; [discriminate|].
  destruct (exact_sums dataset); [|discriminate].
  intros H. apply Return_inj in H.
  repeat split; [now apply issubset_incl|discriminate|now symmetry].
Qed.

Lemma group_by_ok (dataset : DataFrame) (grouping_columns : list string) :
  incl grouping_columns (names dataset) ->
  grouping_columns <> [] ->
  exact_sums dataset = true ->
  group_by dataset grouping_columns = Return (groupby_sum dataset grouping_columns).
Proof.
  intros Hi Hne He. unfold group_by.
  apply issubset_incl in Hi. rewrite Hi, He. cbn [negb].
  destruct grouping_columns; [contradiction|reflexivity].
Qed.

(** ** Sums of absolute values *)

Lemma abs_sum_zsum (cs : list string) (c : string) (rs : list (list value)) :
  abs_sum cs c rs = zsum (fun r => Z.abs (num_of (cell cs r c))) rs.
Proof. reflexivity. Qed.

Lemma zsum_le {A : Type} (v w : A -> Z) (l : list A) :
  (forall a, In a l -> v a <= w a) -> zsum v l <= zsum w l.
Proof.
  induction l as [|a l IH]; intros H; cbn [zsum fold_right]; [lia|].
  assert (v a <= w a) by (apply H; now left).
  assert (zsum v l <= zsum w l) by (apply IH; intros x Hx; apply H; now right).
  unfold zsum in *. lia.
Qed.

Lemma zsum_nonneg {A : Type} (v : A -> Z) (l : list A) :
  (forall a, 0 <= v a) -> 0 <= zsum v l.
Proof.
  intros H. induction l as [|a l IH]; cbn [zsum fold_right]; [lia|].
  specialize (H a). unfold zsum in IH. lia.
Qed.

Lemma zsum_filter_le {A : Type} (v : A -> Z) (p : A -> bool) (l : list A) :
  (forall a, 0 <= v a) -> zsum v (filter p l) <= zsum v l.
Proof.
  intros H. induction l as [|a l IH]; cbn [filter zsum fold_right]; [lia|].
  specialize (H a). unfold zsum in *.
  destruct (p a); cbn [fold_right]; lia.
Qed.

Lemma zsum_abs {A : Type} (v : A -> Z) (l : list A) :
  Z.abs (zsum v l) <= zsum (fun a => Z.abs (v a)) l.
Proof.
  induction l as [|a l IH]; cbn [zsum fold_right]; [lia|].
  unfold zsum in *. lia.
Qed.

Lemma zsum_member {A : Type} (v : A -> Z) (l : list A) (a : A) :
  (forall x, 0 <= v x) -> In a l -> v a <= zsum v l.
Proof.
  intros H. induction l as [|b l IH]; intros Hin; [destruct Hin|].
  cbn [zsum fold_right]. destruct Hin as [->|Hin].
  - pose proof (zsum_nonneg v l H). unfold zsum in *. lia.
  - specialize (IH Hin). specialize (H b). unfold zsum in *. lia.
Qed.

(** The groups of a frame add up to no more than the frame. *)
Lemma zsum_groups_le (cs by_ : list string) (rs : list (list value))
  (v : list value -> Z) (w : list value -> Z) :
  (forall r, 0 <= v r) ->
  (forall k, In k (sorted_keys (map (key_of cs by_) (keyed_rows cs by_ rs))) ->
             w k <= zsum v (filter (fun r => key_eqb (key_of cs by_ r) k)
                                   (keyed_rows cs by_ rs))) ->
  zsum w (sorted_keys (map (key_of cs by_) (keyed_rows cs by_ rs))) <= zsum v rs.
Proof.
  intros Hv Hw.
  set (valid := keyed_rows cs by_ rs) in *.
  set (ks := sorted_keys (map (key_of cs by_) valid)) in *.
  apply Z.le_trans with
    (zsum (fun k => zsum v (filter (fun r => key_eqb (key_of cs by_ r) k) valid)) ks).
  - apply zsum_le. exact Hw.
  - rewrite <- (filter_all (fun _ => true) ks) at 1 by reflexivity.
    rewrite (zsum_by_groups (key_of cs by_) v (fun _ => true) ks valid).
    + rewrite filter_all by reflexivity. unfold valid, keyed_rows.
      now apply zsum_filter_le.
    + apply sorted_NoDup, sorted_keys_sorted.
    + intros r Hr. apply in_sorted_keys, in_map, Hr.
Qed.

Lemma length_key_of (cs by_ : list string) (r : list value) :
  List.length (key_of cs by_ r) = List.length by_.
Proof. unfold key_of. apply length_map. Qed.

Lemma sorted_key_length (cs by_ : list string) (rs : list (list value))
  (k : list value) :
  In k (sorted_keys (map (key_of cs by_) rs)) -> List.length k = List.length by_.
Proof.
  rewrite in_sorted_keys, in_map_iff. intros [r [<- _]]. apply length_key_of.
Qed.

Lemma cell_group_row_sum (by_ sn : list string) (k : list value)
  (f : string -> value) (c : string) :
  List.length k = List.length by_ ->
  contains by_ c = false ->
  cell (by_ ++ sn) (k ++ map f sn) c = if contains sn c then f c else VNull.
Proof.
  intros Hl Hc. rewrite cell_app by exact Hl. rewrite Hc. apply cell_map.
Qed.

Lemma exact_sums_column (df : DataFrame) (c : string) :
  exact_sums df = true ->
  In (c, Numeric) (columns df) ->
  abs_sum (names df) c (rows df) < 2 ^ 53.
Proof.
  unfold exact_sums. rewrite forallb_forall. intros H Hin.
  specialize (H _ Hin). cbn [fst snd dtype_eqb negb orb] in H.
  now apply Z.ltb_lt.
Qed.

(** A grouped frame of a frame with exact sums has exact sums. *)
Lemma exact_sums_groupby_sum (df : DataFrame) (by_ : list string) :
  exact_sums df = true -> exact_sums (groupby_sum df by_) = true.
Proof.
  intros He. unfold exact_sums. apply forallb_forall. intros [c t] Hin.
  cbn [fst snd]. destruct t; try reflexivity. cbn [dtype_eqb negb orb].
  apply Z.ltb_lt.
  rewrite columns_groupby_sum in Hin.
  rewrite abs_sum_zsum, names_groupby_sum, rows_groupby_sum, zsum_map.
  set (cs := names df). set (valid := keyed_rows cs by_ (rows df)).
  set (sn := map fst (summed_columns (columns df) by_)).
  apply in_app_or in Hin. destruct Hin as [Hin|Hin].
  - (* a key column *)
    apply in_map_iff in Hin. destruct Hin as [c' [E Hc]].
    injection E as -> Ht.
    assert (Hcol : In (c, Numeric) (columns df)).
    { destruct (dtype_of (columns df) c) as [t|] eqn:Ed; [|discriminate].
      subst t. now apply dtype_of_In. }
    apply Z.le_lt_trans with (abs_sum cs c (rows df));
      [|now apply exact_sums_column].
    rewrite abs_sum_zsum. apply zsum_groups_le; [intros; lia|].
    intros k Hk. apply in_sorted_keys, in_map_iff in Hk.
    destruct Hk as [r [<- Hr]].
    rewrite cell_group_row_key by exact Hc.
    apply (zsum_member (fun r => Z.abs (num_of (cell cs r c)))); [intros; lia|].
    apply filter_In. split; [exact Hr|apply key_eqb_refl].
  - (* a summed column *)
    assert (Hcol : In (c, Numeric) (columns df)).
    { apply filter_In in Hin. tauto. }
    assert (Hby : contains by_ c = false).
    { apply filter_In in Hin. destruct Hin as [_ Hin]. cbn [fst snd] in Hin.
      apply andb_true_iff in Hin. destruct Hin as [_ Hin].
      now apply negb_true_iff in Hin. }
    assert (Hsn : contains sn c = true).
    { apply contains_In. unfold sn. apply in_map_iff. now exists (c, Numeric). }
    apply Z.le_lt_trans with (abs_sum cs c (rows df));
      [|now apply exact_sums_column].
    rewrite abs_sum_zsum. apply zsum_groups_le; [intros; lia|].
    intros k Hk.
    rewrite cell_group_row_sum; [|eapply sorted_key_length, Hk|exact Hby].
    rewrite Hsn. cbn [num_of]. rewrite sum_col_zsum. apply zsum_abs.
Qed.

(** The sum of a column outside [by_t] over a group of the regrouped
    frame. *)
Lemma regrouped_sum_outside (df : DataFrame) (by_s by_t : list string)
  (k : list value) (c : string) :
  incl by_s by_t ->
  (forall r, In r (rows df) ->
             forallb notna (key_of (names df) by_s r) = true ->
             forallb notna (key_of (names df) by_t r) = true) ->
  contains by_t c = false ->
  In c (map fst (summed_columns (columns df) by_t)) ->
  sum_col (names (groupby_sum df by_t)) c
          (group_of (names (groupby_sum df by_t)) by_s
                    (rows (groupby_sum df by_t)) k) =
  sum_col (names df) c
          (group_of (names df) by_s (keyed_rows (names df) by_s (rows df)) k).
Proof.
  intros Hincl Hpresent Hct Hcs.
  apply contains_In in Hcs.
  rewrite (keyed_rows_agree df by_s by_t Hincl Hpresent), !sum_col_zsum,
    names_groupby_sum.
  unfold group_of, groupby_sum. cbn [rows].
  set (valid := keyed_rows (names df) by_t (rows df)).
  set (keys := sorted_keys (map (key_of (names df) by_t) valid)).
  rewrite filter_map_swap, zsum_map.
  rewrite (filter_ext_in _ (fun kt => key_eqb (sub_key by_s by_t kt) k)).
  2:{ intros kt Hkt. unfold keys in Hkt. rewrite in_sorted_keys in Hkt.
      apply in_map_iff in Hkt as [r [<- Hr]].
      now rewrite (key_of_regrouped_row df by_s by_t Hincl),
        (sub_key_of_row df by_s by_t Hincl). }
  rewrite (zsum_ext _ (fun kt =>
             zsum (fun r => num_of (cell (names df) r c))
                  (filter (fun r => key_eqb (key_of (names df) by_t r) kt) valid))).
  2:{ intros kt Hkt. apply filter_In in Hkt as [Hkt _].
      unfold keys in Hkt. rewrite in_sorted_keys in Hkt.
      apply in_map_iff in Hkt as [r [<- Hr]].
      rewrite cell_app by (unfold key_of; apply length_map).
      rewrite Hct, cell_map, Hcs. reflexivity. }
  rewrite (zsum_by_groups (key_of (names df) by_t)
             (fun r => num_of (cell (names df) r c))
             (fun kt => key_eqb (sub_key by_s by_t kt) k) keys valid).
  - f_equal. apply filter_ext. intros r.
    now rewrite (sub_key_of_row df by_s by_t Hincl).
  - apply sorted_NoDup, sorted_keys_sorted.
  - intros r Hr. unfold keys. rewrite in_sorted_keys. now apply in_map.
Qed.

(** The keys of the regrouped frame are those of the frame grouped by the
    fewer keys, in the same order. *)
Lemma regrouped_key_rows (df : DataFrame) (by_s by_t : list string) :
  incl by_s by_t ->
  (forall r, In r (rows df) ->
             forallb notna (key_of (names df) by_s r) = true ->
             forallb notna (key_of (names df) by_t r) = true) ->
  sorted_keys (map (key_of (names (groupby_sum df by_t)) by_s)
                   (keyed_rows (names (groupby_sum df by_t)) by_s
                               (rows (groupby_sum df by_t)))) =
  sorted_keys (map (key_of (names df) by_s) (keyed_rows (names df) by_s (rows df))).
Proof.
  intros Hincl Hpresent.
  rewrite (regrouped_rows_keyed df by_s by_t Hincl).
  now apply regrouped_keys.
Qed.

(** Under a column outside [by_t], the regrouped frame has the cells of
    the frame grouped by the fewer keys. *)
Lemma regrouped_cells (df : DataFrame) (by_s by_t : list string) (c : string) :
  incl by_s by_t ->
  (forall r, In r (rows df) ->
             forallb notna (key_of (names df) by_s r) = true ->
             forallb notna (key_of (names df) by_t r) = true) ->
  dtype_of (columns df) c = Some Numeric ->
  ~ In c by_t ->
  In c (names (groupby_sum (groupby_sum df by_t) by_s)) /\
  In c (names (groupby_sum df by_s)) /\
  map (fun r => cell (names (groupby_sum (groupby_sum df by_t) by_s)) r c)
      (rows (groupby_sum (groupby_sum df by_t) by_s)) =
  map (fun r => cell (names (groupby_sum df by_s)) r c)
      (rows (groupby_sum df by_s)).
Proof.
  intros Hincl Hpresent Ht Hc.
  assert (Hct : contains by_t c = false) by now apply contains_false.
  assert (Hcs : contains by_s c = false).
  { apply contains_false. intros H. apply Hc. now apply Hincl. }
  assert (Hcol : In (c, Numeric) (columns df)) by now apply dtype_of_In.
  assert (Hst : In (c, Numeric) (summed_columns (columns df) by_t)).
  { apply filter_In. split; [exact Hcol|]. cbn [fst snd dtype_eqb]. now rewrite Hct. }
  assert (Hss : In (c, Numeric) (summed_columns (columns df) by_s)).
  { apply filter_In. split; [exact Hcol|]. cbn [fst snd dtype_eqb]. now rewrite Hcs. }
  assert (Hsg : In (c, Numeric)
                   (summed_columns (columns (groupby_sum df by_t)) by_s)).
  { apply filter_In. split.
    - rewrite columns_groupby_sum. apply in_or_app. now right.
    - cbn [fst snd dtype_eqb]. now rewrite Hcs. }
  assert (Hn : forall l, In (c, Numeric) l -> contains (map fst l) c = true).
  { intros l Hl. apply contains_In, in_map_iff. now exists (c, Numeric). }
  split; [|split].
  - rewrite names_groupby_sum. apply in_or_app. right.
    apply in_map_iff. now exists (c, Numeric).
  - rewrite names_groupby_sum. apply in_or_app. right.
    apply in_map_iff. now exists (c, Numeric).
  - rewrite !(names_groupby_sum _ by_s), !(rows_groupby_sum _ by_s), !map_map.
    rewrite (regrouped_key_rows df by_s by_t Hincl Hpresent).
    apply map_ext_in. intros k Hk.
    rewrite !cell_group_row_sum;
      try exact Hcs; try (eapply sorted_key_length, Hk).
    rewrite (Hn _ Hsg), (Hn _ Hss). f_equal.
    rewrite (regrouped_rows_keyed df by_s by_t Hincl).
    apply regrouped_sum_outside; try assumption.
    apply in_map_iff. now exists (c, Numeric).
Qed.

(** C6, amended.  Let [fewer] be a list of keys that is not empty, among
    [more], both without repetition and present in the table, and let every
    row with all cells of [fewer] have all cells of [more].  When grouping
    by [more] returns, which it does for integers that add up exactly, then
    grouping the result by [fewer] and grouping the table by [fewer] return
    frames with the same keys in the same order and with the same totals in
    every numeric column of the table outside [more]; and the two frames
    are equal when no column of [more] outside [fewer] is numeric. *)
Theorem regrouping_by_fewer_keys_keeps_totals
  (dataset grouped : DataFrame) (fewer more : list string) :
  fewer <> [] -> NoDup fewer -> NoDup more -> incl fewer more ->
  (forall r, In r (rows dataset) ->
             forallb notna (key_of (names dataset) fewer r) = true ->
             forallb notna (key_of (names dataset) more r) = true) ->
  group_by dataset more = Return grouped ->
  exists regrouped direct,
    group_by grouped fewer = Return regrouped /\
    group_by dataset fewer = Return direct /\
    map (key_of (names regrouped) fewer) (rows regrouped) =
    map (key_of (names direct) fewer) (rows direct) /\
    (forall c, dtype_of (columns dataset) c = Some Numeric -> ~ In c more ->
               In c (names regrouped) /\ In c (names direct) /\
               map (fun r => cell (names regrouped) r c) (rows regrouped) =
               map (fun r => cell (names direct) r c) (rows direct)) /\
    ((forall c t, In (c, t) (columns dataset) -> In c more -> ~ In c fewer ->
                  t <> Numeric) ->
     regrouped = direct).
Proof.
  intros Hne _ _ Hincl Hpresent Hmore.
  apply group_by_returns in Hmore. destruct Hmore as (Hsub & _ & Hexact & ->).
  exists (groupby_sum (groupby_sum dataset more) fewer), (groupby_sum dataset fewer).
  split; [|split; [|split; [|split]]].
  - apply group_by_ok; [|exact Hne|now apply exact_sums_groupby_sum].
    rewrite names_groupby_sum. intros c Hc. apply in_or_app. left. now apply Hincl.
  - apply group_by_ok; [|exact Hne|exact Hexact].
    intros c Hc. apply Hsub. now apply Hincl.
  - rewrite !groupby_sum_keys. now apply regrouped_key_rows.
  - intros c Ht Hc. now apply regrouped_cells.
  - intros Hnum. now apply groupby_sum_regroup.
Qed.

(** On [yearly_cases], grouped by province and year and then by province:
    the year is a numeric key, and the totals of the reported cases
    agree. *)
Lemma regrouping_by_fewer_keys_keeps_totals_witness :
  exists regrouped direct,
    group_by (groupby_sum yearly_cases ["Province"; "Year"]) ["Province"]
      = Return regrouped /\
    group_by yearly_cases ["Province"] = Return direct /\
    map (key_of (names regrouped) ["Province"]) (rows regrouped) =
    map (key_of (names direct) ["Province"]) (rows direct) /\
    (forall c, dtype_of (columns yearly_cases) c = Some Numeric ->
               ~ In c ["Province"; "Year"] ->
               In c (names regrouped) /\ In c (names direct) /\
               map (fun r => cell (names regrouped) r c) (rows regrouped) =
               map (fun r => cell (names direct) r c) (rows direct)) /\
    ((forall c t, In (c, t) (columns yearly_cases) -> In c ["Province"; "Year"] ->
                  ~ In c ["Province"] -> t <> Numeric) ->
     regrouped = direct).
Proof.
  apply (regrouping_by_fewer_keys_keeps_totals yearly_cases
           (groupby_sum yearly_cases ["Province"; "Year"])
           ["Province"] ["Province"; "Year"]).
  - discriminate.
  - repeat constructor; simpl; intuition discriminate.
  - repeat constructor; simpl; intuition discriminate.
  - intros c Hc. simpl in *. tauto.
  - intros r Hin. simpl in Hin.
    repeat (destruct Hin as [Hin|Hin]; [subst r; vm_compute; tauto|]).
    contradiction.
  - reflexivity.
Defined.

(** ** The merge keeps every case row and fills in the admissions (C2) *)

(** C2, as stated, fails: the cleaned case table of [bergen_provider] has
    one key (2021-01-01, "Bergen") and the dataset has two rows for it. *)
Lemma one_case_key_two_merged_rows :
  let self' := fst (_build_covid_dataset bergen_provider) in
  let cases := infections_and_mortalities self' in
  sorted_keys (map (key_of (names cases) _MERGE_COLUMNS) (rows cases))
    = [[VStr "2021-01-01"; VStr "Bergen"]] /\
  option_map (fun ds => List.length (rows ds)) (covid_dataset self') = Some 2%nat.
Proof. vm_compute. split; reflexivity. Qed.

Lemma nth_error_key_unique (cs on : list string) (rs : list (list value))
  (i j : nat) (c c' : list value) :
  NoDup (map (key_of cs on) rs) ->
  nth_error rs i = Some c -> nth_error rs j = Some c' ->
  key_of cs on c' = key_of cs on c -> j = i.
Proof.
  intros Hnd Hi Hj Hk.
  rewrite NoDup_nth_error in Hnd. symmetry. apply Hnd.
  - rewrite length_map. apply nth_error_Some. congruence.
  - rewrite (map_nth_error _ _ _ Hi), (map_nth_error _ _ _ Hj). congruence.
Qed.

Lemma admissions_to_group_cells (ha ha3 : DataFrame) :
  admissions_to_group ha ha3 ->
  (forall r c, contains admission_columns_to_drop c = false ->
               cell (names ha3) (drop_cells (names ha) r admission_columns_to_drop) c
               = cell (names ha) r c) /\
  (forall r, key_of (names ha3) _MERGE_COLUMNS
                    (drop_cells (names ha) r admission_columns_to_drop)
             = key_of (names ha) _MERGE_COLUMNS r).
Proof.
  intros [Hc3 _].
  assert (Hn3 : names ha3 =
                filter (fun c => negb (contains admission_columns_to_drop c))
                       (names ha)).
  { unfold names. rewrite Hc3.
    apply names_filter
      with (p := fun c => negb (contains admission_columns_to_drop c)). }
  assert (Hcell : forall r c, contains admission_columns_to_drop c = false ->
             cell (names ha3) (drop_cells (names ha) r admission_columns_to_drop) c
             = cell (names ha) r c).
  { intros r c Hd. rewrite Hn3. now apply cell_drop_cells. }
  split; [exact Hcell|].
  intros r. unfold key_of, _MERGE_COLUMNS. cbn [map].
  now rewrite !Hcell by reflexivity.
Qed.

(** The sum of the admissions of a group of the cleaned admission table is
    the sum over the rows of the source table with the key of the group. *)
Lemma group_admissions_are_sums (ha ha3 : DataFrame) (k : list value) :
  admissions_to_group ha ha3 ->
  forallb notna k = true ->
  sum_col (names ha3) "Hospital_admission"
          (group_of (names ha3) _MERGE_COLUMNS
                    (keyed_rows (names ha3) _MERGE_COLUMNS (rows ha3)) k)
  = admissions_of_key ha k.
Proof.
  intros Hg Hvalid.
  destruct (admissions_to_group_cells _ _ Hg) as [Hcell Hkeys].
  destruct Hg as [_ Hr3].
  unfold admissions_of_key, group_of, keyed_rows. rewrite filter_filter.
  rewrite (filter_ext _
             (fun r => key_eqb (key_of (names ha3) _MERGE_COLUMNS r) k)).
  2:{ intros r.
      destruct (key_eqb (key_of (names ha3) _MERGE_COLUMNS r) k) eqn:E;
        [|apply andb_false_r].
      apply key_eqb_eq in E. rewrite E. now rewrite Hvalid. }
  rewrite Hr3, filter_map_swap, !sum_col_zsum, zsum_map, filter_filter.
  rewrite (zsum_ext _ (fun r => num_of (cell (names ha) r "Hospital_admission")))
    by (intros r _; now rewrite Hcell by reflexivity).
  f_equal. apply filter_ext. intros r. now rewrite Hkeys.
Qed.

(** The admissions of a row of the cleaned admission table are the
    admissions the source table reports for its key. *)
Lemma cleaned_admissions_are_sums (ha ha3 : DataFrame) (a : list value) :
  admissions_to_group ha ha3 ->
  contains (names (groupby_sum ha3 _MERGE_COLUMNS)) "Hospital_admission" = true ->
  In a (rows (groupby_sum ha3 _MERGE_COLUMNS)) ->
  cell (names (groupby_sum ha3 _MERGE_COLUMNS)) a "Hospital_admission" =
  VNum (admissions_of_key ha
          (key_of (names (groupby_sum ha3 _MERGE_COLUMNS)) _MERGE_COLUMNS a)).
Proof.
  intros Hg Hc Ha.
  rewrite names_groupby_sum in *.
  rewrite contains_app in Hc. simpl in Hc.
  rewrite rows_groupby_sum in Ha. apply in_map_iff in Ha as [k [<- Hk]].
  apply group_key_origin in Hk as [r3 [_ [Hvalid Hkey]]]. subst k.
  rewrite key_of_group_row.
  rewrite cell_app by (unfold key_of; apply length_map).
  change (contains _MERGE_COLUMNS "Hospital_admission") with false. cbv iota.
  rewrite cell_map, Hc. f_equal.
  now apply group_admissions_are_sums.
Qed.

(** A key without a row in the cleaned admission table has no admissions
    in the source table. *)
Lemma no_admission_row_no_admissions (ha ha3 : DataFrame) (k : list value) :
  admissions_to_group ha ha3 ->
  forallb notna k = true ->
  find (fun a => key_eqb k (key_of (names (groupby_sum ha3 _MERGE_COLUMNS))
                                   _MERGE_COLUMNS a))
       (rows (groupby_sum ha3 _MERGE_COLUMNS)) = None ->
  admissions_of_key ha k = 0.
Proof.
  intros Hg Hvalid Hfind.
  destruct (admissions_to_group_cells _ _ Hg) as [_ Hkeys].
  destruct Hg as [_ Hr3].
  unfold admissions_of_key. rewrite filter_none; [reflexivity|].
  intros x Hx. apply not_true_iff_false. intros Hp.
  apply andb_true_iff in Hp as [Hna Hk]. apply key_eqb_eq in Hk.
  assert (Hin : In k (map (key_of (names (groupby_sum ha3 _MERGE_COLUMNS))
                                  _MERGE_COLUMNS)
                          (rows (groupby_sum ha3 _MERGE_COLUMNS)))).
  { rewrite groupby_sum_keys, in_sorted_keys. apply in_map_iff.
    exists (drop_cells (names ha) x admission_columns_to_drop).
    split; [now rewrite Hkeys|].
    unfold keyed_rows. apply filter_In. split.
    - rewrite Hr3.
      apply (in_map (fun r => drop_cells (names ha) r admission_columns_to_drop)).
      apply filter_In. auto.
    - now rewrite Hkeys, Hk. }
  apply in_map_iff in Hin as [a [Hka Ha]].
  apply (find_none _ _ Hfind) in Ha. rewrite Hka, key_eqb_refl in Ha. discriminate.
Qed.

(** C2, amended.  When the build returns, the cleaned case table has no
    column [Hospital_admission], the cleaned admission table has one, and
    no two rows of the cleaned case table have the same (date,
    municipality) key, then the dataset has as many rows as the case table
    and, for every key of the case table, the one case row with that key
    and the dataset row at the same position agree on the municipality, the
    date of the dataset row is the parsed date of the case row, and its
    [Hospital_admission] is 0 when no row of the admission table has the
    key and the value of the one admission row with the key otherwise; in
    both cases it is the sum of the admissions that the rows of the source
    table with a municipality name report for the key. *)
Theorem merge_keeps_case_rows_and_fills_admissions
  (self self' : CovidDataProvider) :
  _build_covid_dataset self = (self', Return tt) ->
  contains (names (infections_and_mortalities self')) "Hospital_admission" = false ->
  contains (names (hospital_admissions self')) "Hospital_admission" = true ->
  NoDup (map (key_of (names (infections_and_mortalities self')) _MERGE_COLUMNS)
             (rows (infections_and_mortalities self'))) ->
  let cases := infections_and_mortalities self' in
  let admissions := hospital_admissions self' in
  exists ds,
    covid_dataset self' = Some ds /\
    List.length (rows ds) = List.length (rows cases) /\
    NoDup (map (key_of (names admissions) _MERGE_COLUMNS) (rows admissions)) /\
    forall k,
      In k (map (key_of (names cases) _MERGE_COLUMNS) (rows cases)) ->
      exists i c r,
        nth_error (rows cases) i = Some c /\
        key_of (names cases) _MERGE_COLUMNS c = k /\
        (forall j c', nth_error (rows cases) j = Some c' ->
                      key_of (names cases) _MERGE_COLUMNS c' = k -> j = i) /\
        nth_error (rows ds) i = Some r /\
        cell (names ds) r "Municipality_name" = cell (names cases) c "Municipality_name" /\
        to_datetime (cell (names cases) c "Date_of_publication")
          = Return (cell (names ds) r "Date_of_publication") /\
        cell (names ds) r "Hospital_admission" =
          match find (fun a => key_eqb k (key_of (names admissions) _MERGE_COLUMNS a))
                     (rows admissions) with
          | Some a => cell (names admissions) a "Hospital_admission"
          | None => VNum 0
          end /\
        cell (names ds) r "Hospital_admission" =
          VNum (admissions_of_key (hospital_admissions self) k).
Proof.
  intros Hbuild Hcha Haha Hnd cases admissions.
  apply build_returns in Hbuild
    as (im3 & ha3 & m & ds & Him & Hha & _ & _ & Hc3 & Hr3 & Hmerge & Hds & _
        & Hnds & Hrds & Hok).
  assert (Hgroup : admissions_to_group (hospital_admissions self) ha3)
    by (split; assumption).
  fold cases in Him, Hmerge, Hcha, Hnd. fold admissions in Hha, Hmerge, Haha.
  assert (Hnda : NoDup (map (key_of (names admissions) _MERGE_COLUMNS)
                            (rows admissions))).
  { rewrite Hha. apply groupby_sum_keys_NoDup. }
  apply merge_returns in Hmerge as [Hnm Hrm]; [|exact Hnda].
  exists ds. split; [assumption|].
  split. { now rewrite Hrds, Hrm, !length_map. }
  split; [exact Hnda|].
  intros k Hk. apply in_map_iff in Hk as [c [Hkc Hc]].
  apply In_nth_error in Hc as [i Hi].
  set (mr := fun l => merge_row (names cases) (names admissions)
                        (map fst (other_columns _MERGE_COLUMNS (columns admissions))) l
                        (find (fun r => key_eqb (key_of (names cases) _MERGE_COLUMNS l)
                                                (key_of (names admissions) _MERGE_COLUMNS r))
                              (rows admissions))) in *.
  exists i, c, (built_row (names m) (mr c)).
  split; [assumption|]. split; [assumption|].
  split.
  { intros j c' Hj Hkc'.
    exact (nth_error_key_unique _ _ _ i j c c' Hnd Hi Hj
             (eq_trans Hkc' (eq_sym Hkc))). }
  split.
  { rewrite Hrds, Hrm. now repeat apply map_nth_error. }
  assert (Hcm : contains (names cases) "Municipality_name" = true)
    by (rewrite Him, names_groupby_sum; reflexivity).
  assert (Hcd : contains (names cases) "Date_of_publication" = true)
    by (rewrite Him, names_groupby_sum; reflexivity).
  rewrite Hnds, Hnm.
  split.
  { rewrite cell_built_row_other by discriminate.
    unfold mr. now rewrite cell_merge_row_key by (auto; discriminate). }
  split.
  { rewrite cell_built_row_date.
    assert (Hin : In (mr c) (rows m)).
    { rewrite Hrm. apply in_map. eapply nth_error_In; eauto. }
    rewrite Forall_forall in Hok. destruct (Hok _ Hin) as [d Hd].
    rewrite Hnm in Hd. unfold mr in Hd at 1.
    rewrite cell_merge_row_key in Hd by (auto; discriminate).
    unfold mr at 1. rewrite cell_merge_row_key by (auto; discriminate).
    unfold datetime_of. now rewrite Hd. }
  rewrite cell_built_row_admission. unfold mr.
  rewrite cell_merge_row_right;
    [|assumption
     |rewrite names_other_columns, contains_filter; fold (names admissions);
      now rewrite Haha
     |discriminate|discriminate].
  rewrite Hkc.
  assert (Hvalid : forallb notna k = true).
  { assert (Hc : In c (rows cases)) by (eapply nth_error_In; eauto).
    rewrite <- Hkc. rewrite Him in Hc |- *.
    apply groupby_sum_rows in Hc as (r3 & x & _ & Hv & ->).
    rewrite names_groupby_sum. unfold key_of at 1, _MERGE_COLUMNS. cbn [map].
    rewrite !cell_group_row_key by (simpl; tauto).
    simpl in Hv. apply andb_true_iff in Hv as [Hv1 Hv].
    apply andb_true_iff in Hv as [_ Hv]. apply andb_true_iff in Hv as [Hv2 _].
    simpl. now rewrite Hv1, Hv2. }
  destruct (find _ (rows admissions)) as [a|] eqn:Hfind.
  - apply find_some in Hfind as [Ha Hka]. apply key_eqb_eq in Hka.
    rewrite Hha in Ha, Haha, Hka |- *.
    rewrite (cleaned_admissions_are_sums _ _ _ Hgroup Haha Ha), <- Hka.
    split; reflexivity.
  - rewrite Hha in Hfind.
    now rewrite (no_admission_row_no_admissions _ _ _ Hgroup Hvalid Hfind).
Qed.

(** On [sample_provider], whose build returns. *)
Lemma merge_keeps_case_rows_and_fills_admissions_witness :
  let self' := fst (_build_covid_dataset sample_provider) in
  let cases := infections_and_mortalities self' in
  let admissions := hospital_admissions self' in
  exists ds,
    covid_dataset self' = Some ds /\
    List.length (rows ds) = List.length (rows cases) /\
    NoDup (map (key_of (names admissions) _MERGE_COLUMNS) (rows admissions)) /\
    forall k,
      In k (map (key_of (names cases) _MERGE_COLUMNS) (rows cases)) ->
      exists i c r,
        nth_error (rows cases) i = Some c /\
        key_of (names cases) _MERGE_COLUMNS c = k /\
        (forall j c', nth_error (rows cases) j = Some c' ->
                      key_of (names cases) _MERGE_COLUMNS c' = k -> j = i) /\
        nth_error (rows ds) i = Some r /\
        cell (names ds) r "Municipality_name" = cell (names cases) c "Municipality_name" /\
        to_datetime (cell (names cases) c "Date_of_publication")
          = Return (cell (names ds) r "Date_of_publication") /\
        cell (names ds) r "Hospital_admission" =
          match find (fun a => key_eqb k (key_of (names admissions) _MERGE_COLUMNS a))
                     (rows admissions) with
          | Some a => cell (names admissions) a "Hospital_admission"
          | None => VNum 0
          end /\
        cell (names ds) r "Hospital_admission" =
          VNum (admissions_of_key (hospital_admissions sample_provider) k).
Proof.
  apply (merge_keeps_case_rows_and_fills_admissions sample_provider).
  - vm_compute. reflexivity.
  - reflexivity.
  - reflexivity.
  - vm_compute. repeat constructor; simpl; intuition discriminate.
Defined.

(** ** Frames indexed by date *)

Lemma icell_map {C : Type} (na : C) (f : string -> C) (cs : list string) (c : string) :
  icell na cs (map f cs) c = if contains cs c then f c else na.
Proof.
  induction cs as [|c0 cs IH]; [reflexivity|].
  simpl. destruct (String.eqb c c0) eqn:E.
  - apply String.eqb_eq in E. now subst.
  - exact IH.
Qed.

Lemma icell_app {C : Type} (na : C) (cs1 cs2 : list string) (r1 r2 : list C)
  (c : string) :
  List.length r1 = List.length cs1 ->
  icell na (cs1 ++ cs2) (r1 ++ r2) c =
  if contains cs1 c then icell na cs1 r1 c else icell na cs2 r2 c.
Proof.
  revert r1. induction cs1 as [|c0 cs1 IH]; intros r1 Hlen.
  - destruct r1; [reflexivity|discriminate].
  - destruct r1 as [|v r1]; [discriminate|]. simpl in Hlen.
    simpl. destruct (String.eqb c c0); [reflexivity|].
    apply IH. lia.
Qed.

Lemma icell_Cell (F : Type) (cs : list string) (r : list value) (c : string) :
  icell (@NaN F) cs (map Cell r) c = Cell (icell VNull cs r c).
Proof.
  revert r. induction cs as [|c0 cs IH]; intros r.
  - now destruct r.
  - destruct r as [|v r]; [reflexivity|].
    simpl. destruct (String.eqb c c0); [reflexivity|apply IH].
Qed.

Lemma date_range_last (first last : Z) :
  first <= last ->
  date_range first last <> [] /\
  List.last (date_range first last) 0 = last.
Proof.
  intros Hle. unfold date_range.
  replace (Z.to_nat (last - first + 1)) with (S (Z.to_nat (last - first))) by lia.
  rewrite seq_S, map_app. simpl. split.
  - intros E. apply app_eq_nil in E as [_ E]. discriminate.
  - rewrite last_last. lia.
Qed.

Lemma date_range_bounds (first last d : Z) :
  In d (date_range first last) -> first <= d <= last.
Proof.
  unfold date_range. rewrite in_map_iff. intros [i [<- Hi]].
  apply in_seq in Hi. lia.
Qed.

(** The days of a range and the days after it, up to [n] more, are one
    range. *)
Lemma date_range_extend (first last : Z) (n : nat) :
  first <= last ->
  date_range first last ++ map (fun i => last + 1 + Z.of_nat i) (seq 0 n) =
  date_range first (last + Z.of_nat n).
Proof.
  intros Hle. unfold date_range.
  replace (Z.to_nat (last + Z.of_nat n - first + 1))
    with (Z.to_nat (last - first + 1) + n)%nat by lia.
  rewrite seq_app, map_app. f_equal. simpl.
  assert (H : forall m a,
             map (fun i => last + 1 + Z.of_nat i) (seq a m) =
             map (fun i => first + Z.of_nat i)
                 (seq (Z.to_nat (last - first + 1) + a) m)).
  { induction m as [|m IH]; intros a; [reflexivity|].
    simpl. f_equal; [lia|].
    replace (S (Z.to_nat (last - first + 1) + a))
      with (Z.to_nat (last - first + 1) + S a)%nat by lia.
    apply IH. }
  rewrite (H n 0%nat). now rewrite Nat.add_0_r.
Qed.

Lemma last_map_nonempty {A B : Type} (f : A -> B) (l : list A) (a : A) (b : B) :
  l <> [] -> List.last (map f l) b = f (List.last l a).
Proof.
  induction l as [|x l IH]; [congruence|]. intros _.
  destruct l as [|y l]; [reflexivity|].
  change (List.last (map f (y :: l)) b = f (List.last (y :: l) a)).
  apply IH. discriminate.
Qed.

Lemma fold_min_le (d0 : Z) {A : Type} (key : A -> Z) (l : list A) :
  fold_right (fun r m => Z.min (key r) m) d0 l <= d0.
Proof. induction l as [|a l IH]; simpl; lia. Qed.

Lemma fold_max_ge (d0 : Z) {A : Type} (key : A -> Z) (l : list A) :
  d0 <= fold_right (fun r m => Z.max (key r) m) d0 l.
Proof. induction l as [|a l IH]; simpl; lia. Qed.

(** The daily series has a row for each day from its first to its last
    day, once and in order. *)
Lemma asfreq_returns (idx df : Indexed value) :
  asfreq_d idx = Return df ->
  icolumns df = icolumns idx /\
  exists first,
    first <= last_day df /\
    map fst (irows df) = date_range first (last_day df).
Proof.
  unfold asfreq_d. destruct (irows idx) as [|[d0 c0] rest] eqn:Hrows; [discriminate|].
  intros H. inversion H; subst; clear H. cbn [icolumns irows].
  split; [reflexivity|].
  set (first := fold_right (fun r m => Z.min (fst r) m) d0 rest).
  set (last := fold_right (fun r m => Z.max (fst r) m) d0 rest).
  assert (Hle : first <= last).
  { pose proof (fold_min_le d0 fst rest). pose proof (fold_max_ge d0 fst rest).
    unfold first, last. lia. }
  destruct (date_range_last first last Hle) as [Hne Hlast].
  exists first. unfold last_day. cbn [irows].
  rewrite (last_map_nonempty _ _ 0) by assumption.
  cbn [fst]. rewrite Hlast. split; [assumption|].
  rewrite map_map. cbn [fst]. apply map_id.
Qed.

Lemma time_series_returns (self : CovidArimaModel) (df : Indexed value) :
  get_covid_time_series self = Return df ->
  exists first,
    first <= last_day df /\
    map fst (irows df) = date_range first (last_day df).
Proof.
  unfold get_covid_time_series.
  destruct (group_by _ _) as [e|g]; [discriminate|]. cbn [bind].
  destruct (set_index _ _) as [e|idx]; [discriminate|]. cbn [bind].
  intros H. now apply asfreq_returns in H as [_ H].
Qed.

Lemma icell_absent {C : Type} (na : C) (cs : list string) (r : list C) (c : string) :
  contains cs c = false -> icell na cs r c = na.
Proof.
  revert r. induction cs as [|c0 cs IH]; intros r H; [now destruct r|].
  rewrite contains_cons in H. apply orb_false_iff in H as [H1 H2].
  destruct r as [|v r]; [reflexivity|]. simpl. rewrite H1. now apply IH.
Qed.

Lemma find_label_none {A : Type} (g : nat -> Z * A) (base d : Z) (a n : nat) :
  (forall j, fst (g j) = base + Z.of_nat j) -> d < base ->
  find (fun r => fst r =? d) (map g (seq a n)) = None.
Proof.
  intros Hg Hd. revert a. induction n as [|n IH]; intros a; [reflexivity|].
  simpl. rewrite Hg.
  replace (base + Z.of_nat a =? d) with false by (symmetry; apply Z.eqb_neq; lia).
  apply IH.
Qed.

Lemma find_label_some {A : Type} (g : nat -> Z * A) (base : Z) (a n i : nat) :
  (forall j, fst (g j) = base + Z.of_nat j) -> (a <= i < a + n)%nat ->
  find (fun r => fst r =? base + Z.of_nat i) (map g (seq a n)) = Some (g i).
Proof.
  intros Hg. revert a. induction n as [|n IH]; intros a Hi; [lia|].
  simpl. rewrite Hg.
  destruct (Nat.eq_dec a i) as [->|Hne].
  - now rewrite Z.eqb_refl.
  - replace (base + Z.of_nat a =? base + Z.of_nat i) with false
      by (symmetry; apply Z.eqb_neq; lia).
    apply IH. lia.
Qed.


(** A prediction that returns: its columns, and its rows as the rows of
    the series followed by the rows of the forecast, from [from_date] on. *)
Lemma prediction_returns (F : Type)
  (arima : list (Z * value) -> nat -> result (nat -> F * F * F))
  (self : CovidArimaModel) (property_to_predict : string) (from_date : Z)
  (days_to_forecast : nat) (df : Indexed value) (result : Indexed (fcell F)) :
  get_covid_time_series self = Return df ->
  get_prediction F arima self property_to_predict from_date days_to_forecast
    = Return result ->
  contains (icolumns df) property_to_predict = true /\
  exists forecast,
    arima (endog df property_to_predict) days_to_forecast = Return forecast /\
    icolumns result =
      series_columns (icolumns df)
      ++ [("lower " ++ property_to_predict)%string;
          ("upper " ++ property_to_predict)%string] /\
    irows result =
      filter (fun r => from_date <=? fst r)
             (map (history_row F (icolumns df)) (irows df)
              ++ map (forecast_row F (icolumns df) (last_day df) forecast)
                     (seq 0 days_to_forecast)).
Proof.
  intros Hts. unfold get_prediction. rewrite Hts. cbn [bind].
  destruct (contains (icolumns df) property_to_predict) eqn:Hprop;
    [|discriminate]. cbn [bind].
  fold (endog df property_to_predict).
  destruct (arima (endog df property_to_predict) days_to_forecast)
    as [e|forecast] eqn:Hfit; [discriminate|]. cbn [bind].
  unfold join.
  destruct (existsb _ _) eqn:Hoverlap; [discriminate|]. cbn [bind].
  intros H. apply Return_inj in H. subst result. cbn [icolumns irows].
  split; [reflexivity|]. exists forecast. split; [reflexivity|].
  split; [reflexivity|].
  f_equal.
  destruct (time_series_returns _ _ Hts) as (first & Hfirst & Hdates).
  unfold concat, observed. cbn [icolumns irows].
  fold (series_columns (icolumns df)).
  rewrite !map_app, !map_map. cbn [fst snd].
  f_equal.
  - apply map_ext_in. intros [d cells] Hr. cbn [fst snd].
    unfold history_row. cbn [fst snd]. f_equal.
    rewrite (find_label_none _ (last_day df + 1)).
    2:{ intros j. cbn [fst]. lia. }
    2:{ assert (Hd : In d (map fst (irows df))) by (apply in_map_iff; now exists (d, cells)).
        rewrite Hdates in Hd. apply date_range_bounds in Hd. lia. }
    f_equal. apply map_ext_in. intros c Hc.
    rewrite icell_map, (proj2 (contains_In _ _) Hc). apply icell_Cell.
  - apply map_ext_in. intros i Hi. apply in_seq in Hi.
    unfold forecast_row. f_equal.
    replace (last_day df + 1 + Z.of_nat i)
      with ((last_day df + 1) + Z.of_nat i) by lia.
    rewrite (find_label_some
               (fun i0 => (last_day df + 1 + Z.of_nat i0,
                           [Float (snd (fst (forecast i0))); Float (snd (forecast i0))]))
               (last_day df + 1) 0 days_to_forecast i)
      by (try (intros j; cbn [fst]; lia); lia).
    cbn [snd]. f_equal.
    + apply map_ext_in. intros c Hc.
      now rewrite icell_map, (proj2 (contains_In _ _) Hc).
    + simpl. rewrite String.eqb_refl. reflexivity.
Qed.

(** ** The prediction keeps the history (C7) *)



(** ** The prediction is the history, then the forecast (C8) *)

(** C8, as stated, fails in the one continuous series: the forecast
    means do not continue the column of the metric.  In the prediction of
    [sample_model] for [Total_reported], the row of the last day of the
    series has its count under [Total_reported] and nothing under
    [predicted_mean]; the two rows of the forecast have their means under
    [predicted_mean] and nothing under [Total_reported]. *)
Lemma forecast_means_stand_beside_the_metric :
  get_prediction Z sample_arima sample_model "Total_reported" 18629 2 =
  Return
    (mkIndexed
       ["Total_reported"; "Deceased"; "Hospital_admission"; "predicted_mean";
        "lower Total_reported"; "upper Total_reported"]
       [(18629, [Cell (VNum 4); Cell (VNum 0); Cell (VNum 0); NaN; NaN; NaN]);
        (18630, [NaN; NaN; NaN; Float 100; Float 90; Float 110]);
        (18631, [NaN; NaN; NaN; Float 101; Float 90; Float 110])]).
Proof. vm_compute. reflexivity. Qed.

(** C8, amended.  A prediction that returns is one frame indexed by date.
    Its columns are those of the daily series, then [predicted_mean] unless
    the series has a column of that name, then the lower and the upper
    bound of the metric.  The rows of the series followed by one row for
    each of the [days_to_forecast] steps are dated with consecutive days; a
    row of the series has the cells of the series and no bound; a row of
    the forecast has the predicted mean of its step under [predicted_mean],
    the two bounds, and no other cell, none under the metric unless the
    metric is [predicted_mean] itself; and the frame holds, in this order,
    exactly those of these rows that are dated [from_date] or later. *)
Theorem prediction_is_history_then_forecast (F : Type)
  (arima : list (Z * value) -> nat -> result (nat -> F * F * F))
  (self : CovidArimaModel) (property_to_predict : string) (from_date : Z)
  (days_to_forecast : nat) (df : Indexed value) (result : Indexed (fcell F)) :
  get_covid_time_series self = Return df ->
  get_prediction F arima self property_to_predict from_date days_to_forecast
    = Return result ->
  exists forecast first,
    let cols :=
      icolumns df
      ++ (if contains (icolumns df) "predicted_mean" then [] else ["predicted_mean"]) in
    let history :=
      map (fun r => (fst r,
                     map (fun c => Cell (icell VNull (icolumns df) (snd r) c)) cols
                     ++ [NaN; NaN]))
          (irows df) in
    let forecasts :=
      map (fun i => (last_day df + 1 + Z.of_nat i,
                     map (fun c => if String.eqb c "predicted_mean"
                                   then Float (fst (fst (forecast i)))
                                   else NaN) cols
                     ++ [Float (snd (fst (forecast i)));
                         Float (snd (forecast i))]))
          (seq 0 days_to_forecast) in
    arima (endog df property_to_predict) days_to_forecast = Return forecast /\
    icolumns result =
      cols ++ [("lower " ++ property_to_predict)%string;
               ("upper " ++ property_to_predict)%string] /\
    map fst (history ++ forecasts) =
      date_range first (last_day df + Z.of_nat days_to_forecast) /\
    irows result = filter (fun r => from_date <=? fst r) (history ++ forecasts) /\
    (forall r, In r (irows result) <->
               In r (history ++ forecasts) /\ from_date <= fst r) /\
    (property_to_predict <> "predicted_mean" ->
     forall r, In r forecasts ->
               icell NaN (icolumns result) (snd r) property_to_predict = NaN).
Proof.
  intros Hts Hpred.
  destruct (prediction_returns _ _ _ _ _ _ _ _ Hts Hpred)
    as (Hprop & forecast & Hfit & Hcols & Hrows).
  destruct (time_series_returns _ _ Hts) as (first & Hfirst & Hdates).
  assert (Hsc : series_columns (icolumns df) =
                icolumns df
                ++ (if contains (icolumns df) "predicted_mean" then []
                    else ["predicted_mean"])).
  { unfold series_columns. cbn [filter].
    now destruct (contains (icolumns df) "predicted_mean"). }
  exists forecast, first. cbv zeta. rewrite <- Hsc.
  assert (Hfc : map (forecast_row F (icolumns df) (last_day df) forecast)
                    (seq 0 days_to_forecast) =
                map (fun i => (last_day df + 1 + Z.of_nat i,
                               map (fun c => if String.eqb c "predicted_mean"
                                             then Float (fst (fst (forecast i)))
                                             else NaN)
                                   (series_columns (icolumns df))
                               ++ [Float (snd (fst (forecast i)));
                                   Float (snd (forecast i))]))
                    (seq 0 days_to_forecast)).
  { apply map_ext. intros i. unfold forecast_row. f_equal. }
  change (map (history_row F (icolumns df)) (irows df))
    with (map (fun r => (fst r,
                         map (fun c => @Cell F (icell VNull (icolumns df) (snd r) c))
                             (series_columns (icolumns df))
                         ++ [@NaN F; @NaN F]))
              (irows df)) in Hrows.
  rewrite Hfc in Hrows.
  split; [assumption|].
  split; [assumption|].
  split.
  { rewrite map_app, !map_map. cbn [fst].
    change (map (fun x : Z * list value => fst x) (irows df))
      with (map fst (irows df)).
    rewrite Hdates. now apply date_range_extend. }
  split; [assumption|].
  split.
  { intros r. rewrite Hrows, filter_In, Z.leb_le. reflexivity. }
  intros Hne r Hr. apply in_map_iff in Hr. destruct Hr as [i [<- _]].
  cbn [snd]. rewrite Hcols, icell_app by apply length_map.
  assert (Hc : contains (series_columns (icolumns df)) property_to_predict = true).
  { unfold series_columns. rewrite contains_app, Hprop. reflexivity. }
  rewrite Hc, icell_map, Hc.
  apply String.eqb_neq in Hne. now rewrite Hne.
Qed.

(** On the prediction of [sample_model]. *)
Lemma prediction_is_history_then_forecast_witness :
  exists forecast first,
    let cols :=
      icolumns sample_series
      ++ (if contains (icolumns sample_series) "predicted_mean" then []
          else ["predicted_mean"]) in
    let history :=
      map (fun r => (fst r,
                     map (fun c => Cell (icell VNull (icolumns sample_series) (snd r) c))
                         cols
                     ++ [NaN; NaN]))
          (irows sample_series) in
    let forecasts :=
      map (fun i => (last_day sample_series + 1 + Z.of_nat i,
                     map (fun c => if String.eqb c "predicted_mean"
                                   then Float (fst (fst (forecast i)))
                                   else NaN) cols
                     ++ [Float (snd (fst (forecast i)));
                         Float (snd (forecast i))]))
          (seq 0 2) in
    sample_arima (endog sample_series "Total_reported") 2 = Return forecast /\
    icolumns sample_prediction =
      cols ++ [("lower " ++ "Total_reported")%string;
               ("upper " ++ "Total_reported")%string] /\
    map fst (history ++ forecasts) =
      date_range first (last_day sample_series + Z.of_nat 2) /\
    irows sample_prediction
      = filter (fun r => 18629 <=? fst r) (history ++ forecasts) /\
    (forall r, In r (irows sample_prediction) <->
               In r (history ++ forecasts) /\ 18629 <= fst r) /\
    ("Total_reported" <> "predicted_mean" ->
     forall r, In r forecasts ->
               icell NaN (icolumns sample_prediction) (snd r) "Total_reported" = NaN).
Proof.
  apply (prediction_is_history_then_forecast Z sample_arima sample_model
           "Total_reported" 18629 2 sample_series sample_prediction);
    vm_compute; reflexivity.
Defined.

(** ** Further properties of [group_by] *)

Lemma in_keyed_rows (cs by_ : list string) (rs : list (list value)) (r : list value) :
  In r (keyed_rows cs by_ rs) <->
  In r rs /\ forallb notna (key_of cs by_ r) = true.
Proof.
  unfold keyed_rows.
  apply (filter_In (fun r => forallb notna (key_of cs by_ r))).
Qed.

(** X1 ([group_by]): the frame [group_by] returns has one row for each
    distinct key that a row of the dataset has without a missing cell, and
    no other row; the rows come in strictly ascending key order. *)
Theorem group_by_has_one_row_per_complete_key
  (dataset grouped : DataFrame) (grouping_columns : list string) :
  NoDup grouping_columns ->
  group_by dataset grouping_columns = Return grouped ->
  let keys := map (key_of (names grouped) grouping_columns) (rows grouped) in
  StronglySorted key_lt keys /\
  NoDup keys /\
  forall k, In k keys <->
            forallb notna k = true /\
            exists r, In r (rows dataset) /\
                      key_of (names dataset) grouping_columns r = k.
Proof.
  intros _ H. apply group_by_returns in H. destruct H as (_ & _ & _ & ->).
  cbv zeta. rewrite groupby_sum_keys.
  split; [apply sorted_keys_sorted|].
  split; [apply sorted_NoDup, sorted_keys_sorted|].
  intros k. rewrite in_sorted_keys, in_map_iff. split.
  - intros [r [<- Hr]]. apply in_keyed_rows in Hr. destruct Hr as [Hr Hn].
    split; [exact Hn|]. exists r. now split.
  - intros [Hn [r [Hr <-]]]. exists r. split; [reflexivity|].
    apply in_keyed_rows. now split.
Qed.

Lemma group_by_has_one_row_per_complete_key_witness :
  let keys := map (key_of (names (groupby_sum sample_cases ["Province"])) ["Province"])
                  (rows (groupby_sum sample_cases ["Province"])) in
  StronglySorted key_lt keys /\
  NoDup keys /\
  forall k, In k keys <->
            forallb notna k = true /\
            exists r, In r (rows sample_cases) /\
                      key_of (names sample_cases) ["Province"] r = k.
Proof.
  apply (group_by_has_one_row_per_complete_key sample_cases
           (groupby_sum sample_cases ["Province"]) ["Province"]).
  - repeat constructor. simpl. tauto.
  - reflexivity.
Defined.




(** ** Further properties of the filters *)

Lemma filter_by_year_returns (dataset subset : DataFrame) (year : Z) :
  filter_by_year dataset year = Return subset ->
  contains (names dataset) "Date_of_publication" = true /\
  dtype_of (columns dataset) "Date_of_publication" = Some Datetime /\
  columns subset = columns dataset /\
  rows subset = filter (fun r => match cell (names dataset) r "Date_of_publication" with
                                 | VDate d => dt_year d =? year
                                 | _ => false
                                 end) (rows dataset).
Proof.
  unfold filter_by_year.
  destruct (contains (names dataset) "Date_of_publication"); cbn [negb]; [|discriminate].
  destruct (dtype_of (columns dataset) "Date_of_publication") as [[]|]; try discriminate.
  intros H. apply Return_inj in H. subst subset. now cbn [columns rows].
Qed.

Lemma filter_by_province_returns (str_lower : string -> string)
  (dataset subset : DataFrame) (province : string) :
  filter_by_province str_lower dataset province = Return subset ->
  contains (names dataset) "Province" = true /\
  dtype_of (columns dataset) "Province" = Some Object /\
  columns subset = columns dataset /\
  rows subset = filter (fun r => match cell (names dataset) r "Province" with
                                 | VStr s => String.eqb (str_lower s) (str_lower province)
                                 | _ => false
                                 end) (rows dataset).
Proof.
  unfold filter_by_province.
  destruct (contains (names dataset) "Province"); cbn [negb]; [|discriminate].
  destruct (dtype_of (columns dataset) "Province") as [[]|]; try discriminate.
  intros H. apply Return_inj in H. subst subset. now cbn [columns rows].
Qed.

Lemma filter_by_year_ok (dataset : DataFrame) (year : Z) :
  contains (names dataset) "Date_of_publication" = true ->
  dtype_of (columns dataset) "Date_of_publication" = Some Datetime ->
  filter_by_year dataset year =
  Return (mkDataFrame (columns dataset)
            (filter (fun r => match cell (names dataset) r "Date_of_publication" with
                              | VDate d => dt_year d =? year
                              | _ => false
                              end) (rows dataset))).
Proof. intros H1 H2. unfold filter_by_year. now rewrite H1, H2. Qed.


Lemma names_columns (df df' : DataFrame) :
  columns df' = columns df -> names df' = names df.
Proof. unfold names. now intros ->. Qed.


(** ** Properties of [CovidDashboardManager] *)

Lemma value_eqb_eq (a b : value) : value_eqb a b = true <-> a = b.
Proof.
  unfold value_eqb. rewrite <- value_compare_eq.
  destruct (value_compare a b); split; congruence.
Qed.

Lemma in_unique (v : value) (l : list value) : In v (unique l) <-> In v l.
Proof.
  induction l as [|a l IH]; [reflexivity|].
  cbn [unique In]. rewrite filter_In, IH. split.
  - intros [H|[H _]]; auto.
  - intros [H|H]; [now left|].
    destruct (value_eqb a v) eqn:E.
    + left. now apply value_eqb_eq.
    + right. split; [exact H|reflexivity].
Qed.

Lemma NoDup_unique (l : list value) : NoDup (unique l).
Proof.
  induction l as [|a l IH]; [constructor|].
  cbn [unique]. constructor.
  - rewrite filter_In. intros [_ H].
    assert (E : value_eqb a a = true) by now apply value_eqb_eq.
    rewrite E in H. discriminate.
  - now apply NoDup_filter.
Qed.

Lemma getattr_returns (df : DataFrame) (c : string) (col : list value) :
  getattr df c = Return col ->
  contains (names df) c = true /\ col = map (fun r => cell (names df) r c) (rows df).
Proof.
  unfold getattr. destruct (contains (names df) c); [|discriminate].
  intros H. apply Return_inj in H. now split.
Qed.

(** X4 ([get_provinces]): the list for the dropdown starts with the two
    fixed items; after them comes every value of the Province column of the
    dataset, each once. *)
Theorem get_provinces_lists_each_province_once
  (self : Dashboard.CovidDashboardManager) (items : list value) :
  Dashboard.get_provinces self = Return items ->
  exists provinces,
    items = VStr "Netherlands" :: VStr "All provinces" :: provinces /\
    NoDup provinces /\
    forall v, In v provinces <->
              exists r, In r (rows (Dashboard.dataset self)) /\
                        cell (names (Dashboard.dataset self)) r "Province" = v.
Proof.
  unfold Dashboard.get_provinces, bind.
  destruct (getattr (Dashboard.dataset self) "Province") as [e|col] eqn:Hg;
    [discriminate|].
  intros H. apply Return_inj in H. subst items.
  apply getattr_returns in Hg. destruct Hg as [_ ->].
  exists (unique (map (fun r => cell (names (Dashboard.dataset self)) r "Province")
                      (rows (Dashboard.dataset self)))).
  split; [reflexivity|]. split; [apply NoDup_unique|].
  intros v. rewrite in_unique, in_map_iff. split.
  - intros [r [H1 H2]]. exists r. now split.
  - intros [r [H1 H2]]. exists r. now split.
Qed.

Lemma get_provinces_lists_each_province_once_witness :
  exists provinces,
    [VStr "Netherlands"; VStr "All provinces"; VStr "Utrecht"; VStr "Limburg"]
      = VStr "Netherlands" :: VStr "All provinces" :: provinces /\
    NoDup provinces /\
    forall v, In v provinces <->
              exists r, In r (rows (Dashboard.dataset sample_manager)) /\
                        cell (names (Dashboard.dataset sample_manager)) r "Province" = v.
Proof.
  apply (get_provinces_lists_each_province_once sample_manager). reflexivity.
Defined.

(** X5 ([get_years], [filter_by_year]): the years offered for selection are
    distinct, and a year is among them exactly when [filter_by_year] keeps a
    row of the dataset for it. *)
Theorem get_years_are_the_years_with_rows
  (self : Dashboard.CovidDashboardManager) (years : list value) :
  Dashboard.get_years self = Return years ->
  NoDup years /\
  forall y, In (VNum y) years <->
            exists subset, filter_by_year (Dashboard.dataset self) y = Return subset /\
                           rows subset <> [].
Proof.
  unfold Dashboard.get_years, bind.
  destruct (getattr (Dashboard.dataset self) "Date_of_publication") as [e|col] eqn:Hg;
    [discriminate|].
  apply getattr_returns in Hg. destruct Hg as [Hc ->].
  destruct (dtype_of (columns (Dashboard.dataset self)) "Date_of_publication")
    as [[]|] eqn:Ht; try discriminate.
  intros H. apply Return_inj in H. subst years.
  split; [apply NoDup_unique|].
  intros y. rewrite in_unique, map_map, in_map_iff.
  rewrite (filter_by_year_ok _ y Hc Ht). split.
  - intros [r [Hy Hr]]. eexists. split; [reflexivity|]. cbn [rows].
    intros Hn.
    assert (Hin : In r (filter (fun r => match cell (names (Dashboard.dataset self)) r
                                                "Date_of_publication" with
                                         | VDate d => dt_year d =? y
                                         | _ => false
                                         end) (rows (Dashboard.dataset self)))).
    { apply filter_In. split; [exact Hr|].
      destruct (cell (names (Dashboard.dataset self)) r "Date_of_publication");
        try discriminate.
      cbn [year_of_cell] in Hy. injection Hy as Hy. now apply Z.eqb_eq. }
    rewrite Hn in Hin. destruct Hin.
  - intros [subset [Hs Hne]]. apply Return_inj in Hs. subst subset. cbn [rows] in Hne.
    destruct (filter _ _) as [|r rs] eqn:Hf; [congruence|].
    assert (Hin : In r (r :: rs)) by now left.
    rewrite <- Hf in Hin. apply filter_In in Hin. destruct Hin as [Hr Hy].
    exists r. split; [|exact Hr].
    destruct (cell (names (Dashboard.dataset self)) r "Date_of_publication");
      try discriminate.
    cbn [year_of_cell]. apply Z.eqb_eq in Hy. now subst.
Qed.

Lemma get_years_are_the_years_with_rows_witness :
  NoDup [VNum 2021] /\
  forall y, In (VNum y) [VNum 2021] <->
            exists subset,
              filter_by_year (Dashboard.dataset sample_manager) y = Return subset /\
              rows subset <> [].
Proof.
  apply (get_years_are_the_years_with_rows sample_manager). reflexivity.
Defined.

Lemma filter_by_selected_year_returns (self : Dashboard.CovidDashboardManager)
  (subset : DataFrame) :
  Dashboard.filter_by_selected_year self = Return subset ->
  contains (names (Dashboard.dataset self)) "Date_of_publication" = true /\
  dtype_of (columns (Dashboard.dataset self)) "Date_of_publication" = Some Datetime /\
  columns subset = columns (Dashboard.dataset self) /\
  rows subset =
    filter (fun r => match Dashboard.year self,
                           cell (names (Dashboard.dataset self)) r
                                "Date_of_publication" with
                     | Some y, VDate d => dt_year d =? y
                     | _, _ => false
                     end) (rows (Dashboard.dataset self)).
Proof.
  unfold Dashboard.filter_by_selected_year.
  destruct (Dashboard.year self) as [y|].
  - intros H. apply filter_by_year_returns in H.
    destruct H as (H1 & H2 & H3 & H4). repeat split; assumption.
  - unfold bind.
    destruct (filter_by_year (Dashboard.dataset self) 0) as [e|df] eqn:H; [discriminate|].
    intros H'. apply Return_inj in H'. subst subset.
    apply filter_by_year_returns in H. destruct H as (H1 & H2 & H3 & H4).
    cbn [columns rows]. repeat split; try assumption.
    symmetry. apply filter_none. reflexivity.
Qed.

Lemma selected_filter_raises_attribute_error (self : Dashboard.CovidDashboardManager)
  (e : exn) :
  Dashboard.filter_by_selected_year self = Raise e ->
  exists msg, e = AttributeError msg.
Proof.
  assert (H : forall y e, filter_by_year (Dashboard.dataset self) y = Raise e ->
                          exists msg, e = AttributeError msg).
  { intros y e'. unfold filter_by_year.
    destruct (contains _ _); cbn [negb].
    - destruct (dtype_of _ _) as [[]|]; intros [= <-]; eauto.
    - intros [= <-]; eauto. }
  unfold Dashboard.filter_by_selected_year.
  destruct (Dashboard.year self) as [y|]; [apply H|].
  unfold bind.
  destruct (filter_by_year (Dashboard.dataset self) 0) as [e'|df] eqn:H0.
  - intros [= <-]. eapply H, H0.
  - discriminate.
Qed.

(** X6 ([__init__], [get_data_for_barplot], [get_data_for_pie_plot]): a
    manager as [__init__] leaves it has no province selected, and asking it
    for the data of a plot before [update_current_state] has been called
    raises AttributeError. *)
Theorem plot_data_before_a_selection_raises
  (str_lower : string -> string)
  (data_provider : CovidDataProvider) (self : Dashboard.CovidDashboardManager) :
  Dashboard.init data_provider = Return self ->
  (exists msg, Dashboard.get_data_for_barplot str_lower self
               = Raise (AttributeError msg)) /\
  (exists msg, Dashboard.get_data_for_pie_plot str_lower self
               = Raise (AttributeError msg)).
Proof.
  unfold Dashboard.init, bind.
  destruct (new_model data_provider) as [e|m]; [discriminate|].
  destruct (get_dataset data_provider) as [ds|]; [|discriminate].
  intros H. apply Return_inj in H. subst self.
  unfold Dashboard.get_data_for_barplot, Dashboard.get_data_for_pie_plot, bind.
  destruct (Dashboard.filter_by_selected_year _) as [e|df] eqn:Hf.
  - apply selected_filter_raises_attribute_error in Hf. destruct Hf as [msg ->].
    split; exists msg; reflexivity.
  - cbn [Dashboard.province_lower Dashboard.province]. split; eexists; reflexivity.
Qed.

Lemma plot_data_before_a_selection_raises_witness :
  (exists msg, Dashboard.get_data_for_barplot lower_latin sample_manager
               = Raise (AttributeError msg)) /\
  (exists msg, Dashboard.get_data_for_pie_plot lower_latin sample_manager
               = Raise (AttributeError msg)).
Proof.
  apply (plot_data_before_a_selection_raises lower_latin
           (mkProvider empty_frame empty_frame (Some (Dashboard.dataset sample_manager)))).
  reflexivity.
Defined.

(** X7 ([get_data_for_pie_plot], [get_data_for_barplot]): the data of the
    pie plot is the data of the bar plot with the municipalities shown,
    where for the province 'Netherlands' the bar plot is asked for 'all
    provinces'. *)
Theorem pie_data_is_barplot_data_by_municipality
  (str_lower : string -> string) (self : Dashboard.CovidDashboardManager) :
  lowers_latin str_lower ->
  Dashboard.get_data_for_pie_plot str_lower self =
  Dashboard.get_data_for_barplot str_lower
    (Dashboard.mkManager
       (Dashboard.arima_model self) (Dashboard.dataset self)
       (option_map (fun p => if String.eqb (str_lower p) "netherlands"
                             then "all provinces" else p)
                   (Dashboard.province self))
       (Dashboard.year self) true (Dashboard.show_months self)
       (Dashboard.show_total_reported self)
       (Dashboard.show_hospital_admission self)
       (Dashboard.show_deceased self)).
Proof.
  intros Hlower.
  assert (Hall : str_lower "all provinces" = "all provinces")
    by (now rewrite Hlower).
  unfold Dashboard.get_data_for_pie_plot, Dashboard.get_data_for_barplot.
  change (Dashboard.filter_by_selected_year (Dashboard.mkManager _ _ _ _ _ _ _ _ _))
    with (Dashboard.filter_by_selected_year self).
  unfold bind.
  destruct (Dashboard.filter_by_selected_year self) as [e|df]; [reflexivity|].
  unfold Dashboard.province_lower, Dashboard.selected_province.
  cbn [Dashboard.province Dashboard.show_municipalities].
  destruct (Dashboard.province self) as [p|]; [|reflexivity].
  cbn [option_map].
  destruct (String.eqb (str_lower p) "netherlands") eqn:E1.
  - rewrite Hall. rewrite orb_true_r. reflexivity.
  - rewrite E1, orb_false_r.
    destruct (String.eqb (str_lower p) "all provinces"); reflexivity.
Qed.

Lemma pie_data_is_barplot_data_by_municipality_witness :
  Dashboard.get_data_for_pie_plot lower_latin
    (Dashboard.update_current_state sample_manager 2021 true true true
                                    "Netherlands" false false) =
  Dashboard.get_data_for_barplot lower_latin
    (Dashboard.update_current_state sample_manager 2021 true true true
                                    "all provinces" true false).
Proof.
  apply (pie_data_is_barplot_data_by_municipality lower_latin
           (Dashboard.update_current_state sample_manager 2021 true true true
                                           "Netherlands" false false)).
  intros s _. reflexivity.
Defined.

Lemma barplot_data_returns (str_lower : string -> string)
  (self : Dashboard.CovidDashboardManager) (df : DataFrame) :
  Dashboard.get_data_for_barplot str_lower self = Return df ->
  exists p filtered by_,
    Dashboard.province self = Some p /\
    columns filtered = columns (Dashboard.dataset self) /\
    incl by_ (names filtered) /\
    exact_sums filtered = true /\
    df = groupby_sum filtered by_ /\
    by_ = (if String.eqb (str_lower p) "netherlands" then ["Year"]
           else if String.eqb (str_lower p) "all provinces" then ["Year"; "Province"]
           else if Dashboard.show_municipalities self
                then ["Year"; "Province"; "Municipality_name"]
           else if Dashboard.show_months self then ["Year"; "Month"]
           else ["Year"; "Province"]) /\
    rows filtered =
      filter (fun r =>
                match cell (names (Dashboard.dataset self)) r "Province" with
                | VStr s => String.eqb (str_lower p) "netherlands"
                            || String.eqb (str_lower p) "all provinces"
                            || String.eqb (str_lower s) (str_lower p)
                | _ => String.eqb (str_lower p) "netherlands"
                       || String.eqb (str_lower p) "all provinces"
                end)
             (filter (fun r => match Dashboard.year self,
                                     cell (names (Dashboard.dataset self)) r
                                          "Date_of_publication" with
                               | Some y, VDate d => dt_year d =? y
                               | _, _ => false
                               end) (rows (Dashboard.dataset self))).
Proof.
  unfold Dashboard.get_data_for_barplot, bind.
  destruct (Dashboard.filter_by_selected_year self) as [e|d1] eqn:Hy; [discriminate|].
  apply filter_by_selected_year_returns in Hy. destruct Hy as (_ & _ & Hcol & Hrows).
  unfold Dashboard.province_lower, Dashboard.selected_province.
  destruct (Dashboard.province self) as [p|]; [|discriminate].
  destruct (String.eqb (str_lower p) "netherlands") eqn:E1.
  { intros H. apply group_by_returns in H. destruct H as (Hi & _ & Hex & ->).
    exists p, d1, ["Year"]. rewrite ?E1.
    repeat split; try assumption; try reflexivity.
    rewrite Hrows. symmetry. apply filter_all. intros r _.
    now destruct (cell _ r "Province"). }
  destruct (String.eqb (str_lower p) "all provinces") eqn:E2.
  { intros H. apply group_by_returns in H. destruct H as (Hi & _ & Hex & ->).
    exists p, d1, ["Year"; "Province"]. rewrite ?E1, ?E2, ?orb_true_r.
    repeat split; try assumption; try reflexivity.
    rewrite Hrows. symmetry. apply filter_all. intros r _.
    now destruct (cell _ r "Province"). }
  destruct (filter_by_province str_lower d1 p) as [e|d2] eqn:Hp; [discriminate|].
  apply filter_by_province_returns in Hp. destruct Hp as (_ & _ & Hcol2 & Hrows2).
  rewrite (names_columns _ _ Hcol) in Hrows2.
  assert (Hr : rows d2 =
    filter (fun r =>
              match cell (names (Dashboard.dataset self)) r "Province" with
              | VStr s => false || false || String.eqb (str_lower s) (str_lower p)
              | _ => false || false
              end)
           (filter (fun r => match Dashboard.year self,
                                   cell (names (Dashboard.dataset self)) r
                                        "Date_of_publication" with
                             | Some y, VDate d => dt_year d =? y
                             | _, _ => false
                             end) (rows (Dashboard.dataset self)))).
  { rewrite Hrows2, Hrows. reflexivity. }
  assert (Hc : columns d2 = columns (Dashboard.dataset self)) by congruence.
  destruct (Dashboard.show_municipalities self);
    [|destruct (Dashboard.show_months self)];
    intros H; apply group_by_returns in H; destruct H as (Hi & _ & Hex & ->);
    exists p, d2; eexists; rewrite ?E1, ?E2; repeat split; try eassumption; reflexivity.
Qed.

Lemma barplot_parameters_return (str_lower : string -> string)
  (self : Dashboard.CovidDashboardManager)
  (x : string) (y : list string) (title : string) :
  Dashboard._get_barplot_parameters str_lower self = Return (x, y, title) ->
  exists p,
    Dashboard.province self = Some p /\
    x = (if String.eqb (str_lower p) "netherlands" then "Year"
         else if String.eqb (str_lower p) "all provinces" then "Province"
         else if Dashboard.show_municipalities self then "Municipality_name"
         else if Dashboard.show_months self then "Month"
         else "Province") /\
    y = (if Dashboard.show_total_reported self then ["Total_reported"] else [])
        ++ (if Dashboard.show_hospital_admission self then ["Hospital_admission"] else [])
        ++ (if Dashboard.show_deceased self then ["Deceased"] else []).
Proof.
  unfold Dashboard._get_barplot_parameters, bind, Dashboard.province_lower.
  destruct (Dashboard.province self) as [p|]; [|discriminate].
  intros H. apply Return_inj in H. exists p. split; [reflexivity|].
  injection H as Hx Hy _. subst y. split; [|reflexivity].
  rewrite <- Hx.
  cbv beta iota.
  destruct (String.eqb (str_lower p) "netherlands"); [reflexivity|].
  destruct (String.eqb (str_lower p) "all provinces"); [reflexivity|].
  destruct (Dashboard.show_municipalities self); [reflexivity|].
  destruct (Dashboard.show_months self); reflexivity.
Qed.

(** X8 ([_get_barplot_parameters], [get_data_for_barplot]): the parameters
    of the bar plot fit its data: the column of the x axis is a column of
    the frame [get_data_for_barplot] returns, and so is every column to
    plot that is numeric in the dataset. *)
Theorem barplot_parameters_name_columns_of_the_data
  (str_lower : string -> string)
  (self : Dashboard.CovidDashboardManager) (x : string) (y : list string)
  (title : string) (df : DataFrame) :
  Dashboard._get_barplot_parameters str_lower self = Return (x, y, title) ->
  Dashboard.get_data_for_barplot str_lower self = Return df ->
  In x (names df) /\
  forall c, In c y ->
            dtype_of (columns (Dashboard.dataset self)) c = Some Numeric ->
            In c (names df).
Proof.
  intros Hp Hd.
  apply barplot_parameters_return in Hp. destruct Hp as (p & Hp & Hx & Hy).
  apply barplot_data_returns in Hd.
  destruct Hd as (p' & filtered & by_ & Hp' & Hcol & _ & _ & -> & Hby & _).
  assert (p' = p) by congruence. subst p'.
  rewrite names_groupby_sum. split.
  - apply in_or_app. left. subst x by_.
    destruct (String.eqb (str_lower p) "netherlands"); [simpl; tauto|].
    destruct (String.eqb (str_lower p) "all provinces"); [simpl; tauto|].
    destruct (Dashboard.show_municipalities self); [simpl; tauto|].
    destruct (Dashboard.show_months self); simpl; tauto.
  - intros c Hc Ht. apply in_or_app. right.
    apply in_map_iff. exists (c, Numeric). split; [reflexivity|].
    apply filter_In. rewrite Hcol. split; [now apply dtype_of_In|].
    cbn [fst snd dtype_eqb andb]. apply negb_true_iff, contains_false.
    assert (Hc' : c = "Total_reported" \/ c = "Hospital_admission" \/ c = "Deceased").
    { subst y. apply in_app_or in Hc. destruct Hc as [Hc|Hc].
      - destruct (Dashboard.show_total_reported self); simpl in Hc; intuition congruence.
      - apply in_app_or in Hc. destruct Hc as [Hc|Hc].
        + destruct (Dashboard.show_hospital_admission self); simpl in Hc; intuition congruence.
        + destruct (Dashboard.show_deceased self); simpl in Hc; intuition congruence. }
    subst by_.
    destruct (String.eqb (str_lower p) "netherlands");
      [|destruct (String.eqb (str_lower p) "all provinces");
        [|destruct (Dashboard.show_municipalities self);
          [|destruct (Dashboard.show_months self)]]];
      simpl; intros H; destruct Hc' as [->|[->| ->]]; intuition discriminate.
Qed.

Lemma barplot_parameters_name_columns_of_the_data_witness :
  let self := Dashboard.update_current_state sample_manager 2021 true true false
                                             "Utrecht" false true in
  In "Month" (names (groupby_sum
                       (mkDataFrame (columns (Dashboard.dataset sample_manager))
                                    (firstn 2 (rows (Dashboard.dataset sample_manager))))
                       ["Year"; "Month"])) /\
  forall c, In c ["Total_reported"; "Hospital_admission"] ->
            dtype_of (columns (Dashboard.dataset self)) c = Some Numeric ->
            In c (names (groupby_sum
                           (mkDataFrame (columns (Dashboard.dataset sample_manager))
                                        (firstn 2 (rows (Dashboard.dataset sample_manager))))
                           ["Year"; "Month"])).
Proof.
  apply (barplot_parameters_name_columns_of_the_data lower_latin
           (Dashboard.update_current_state sample_manager 2021 true true false
                                           "Utrecht" false true)
           "Month" ["Total_reported"; "Hospital_admission"] "Utrecht 2021 by month").
  - reflexivity.
  - reflexivity.
Defined.





(** ** Further properties of the build *)




















(** ** Further properties of the daily series and the prediction *)




(** The index and the cells [set_index] gives a row. *)
Lemma set_index_returns (df : DataFrame) (c : string) (idx : Indexed value) :
  set_index df c = Return idx ->
  icolumns idx = filter (fun c' => negb (contains [c] c')) (names df) /\
  Forall2 (fun r p => cell (names df) r c = VDate (fst p) /\
                      snd p = drop_cells (names df) r [c])
          (rows df) (irows idx).
Proof.
  unfold set_index. destruct (contains (names df) c); cbn [negb]; [|discriminate].
  destruct (dtype_of (columns df) c) as [[]|]; try discriminate.
  unfold bind. destruct (mapM _ (rows df)) as [e|rs] eqn:Hm; [discriminate|].
  intros H. apply Return_inj in H. subst idx. cbn [icolumns irows]. split.
  - apply filter_ext. intros c'. cbn [contains existsb].
    now rewrite orb_false_r, String.eqb_sym.
  - apply mapM_Forall2 in Hm.
    induction Hm as [|r p rs ps Hrp _ IH]; constructor; [|exact IH].
    destruct (cell (names df) r c); try discriminate.
    apply Return_inj in Hrp. subst p. now split.
Qed.





(** X13 ([get_prediction]): asking for the prediction of a column that is
    no numeric column of the dataset, the province or the year for
    instance, raises KeyError, and the series is not fitted. *)
Theorem prediction_of_a_column_without_numbers_raises (F : Type)
  (arima : list (Z * value) -> nat -> result (nat -> F * F * F))
  (self : CovidArimaModel) (property_to_predict : string) (from_date : Z)
  (days_to_forecast : nat) (df : Indexed value) :
  get_covid_time_series self = Return df ->
  ~ In (property_to_predict, Numeric) (columns (model_dataset self)) ->
  get_prediction F arima self property_to_predict from_date days_to_forecast
    = Raise (KeyError [property_to_predict]).
Proof.
  intros Hts Hnum. unfold get_prediction. rewrite Hts. cbn [bind].
  replace (contains (icolumns df) property_to_predict) with false; [reflexivity|].
  symmetry. apply contains_false. intros Hin.
  unfold get_covid_time_series, bind in Hts.
  destruct (group_by (model_dataset self) ["Date_of_publication"]) as [e|g] eqn:Hg;
    [discriminate|].
  destruct (set_index g "Date_of_publication") as [e|idx] eqn:Hidx; [discriminate|].
  apply group_by_returns in Hg. destruct Hg as (_ & _ & _ & ->).
  apply set_index_returns in Hidx. destruct Hidx as [Hcols _].
  destruct (asfreq_returns _ _ Hts) as [Hdfc _].
  rewrite Hdfc, Hcols in Hin. apply filter_In in Hin. destruct Hin as [Hin Hd].
  rewrite names_groupby_sum in Hin. apply in_app_or in Hin.
  destruct Hin as [Hin|Hin].
  - simpl in Hin. destruct Hin as [<-|[]]. discriminate.
  - apply Hnum. apply in_map_iff in Hin. destruct Hin as [[c t] [E Hct]].
    cbn [fst] in E. subst c. apply filter_In in Hct. destruct Hct as [Hct Ht].
    cbn [fst snd] in Ht. apply andb_true_iff in Ht. destruct Ht as [Ht _].
    destruct t; try discriminate. exact Hct.
Qed.

Lemma prediction_of_a_column_without_numbers_raises_witness :
  get_prediction Z sample_arima sample_model "Province" 18629 2
    = Raise (KeyError ["Province"]).
Proof.
  apply (prediction_of_a_column_without_numbers_raises Z sample_arima sample_model
           "Province" 18629 2 sample_series).
  - reflexivity.
  - vm_compute. intuition discriminate.
Defined.
